(** * MosaicML Composer: the functional-API tutorial and the PR GPU workflow

    The repository material is a tutorial notebook
    ([examples/functional_api.ipynb]) and a GitHub Actions workflow
    ([.github/workflows/pr-gpu.yaml]).  This development embeds

    - the workflow file as a YAML tree with its [${{ ... }}] expressions
      and their evaluation (module [Workflow]);
    - the training loop [train_and_eval] of the notebook over an abstract
      deep-learning framework (module [Training]);
    - the notebook's cells: the objects they bind, the data pipeline and
      the model surgery call (module [Notebook]);
    - the training loop again with the names it reads resolved when it
      runs and the test targets as tensors of any shape (module
      [Dynamic]); [Training] is its restriction to the notebook's names
      and to the default collation. *)

From Stdlib Require Import ZArith QArith Lia Ascii String.
From stdpp Require Import base list strings gmap.

Set Warnings "-register-all".

Local Open Scope Z_scope.
Local Open Scope string_scope.
Local Open Scope list_scope.

(* ===================================================================== *)
(** * The workflow file [.github/workflows/pr-gpu.yaml] *)
(* ===================================================================== *)

Module Workflow.

(** ** Expressions of the workflow syntax *)

(** The contexts an expression of this file reads. *)
Inductive ctx_path :=
| github_workflow
| github_ref
| github_event_pull_request_number
| github_repository_owner
| matrix_field (f : string)
| secrets_field (f : string).

Inductive expr :=
| ELit (s : string)
| ECtx (p : ctx_path)
| EEq (a b : expr)
| ENeq (a b : expr)
| EAnd (a b : expr)
| EOr (a b : expr).

(** A YAML scalar of the file is plain text, or text with interpolated
    expressions. *)
Inductive part :=
| Txt (s : string)
| Interp (e : expr).

Inductive yaml :=
| YNull
| YStr (s : string)
| YNum (n : Z)
| YTpl (ps : list part)
| YMap (kvs : list (string * yaml))
| YSeq (items : list yaml).

(** ** The file, key by key (lines 1-30) *)

Definition cancel_in_progress_expr : expr :=
  EAnd (ENeq (ECtx github_ref) (ELit "refs/heads/main"))
       (ENeq (ECtx github_ref) (ELit "refs/heads/dev")).

Definition group_tpl : list part :=
  [Interp (ECtx github_workflow); Txt "-";
   Interp (EOr (ECtx github_event_pull_request_number) (ECtx github_ref))].

Definition matrix_entry : yaml :=
  YMap [("name", YStr "gpu-3.10-2.1");
        ("container", YStr "mosaicml/pytorch:2.1.0_cu121-python3.10-ubuntu20.04");
        ("markers", YStr "not daily and not remote and gpu and (doctest or not doctest)");
        ("pytest_command", YStr "coverage run -m pytest");
        ("composer_package_name", YStr "mosaicml")].

Definition pytest_gpu : yaml :=
  YMap [("uses", YStr "./.github/workflows/pytest-gpu.yaml");
        ("strategy", YMap [("matrix", YMap [("include", YSeq [matrix_entry])])]);
        ("name", YTpl [Interp (ECtx (matrix_field "name"))]);
        ("if", YTpl [Interp (EEq (ECtx github_repository_owner) (ELit "mosaicml"))]);
        ("with", YMap [("composer_package_name", YTpl [Interp (ECtx (matrix_field "composer_package_name"))]);
                       ("container", YTpl [Interp (ECtx (matrix_field "container"))]);
                       ("mcloud-timeout", YNum 1500);
                       ("name", YTpl [Interp (ECtx (matrix_field "name"))]);
                       ("pytest-command", YTpl [Interp (ECtx (matrix_field "pytest_command"))]);
                       ("pytest-markers", YTpl [Interp (ECtx (matrix_field "markers"))]);
                       ("python-version", YStr "3.9")]);
        ("secrets", YMap [("mcloud-api-key", YTpl [Interp (ECtx (secrets_field "MCLOUD_API_KEY"))])])].

Definition pr_gpu : yaml :=
  YMap [("name", YStr "PR GPU tests");
        ("on", YMap [("pull_request_target", YNull); ("workflow_dispatch", YNull)]);
        ("concurrency", YMap [("group", YTpl group_tpl);
                              ("cancel-in-progress", YTpl [Interp cancel_in_progress_expr])]);
        ("jobs", YMap [("pytest-gpu", pytest_gpu)])].

(** ** Reading the tree *)

Fixpoint assoc (k : string) (kvs : list (string * yaml)) : option yaml :=
  match kvs with
  | [] => None
  | (k', v) :: rest => if String.eqb k k' then Some v else assoc k rest
  end.

Definition get (k : string) (y : yaml) : option yaml :=
  match y with YMap kvs => assoc k kvs | _ => None end.

Fixpoint get_path (ks : list string) (y : yaml) : option yaml :=
  match ks with
  | [] => Some y
  | k :: rest => match get k y with Some v => get_path rest v | None => None end
  end.

Definition keys (y : yaml) : list string :=
  match y with YMap kvs => map fst kvs | _ => [] end.

Definition keys_at (ks : list string) (y : yaml) : list string :=
  match get_path ks y with Some v => keys v | None => [] end.

Definition items (y : yaml) : list yaml :=
  match y with YSeq l => l | _ => [] end.

(** Every key of the tree, at any depth. *)
Fixpoint all_keys (y : yaml) : list string :=
  match y with
  | YMap kvs =>
      (fix go (l : list (string * yaml)) : list string :=
         match l with
         | [] => []
         | (k, v) :: rest => k :: all_keys v ++ go rest
         end) kvs
  | YSeq l =>
      (fix go (l : list yaml) : list string :=
         match l with
         | [] => []
         | v :: rest => all_keys v ++ go rest
         end) l
  | _ => []
  end.

Definition triggers (w : yaml) : list string := keys_at ["on"] w.

Definition matrix_entries (job : yaml) : list yaml :=
  match get_path ["strategy"; "matrix"; "include"] job with
  | Some v => items v
  | None => []
  end.

(** The secrets a job passes on: the [secrets.X] read by each entry of its
    [secrets:] map. *)
Definition secret_refs (job : yaml) : list string :=
  match get "secrets" job with
  | Some (YMap kvs) =>
      flat_map (fun kv =>
                  match snd kv with
                  | YTpl [Interp (ECtx (secrets_field s))] => [s]
                  | _ => []
                  end) kvs
  | _ => []
  end.

(** ** Evaluating expressions *)

(** What a run supplies to the expressions. *)
Record github_ctx := {
  workflow : string;
  ref : string;
  pull_request_number : option Z;
  repository_owner : string
}.

Inductive value :=
| VNull
| VBool (b : bool)
| VNum (n : Z)
| VStr (s : string).

(** GitHub Actions compares strings ignoring letter case. *)
Definition lower_ascii (c : ascii) : ascii :=
  let n := nat_of_ascii c in
  if (Nat.leb 65 n && Nat.leb n 90)%bool then ascii_of_nat (n + 32)%nat else c.

Fixpoint lower (s : string) : string :=
  match s with
  | EmptyString => EmptyString
  | String c rest => String (lower_ascii c) (lower rest)
  end.

Definition str_eq (a b : string) : bool := String.eqb (lower a) (lower b).

(** Equality of two values of the same type (the expressions of this file
    compare a string context with a string literal); values of different
    types are coerced to numbers by the platform, which this file never
    needs: such a comparison is not given a value here. *)
Definition value_eq (a b : value) : option bool :=
  match a, b with
  | VStr x, VStr y => Some (str_eq x y)
  | VBool x, VBool y => Some (Bool.eqb x y)
  | VNum x, VNum y => Some (Z.eqb x y)
  | VNull, VNull => Some true
  | _, _ => None
  end.

(** Falsy values are [false], [0], the empty string and [null]. *)
Definition truthy (v : value) : bool :=
  match v with
  | VNull => false
  | VBool b => b
  | VNum n => negb (Z.eqb n 0)
  | VStr s => negb (String.eqb s "")
  end.

Definition read_ctx (c : github_ctx) (p : ctx_path) : option value :=
  match p with
  | github_workflow => Some (VStr (workflow c))
  | github_ref => Some (VStr (ref c))
  | github_event_pull_request_number =>
      Some (match pull_request_number c with Some n => VNum n | None => VNull end)
  | github_repository_owner => Some (VStr (repository_owner c))
  | matrix_field _ => None
  | secrets_field _ => None
  end.

(** [a && b] is [a] when [a] is falsy and [b] otherwise; [a || b] is [a]
    when [a] is truthy and [b] otherwise. *)
Fixpoint eval (c : github_ctx) (e : expr) : option value :=
  match e with
  | ELit s => Some (VStr s)
  | ECtx p => read_ctx c p
  | EEq a b =>
      match eval c a, eval c b with
      | Some x, Some y => option_map VBool (value_eq x y)
      | _, _ => None
      end
  | ENeq a b =>
      match eval c a, eval c b with
      | Some x, Some y => option_map (fun r => VBool (negb r)) (value_eq x y)
      | _, _ => None
      end
  | EAnd a b =>
      match eval c a with
      | Some x => if truthy x then eval c b else Some x
      | None => None
      end
  | EOr a b =>
      match eval c a with
      | Some x => if truthy x then Some x else eval c b
      | None => None
      end
  end.

(** The value of the [cancel-in-progress] key of the file for a run: the
    key's scalar, read from the tree and evaluated. *)
Definition cancel_in_progress (c : github_ctx) : option bool :=
  match get_path ["concurrency"; "cancel-in-progress"] pr_gpu with
  | Some (YTpl [Interp e]) => option_map truthy (eval c e)
  | _ => None
  end.

(** The last component of the concurrency group of a run: the pull request
    number when the event has one, the ref otherwise. *)
Definition group_key (c : github_ctx) : option (value * value) :=
  match get_path ["concurrency"; "group"] pr_gpu with
  | Some (YTpl [Interp w; Txt "-"; Interp k]) =>
      match eval c w, eval c k with
      | Some a, Some b => Some (a, b)
      | _, _ => None
      end
  | _ => None
  end.

(** What the file's line 5 says about a run in progress when a newer run
    of its concurrency group arrives: the newer run's [cancel-in-progress]
    decides whether the older one is cancelled. *)
Inductive run_status := InProgress | Cancelled.

Definition supersede (newer : github_ctx) (older : run_status) : run_status :=
  match cancel_in_progress newer with
  | Some true => Cancelled
  | _ => older
  end.

(** Keys of the workflow syntax that change what a failure does. *)
Definition failure_keys : list string :=
  ["continue-on-error"; "fail-fast"; "timeout-minutes"; "cancel-in-progress"].

Definition failure_keys_used (w : yaml) : list string :=
  filter (fun k => bool_decide (k ∈ failure_keys)) (all_keys w).

Definition main_ref : string := "refs/heads/main".
Definition dev_ref : string := "refs/heads/dev".

(** A run on a branch whose name differs from [main] by letter case only. *)
Definition on_MAIN : github_ctx :=
  {| workflow := "PR GPU tests"; ref := "refs/heads/MAIN";
     pull_request_number := None; repository_owner := "mosaicml" |}.

(** ** The surface as the description has it *)

Definition pull_request_triggers : list string :=
  ["pull_request"; "pull_request_target"].

(** Triggers on pull requests only; besides its name, the keys [on],
    [concurrency] and [jobs]; jobs that hold a matrix and secrets
    references; matrix entries that carry, besides their name, a container
    image and test markers. *)
Definition surface_as_described (w : yaml) : Prop :=
  (forall t, In t (triggers w) -> In t pull_request_triggers) /\
  (forall k, In k (keys w) -> In k ["name"; "on"; "concurrency"; "jobs"]) /\
  (forall j job, get_path ["jobs"; j] w = Some job ->
     (forall k, In k (keys job) -> In k ["name"; "strategy"; "secrets"]) /\
     (forall e k, In e (matrix_entries job) -> In k (keys e) ->
        In k ["name"; "container"; "markers"])).

End Workflow.

(* ===================================================================== *)
(** * The training loop of [examples/functional_api.ipynb] *)
(* ===================================================================== *)

Module Training.

(** CIFAR-10 targets are class indices. *)
Definition Label := Z.

Inductive device := cpu | cuda.

(** Values bound in the notebook's module namespace. *)
Inductive pyval :=
| PyInt (n : Z)
| PyStr (s : string)
| PyObj (id : positive).

(** What [print] writes: the two f-strings of lines 152 and 176, kept as
    the values they format.  [acc_percent] is the quotient that Python's
    true division rounds to a float and [:.2f] to two decimals. *)
Inductive line :=
| BeginningEpoch (epoch : Z)
| ValidationAccuracy (epoch : Z) (acc_percent : Q).

(** ** The framework the loop calls

    PyTorch and tqdm are not part of the repository.  The loop is embedded
    over an interface of the operations it calls.  The types say what each
    operation may read and write: a forward pass reads the parameters and
    may update the rest of the framework's state ([Aux]: buffers such as
    the running statistics of [BatchNorm2d], gradient accumulators, the
    random generator); [backward] writes gradients; only the optimizer's
    [step] writes parameters. *)
Record Torch := {
  Example : Type;
  Logits : Type;
  Loss : Type;
  Params : Type;
  Aux : Type;
  OptState : Type;
  Loader : Type;
  LibError : Type;
  cuda_is_available : bool;
  manual_seed : Z -> Aux -> Aux;
  (** one pass over a loader: its minibatches, each a list of
      (example, label) samples; a shuffling loader draws from the
      random generator *)
  batches : Loader -> Aux -> list (list (Example * Label)) * Aux;
  forward : bool -> Params -> Aux -> list Example -> Logits * Aux;
  (** [y_hat.argmax(dim=1)] *)
  argmax1 : Logits -> list Label;
  cross_entropy : Logits -> list Label -> Loss;
  backward : Loss -> Params -> Aux -> Aux;
  adam : Params -> OptState;
  step : OptState -> Params -> Aux -> OptState * Params;
  zero_grad : Aux -> Aux;
  (** a model maps a batch of [B] examples to [B] rows of logits *)
  forward_rows : forall tr p a X,
    length (argmax1 (fst (forward tr p a X))) = length X
}.

Section Loop.

Context (T : Torch).

(** The library calls of [train_and_eval], with what they are given. *)
Inductive call :=
| CManualSeed (n : Z)
| CCudaIsAvailable
| CModelTo (d : device)
| CParameters
| CAdam
| CModelTrain
| CTqdm (l : Loader T)
| CIter (l : Loader T)
| CInputTo (X : list (Example T)) (d : device)
| CTargetTo (y : list Label) (d : device)
| CForward (training : bool) (X : list (Example T))
| CCrossEntropy (y_hat : Logits T) (y : list Label)
| CLossItem (loss : Loss T)
| CSetPostfixStr (loss : Loss T)
| CBackward (loss : Loss T)
| COptStep
| COptZeroGrad
| CModelEval
| CArgmax (y_hat : Logits T)
| CTensorEq (p y : list Label)
| CSum (eqs : list bool)
| CItem (n : Z).

Inductive exn :=
| NameError (name : string)
| TypeError
| ZeroDivisionError
| LibraryError (e : LibError T).

(** The model object passed to [train_and_eval] (its parameters and its
    train/eval flag), the rest of the framework's state, what was printed,
    and the library calls made so far. *)
Record state := {
  params : Params T;
  training : bool;
  aux : Aux T;
  out : list line;
  trace : list call
}.

Definition set_params (p : Params T) (s : state) : state :=
  {| params := p; training := training s; aux := aux s; out := out s; trace := trace s |}.
Definition set_training (b : bool) (s : state) : state :=
  {| params := params s; training := b; aux := aux s; out := out s; trace := trace s |}.
Definition set_aux (a : Aux T) (s : state) : state :=
  {| params := params s; training := training s; aux := a; out := out s; trace := trace s |}.
Definition emit (l : line) (s : state) : state :=
  {| params := params s; training := training s; aux := aux s; out := out s ++ [l]; trace := trace s |}.
Definition log (c : call) (s : state) : state :=
  {| params := params s; training := training s; aux := aux s; out := out s; trace := trace s ++ [c] |}.

(** ** Python's control flow: return or raise *)

Inductive result (A : Type) :=
| Ok (a : A) (s : state)
| Raised (e : exn) (s : state).
Arguments Ok {A} a s.
Arguments Raised {A} e s.

Definition M (A : Type) : Type := state -> result A.

Definition final {A} (r : result A) : state :=
  match r with Ok _ s => s | Raised _ s => s end.

#[export] Instance M_ret : MRet M := fun A a s => Ok a s.
#[export] Instance M_bind : MBind M := fun A B k m s =>
  match m s with
  | Ok a s' => k a s'
  | Raised e s' => Raised e s'
  end.

Definition raise {A} (e : exn) : M A := fun s => Raised e s.

(** A [for] loop over a list; [acc] holds the local variables the body
    rebinds. *)
Fixpoint for_each {A B} (l : list A) (acc : B) (body : B -> A -> M B) : M B :=
  match l with
  | [] => mret acc
  | x :: rest => acc' ← body acc x; for_each rest acc' body
  end.

(** Which library calls fail, and with what, given the calls made before:
    a call is attempted ([log]), then either raises what the library
    raises or runs. *)
Context (faults : list call -> call -> option (LibError T)).

Definition lib {A} (c : call) (run : state -> A * state) : M A := fun s =>
  match faults (trace s) c with
  | Some e => Raised (LibraryError e) (log c s)
  | None => let (a, s') := run (log c s) in Ok a s'
  end.

Definition pure_call {A} (c : call) (a : A) : M A := lib c (fun s => (a, s)).

(** ** The library calls, one definition per call site *)

Definition torch_manual_seed (n : Z) : M unit :=
  lib (CManualSeed n) (fun s => (tt, set_aux (manual_seed T n (aux s)) s)).

Definition torch_cuda_is_available : M bool :=
  pure_call CCudaIsAvailable (cuda_is_available T).

(** [model.to(device)], [X.to(device)], [y.to(device)] move storage and
    keep values; [model.to] returns the module itself. *)
Definition model_to (d : device) : M unit := pure_call (CModelTo d) tt.
Definition input_to (X : list (Example T)) (d : device) : M (list (Example T)) :=
  pure_call (CInputTo X d) X.
Definition target_to (y : list Label) (d : device) : M (list Label) :=
  pure_call (CTargetTo y d) y.

Definition model_parameters : M (Params T) :=
  lib CParameters (fun s => (params s, s)).
Definition optim_Adam (ps : Params T) : M (OptState T) :=
  pure_call CAdam (adam T ps).

Definition model_train : M unit :=
  lib CModelTrain (fun s => (tt, set_training true s)).
Definition model_eval : M unit :=
  lib CModelEval (fun s => (tt, set_training false s)).

Definition tqdm (l : Loader T) : M (Loader T) := pure_call (CTqdm l) l.

(** Iterating a loader.  The minibatches of the pass are taken when the
    loop starts. *)
Definition iterate (l : Loader T) : M (list (list (Example T * Label))) :=
  lib (CIter l) (fun s => let (bs, a) := batches T l (aux s) in (bs, set_aux a s)).

Definition model_call (X : list (Example T)) : M (Logits T) := fun s =>
  lib (CForward (training s) X)
      (fun s => let (y_hat, a) := forward T (training s) (params s) (aux s) X in
                (y_hat, set_aux a s)) s.

Definition F_cross_entropy (y_hat : Logits T) (y : list Label) : M (Loss T) :=
  pure_call (CCrossEntropy y_hat y) (cross_entropy T y_hat y).

Definition loss_item (loss : Loss T) : M (Loss T) := pure_call (CLossItem loss) loss.
Definition set_postfix_str (shown : Loss T) : M unit := pure_call (CSetPostfixStr shown) tt.

Definition loss_backward (loss : Loss T) : M unit :=
  lib (CBackward loss) (fun s => (tt, set_aux (backward T loss (params s) (aux s)) s)).

Definition opt_step (opt : OptState T) : M (OptState T) :=
  lib COptStep (fun s => let (opt', p) := step T opt (params s) (aux s) in
                         (opt', set_params p s)).

Definition opt_zero_grad : M unit :=
  lib COptZeroGrad (fun s => (tt, set_aux (zero_grad T (aux s)) s)).

Definition tensor_argmax (y_hat : Logits T) : M (list Label) :=
  pure_call (CArgmax y_hat) (argmax1 T y_hat).
(** [==] on two one-dimensional tensors of the same length, as the
    default collation gives them; [Dynamic.tensor_eq] has the targets as
    a tensor of any shape and torch's broadcasting. *)
Definition tensor_eq (p y : list Label) : M (list bool) :=
  pure_call (CTensorEq p y) (zip_with Z.eqb p y).
Definition tensor_sum (eqs : list bool) : M Z :=
  pure_call (CSum eqs) (Z.of_nat (length (filter (fun b => b = true) eqs))).
Definition tensor_item (n : Z) : M Z := pure_call (CItem n) n.

(** ** Built-ins *)

Definition print (l : line) : M unit := fun s => Ok tt (emit l s).

Definition len {A} (y : list A) : Z := Z.of_nat (length y).

Definition range (n : Z) : list Z := map Z.of_nat (seq 0 (Z.to_nat n)).

(** [a / b] on two ints. *)
Definition true_div (a b : Z) : M Q :=
  if Z.eqb b 0 then raise ZeroDivisionError
  else mret (Qmake (a * Z.sgn b) (Z.to_pos (Z.abs b))).

(** Reading the module-level name [num_epochs] for [range], when it is
    bound to an integer or to a value without [__index__];
    [Dynamic.range_num_epochs] has the objects with [__index__]. *)
Definition range_num_epochs (globals : gmap string pyval) : M (list Z) :=
  match globals !! "num_epochs" with
  | None => raise (NameError "num_epochs")
  | Some (PyInt n) => mret (range n)
  | Some _ => raise TypeError
  end.

(** ** [train_and_eval] (lines 144-176)

    The names [torch], [F], [tqdm], [print], [range] and [len] stand here
    for what the notebook's imports and the builtins bind them to;
    [Dynamic.train_and_eval] looks them up when the function runs. *)

Section Body.

Context (globals : gmap string pyval).
Context (train_loader test_loader : Loader T).

(** Lines 156-164: the body of the loop over [progress_bar]. *)
Definition train_batch (dev : device) (opt : OptState T)
    (b : list (Example T * Label)) : M (OptState T) :=
  X ← input_to (map fst b) dev;
  y ← target_to (map snd b) dev;
  y_hat ← model_call X;
  loss ← F_cross_entropy y_hat y;
  shown ← loss_item loss;
  set_postfix_str shown;;
  loss_backward loss;;
  opt ← opt_step opt;
  opt_zero_grad;;
  mret opt.

(** Lines 153-164. *)
Definition train_phase (dev : device) (opt : OptState T) : M (OptState T) :=
  model_train;;
  progress_bar ← tqdm train_loader;
  bs ← iterate progress_bar;
  for_each bs opt (train_batch dev).

(** Lines 169-174: the body of the loop over [test_loader]; the locals
    are [(num_right, eval_size)]. *)
Definition eval_batch (dev : device) (acc : Z * Z)
    (b : list (Example T * Label)) : M (Z * Z) :=
  X ← input_to (map fst b) dev;
  y ← target_to (map snd b) dev;
  y_hat ← model_call X;
  preds ← tensor_argmax y_hat;
  eqs ← tensor_eq preds y;
  total ← tensor_sum eqs;
  n ← tensor_item total;
  mret (fst acc + n, snd acc + len y).

(** Lines 166-176. *)
Definition eval_phase (dev : device) (epoch : Z) : M unit :=
  model_eval;;
  bs ← iterate test_loader;
  acc ← for_each bs (0, 0) (eval_batch dev);
  acc_percent ← true_div (100 * fst acc) (snd acc);
  print (ValidationAccuracy epoch acc_percent).

(** Lines 152-176: the body of the loop over the epochs. *)
Definition run_epoch (dev : device) (opt : OptState T) (epoch : Z) : M (OptState T) :=
  print (BeginningEpoch epoch);;
  opt ← train_phase dev opt;
  eval_phase dev epoch;;
  mret opt.

Definition train_and_eval : M unit :=
  torch_manual_seed 42;;
  available ← torch_cuda_is_available;
  let dev := if available : bool then cuda else cpu in
  model_to dev;;
  ps ← model_parameters;
  opt ← optim_Adam ps;
  epochs ← range_num_epochs globals;
  for_each epochs opt (run_epoch dev);;
  mret tt.

End Body.

(** ** Reading a trace *)

Inductive step_kind := Forward | LossOf | Backward | Step.

(** The four operations of a training step, among the calls of a trace.
    A forward pass of the evaluation loop runs with the module in eval
    mode. *)
Definition train_step_kind (c : call) : option step_kind :=
  match c with
  | CForward true _ => Some Forward
  | CCrossEntropy _ _ => Some LossOf
  | CBackward _ => Some Backward
  | COptStep => Some Step
  | _ => None
  end.

Definition steps (tr : list call) : list step_kind := omap train_step_kind tr.

Definition updates (c : call) : bool :=
  match c with
  | CBackward _ | COptStep => true
  | _ => false
  end.

End Loop.

Arguments params {T} s.
Arguments training {T} s.
Arguments aux {T} s.
Arguments out {T} s.
Arguments trace {T} s.
Arguments steps {T} tr.
Arguments updates {T} c.
Arguments Ok {T A} a s.
Arguments Raised {T A} e s.
Arguments final {T A} r.
Arguments CManualSeed {T} n.
Arguments CCudaIsAvailable {T}.
Arguments CModelTo {T} d.
Arguments CParameters {T}.
Arguments CAdam {T}.
Arguments CModelTrain {T}.
Arguments CTqdm {T} l.
Arguments CIter {T} l.
Arguments CInputTo {T} X d.
Arguments CTargetTo {T} y d.
Arguments CForward {T} training X.
Arguments CCrossEntropy {T} y_hat y.
Arguments CLossItem {T} loss.
Arguments CSetPostfixStr {T} loss.
Arguments CBackward {T} loss.
Arguments COptStep {T}.
Arguments COptZeroGrad {T}.
Arguments CModelEval {T}.
Arguments CArgmax {T} y_hat.
Arguments CTensorEq {T} p y.
Arguments CSum {T} eqs.
Arguments CItem {T} n.
Arguments LibraryError {T} e.
Arguments NameError {T} name.
Arguments TypeError {T}.
Arguments ZeroDivisionError {T}.
Arguments LibraryError {T} e.

(** A library whose calls all return. *)
Definition reliable {T} : list (call T) -> call T -> option (LibError T) :=
  fun _ _ => None.

(** The library calls of a run that starts after the calls [h]: each
    call returns, until possibly one raises, which ends the run. *)
Inductive attempts {T} (faults : list (call T) -> call T -> option (LibError T)) :
    list (call T) -> list (call T) -> option (LibError T) -> Prop :=
| attempts_done h : attempts faults h [] None
| attempts_ok h c l f :
    faults h c = None -> attempts faults (h ++ [c]) l f -> attempts faults h (c :: l) f
| attempts_fail h c x :
    faults h c = Some x -> attempts faults h [c] (Some x).

(** What a result raises from the library, if anything. *)
Definition library_failure {T A} (r : result T A) : option (LibError T) :=
  match r with
  | Raised (LibraryError x) _ => Some x
  | _ => None
  end.

(** What one epoch's training pass is expected to do for each of its
    minibatches. *)
Definition epoch_steps {A} (bs : list A) : list step_kind :=
  flat_map (fun _ => [Forward; LossOf; Backward; Step]) bs.

(** ** Statements about computations *)

(** Every outcome of [m], returned or raised, is related to its start. *)
Definition preserves {T} (R : state T -> state T -> Prop) {A} (m : M T A) : Prop :=
  forall s, R s (final (m s)).

(** [m] returns from [s], with a result and a state that satisfy [Q]. *)
Definition returns {T A} (m : M T A) (s : state T) (Q : A -> state T -> Prop) : Prop :=
  exists a s', m s = Ok a s' /\ Q a s'.

(** [s'] has the parameters of [s], and the calls made in between include
    neither a backward pass nor an optimizer step. *)
Definition quiet {T} (s s' : state T) : Prop :=
  params s' = params s /\
  exists new, trace s' = trace s ++ new /\ Forall (fun c => updates c = false) new.

(** The calls of a computation are made one after the other until one
    fails, and a failure of the library is the result. *)
Definition faithful {T} (faults : list (call T) -> call T -> option (LibError T))
    {A} (m : M T A) : Prop :=
  forall s, exists l,
    trace (final (m s)) = trace s ++ l /\
    attempts faults (trace s) l (library_failure (m s)).

Definition raises_in {T} (P : exn T -> Prop) {A} (m : M T A) : Prop :=
  forall s e s', m s = Raised e s' -> P e.

(** The exceptions of [train_and_eval]: what the library raised, or the
    interpreter's own errors for the name [num_epochs] (unbound, or bound
    to something [range] does not take) and for the division of line 175. *)
Definition library_or_builtin {T} (e : exn T) : Prop :=
  match e with
  | NameError name => name = "num_epochs"
  | TypeError | ZeroDivisionError | LibraryError _ => True
  end.

(** The state in which the evaluation loop of [eval_phase] starts. *)
Definition eval_start {T} (test_loader : Loader T) (s : state T) : state T :=
  set_aux T (snd (batches T test_loader (aux s)))
    (log T (CIter test_loader) (set_training T false (log T CModelEval s))).

End Training.

(* ===================================================================== *)
(** * A small concrete framework, used to run the loop *)
(* ===================================================================== *)

Module Stump.
Import Training.

(** A one-parameter classifier on integers: class [1] at or above the
    threshold, class [0] below.  The loss counts the misclassified
    examples, [backward] accumulates it, a step moves the threshold by
    the accumulated amount. *)
Definition stump_forward (tr : bool) (p a : Z) (X : list Z) : list Label * Z :=
  (map (fun x => if Z.ltb x p then 0 else 1) X, a).

Definition stump_loss (y_hat y : list Label) : Z :=
  Z.of_nat (length (filter (fun b => b = false) (zip_with Z.eqb y_hat y))).

Lemma stump_rows (tr : bool) (p a : Z) (X : list Z) :
  length (fst (stump_forward tr p a X)) = length X.
Proof. unfold stump_forward; simpl. apply length_map. Qed.

Definition torch : Torch := {|
  Example := Z;
  Logits := list Label;
  Loss := Z;
  Params := Z;
  Aux := Z;
  OptState := nat;
  Loader := list (list (Z * Label));
  LibError := string;
  cuda_is_available := false;
  manual_seed := fun _ a => 0;
  batches := fun l a => (l, a);
  forward := stump_forward;
  argmax1 := fun y_hat => y_hat;
  cross_entropy := stump_loss;
  backward := fun loss _ a => a + loss;
  adam := fun _ => O;
  step := fun opt p a => (S opt, p - a);
  zero_grad := fun _ => 0;
  forward_rows := stump_rows
|}.

Definition model0 : state torch :=
  Build_state torch 5 true 0 [] [].

Definition train1 : Loader torch := [[(1, 0); (7, 1)]; [(4, 1)]].
Definition test1 : Loader torch := [[(2, 0); (9, 1); (3, 1)]].

Definition globals_with (n : Z) : gmap string pyval :=
  <["num_epochs" := PyInt n]> (<["batch_size" := PyInt 1024]> ∅).

End Stump.

(* ===================================================================== *)
(** * The notebook [examples/functional_api.ipynb], cell by cell *)
(* ===================================================================== *)

Module Notebook.

(** ** The code cells as syntax *)

Inductive expr :=
| Name (id : string)
| Attr (value : expr) (attr : string)
| Int (n : Z)
| Float (literal : string)
| Str (s : string)
| Bool (b : bool)
| Tuple (elts : list expr)
| ListOf (elts : list expr)
| Call (func : expr) (args : list expr) (keywords : list (string * expr))
| BinOp (op : string) (left right : expr)
| Compare (op : string) (left right : expr)
| IfExp (test body orelse : expr)
| SliceAll (value : expr)
| JoinedStr (values : list expr)
| FormattedValue (value : expr) (format_spec : string).

(** The statements of Python that govern errors and repetition are all
    here, used by the notebook or not. *)
Inductive stmt :=
| Magic (line : string)
| Import (module : string) (asname : option string)
| ImportFrom (module : string) (name : string)
| Assign (target : expr) (value : expr)
| AugAssign (target : expr) (op : string) (value : expr)
| Expr (value : expr)
| Return (value : expr)
| FunctionDef (name : string) (args : list string) (body : list stmt)
| ClassDef (name : string) (bases : list expr) (body : list stmt)
| For (target iter : expr) (body : list stmt)
| While (test : expr) (body : list stmt)
| If (test : expr) (body orelse : list stmt)
| Try (body handlers finalbody : list stmt)
| ExceptHandler (type : option expr) (body : list stmt)
| Raise (exc : option expr)
| Assert (test : expr).

(** [a.b.c] *)
Definition path (root : string) (attrs : list string) : expr :=
  fold_left Attr attrs (Name root).

Definition invoke (f : expr) (args : list expr) : expr := Call f args [].

Definition half3 : expr := Tuple [Float "0.5"; Float "0.5"; Float "0.5"].

Definition to_tensor_then_normalize : list expr :=
  [invoke (path "transforms" ["ToTensor"]) [];
   invoke (path "transforms" ["Normalize"]) [half3; half3]].

Definition cifar10 (train : bool) (transform : string) : expr :=
  Call (path "torchvision" ["datasets"; "CIFAR10"]) []
    [("root", Name "datadir"); ("train", Bool train); ("download", Bool true);
     ("transform", Name transform)].

Definition dataloader (dataset : string) (shuffle : bool) : expr :=
  Call (path "torch" ["utils"; "data"; "DataLoader"]) [Name dataset]
    [("batch_size", Name "batch_size"); ("shuffle", Bool shuffle);
     ("num_workers", Int 2)].

(** Lines 42-44. *)
Definition cell_install : list stmt := [Magic "pip install mosaicml"].

(** Lines 62-87. *)
Definition cell_dataloader : list stmt :=
  [Import "torch" None;
   Import "torch.utils.data" None;
   Import "torch.nn" (Some "nn");
   Import "torch.nn.functional" (Some "F");
   Import "torchvision" None;
   Import "torchvision.transforms" (Some "transforms");
   Assign (Name "datadir") (Str "./data");
   Assign (Name "batch_size") (Int 1024);
   Assign (Name "transform")
     (invoke (path "transforms" ["Compose"]) [ListOf to_tensor_then_normalize]);
   Assign (Name "trainset") (cifar10 true "transform");
   Assign (Name "trainloader") (dataloader "trainset" true);
   Assign (Name "testset") (cifar10 false "transform");
   Assign (Name "testloader") (dataloader "testset" false)].

Definition self_assign (attr : string) (ctor : string) (args : list expr)
    (keywords : list (string * expr)) : stmt :=
  Assign (path "self" [attr]) (Call (path "nn" [ctor]) args keywords).

Definition x_assign (value : expr) : stmt := Assign (Name "x") value.
Definition relu (e : expr) : expr := invoke (path "F" ["relu"]) [e].
Definition self_call (attr : string) (arg : expr) : expr := invoke (path "self" [attr]) [arg].

(** Lines 105-124. *)
Definition cell_net : list stmt :=
  [ClassDef "Net" [path "nn" ["Module"]]
     [FunctionDef "__init__" ["self"]
        [Expr (invoke (Attr (invoke (Name "super") []) "__init__") []);
         self_assign "conv1" "Conv2d" [Int 3; Int 16]
           [("kernel_size", Tuple [Int 3; Int 3]); ("stride", Int 2)];
         self_assign "conv2" "Conv2d" [Int 16; Int 32]
           [("kernel_size", Tuple [Int 3; Int 3])];
         self_assign "norm" "BatchNorm2d" [Int 32] [];
         self_assign "pool" "AdaptiveAvgPool2d" [Int 1] [];
         self_assign "fc1" "Linear" [Int 32; Int 128] [];
         self_assign "fc2" "Linear" [Int 128; Int 64] [];
         self_assign "fc3" "Linear" [Int 64; Int 10] []];
      FunctionDef "forward" ["self"; "x"]
        [x_assign (relu (self_call "conv1" (Name "x")));
         x_assign (self_call "conv2" (Name "x"));
         x_assign (relu (self_call "norm" (Name "x")));
         x_assign (invoke (path "torch" ["flatten"]) [self_call "pool" (Name "x"); Int 1]);
         x_assign (relu (self_call "fc1" (Name "x")));
         x_assign (relu (self_call "fc2" (Name "x")));
         x_assign (self_call "fc3" (Name "x"));
         Return (Name "x")]]].

Definition method (obj meth : string) (args : list expr) : expr :=
  invoke (path obj [meth]) args.

Definition to_device (v : string) : stmt :=
  Assign (Name v) (method v "to" [Name "device"]).

Definition print_f (values : list expr) : stmt :=
  Expr (invoke (Name "print") [JoinedStr values]).

(** Lines 140-176. *)
Definition cell_loop : list stmt :=
  [ImportFrom "tqdm.notebook" "tqdm";
   Assign (Name "num_epochs") (Int 5);
   FunctionDef "train_and_eval" ["model"; "train_loader"; "test_loader"]
     [Expr (invoke (path "torch" ["manual_seed"]) [Int 42]);
      Assign (Name "device")
        (IfExp (invoke (path "torch" ["cuda"; "is_available"]) [])
               (Str "cuda") (Str "cpu"));
      to_device "model";
      Assign (Name "opt")
        (invoke (path "torch" ["optim"; "Adam"]) [method "model" "parameters" []]);
      For (Name "epoch") (invoke (Name "range") [Name "num_epochs"])
        [print_f [Str "---- Beginning epoch "; FormattedValue (Name "epoch") "";
                  Str " ----"];
         Expr (method "model" "train" []);
         Assign (Name "progress_bar") (invoke (Name "tqdm") [Name "train_loader"]);
         For (Tuple [Name "X"; Name "y"]) (Name "progress_bar")
           [to_device "X";
            to_device "y";
            Assign (Name "y_hat") (invoke (Name "model") [Name "X"]);
            Assign (Name "loss")
              (invoke (path "F" ["cross_entropy"]) [Name "y_hat"; Name "y"]);
            Expr (method "progress_bar" "set_postfix_str"
                    [JoinedStr [Str "train loss: ";
                                FormattedValue (method "loss" "item" []) ".4f"]]);
            Expr (method "loss" "backward" []);
            Expr (method "opt" "step" []);
            Expr (method "opt" "zero_grad" [])];
         Expr (method "model" "eval" []);
         Assign (Name "num_right") (Int 0);
         Assign (Name "eval_size") (Int 0);
         For (Tuple [Name "X"; Name "y"]) (Name "test_loader")
           [to_device "X";
            to_device "y";
            Assign (Name "y_hat") (invoke (Name "model") [Name "X"]);
            AugAssign (Name "num_right") "+"
              (invoke (Attr (invoke (Attr
                 (Compare "==" (Call (path "y_hat" ["argmax"]) [] [("dim", Int 1)])
                               (Name "y")) "sum") []) "item") []);
            AugAssign (Name "eval_size") "+" (invoke (Name "len") [Name "y"])];
         Assign (Name "acc_percent")
           (BinOp "/" (BinOp "*" (Int 100) (Name "num_right")) (Name "eval_size"));
         print_f [Str "Epoch "; FormattedValue (Name "epoch") "";
                  Str " validation accuracy: ";
                  FormattedValue (Name "acc_percent") ".2f"; Str "%"]]]].

Definition run_train_and_eval : stmt :=
  Expr (invoke (Name "train_and_eval")
          [Name "model"; Name "trainloader"; Name "testloader"]).

Definition new_model : stmt := Assign (Name "model") (invoke (Name "Net") []).

(** Lines 192-193. *)
Definition cell_baseline : list stmt := [new_model; run_train_and_eval].

(** Lines 211-233. *)
Definition cell_colout : list stmt :=
  [Import "composer.functional" (Some "cf");
   Assign (Name "shared_transforms") (ListOf to_tensor_then_normalize);
   Assign (Name "train_transforms")
     (BinOp "+" (SliceAll (Name "shared_transforms"))
                (ListOf [path "cf" ["colout_batch"]]));
   Assign (Name "test_transform")
     (invoke (path "transforms" ["Compose"]) [Name "shared_transforms"]);
   Assign (Name "train_transform")
     (invoke (path "transforms" ["Compose"]) [Name "train_transforms"]);
   Assign (Name "trainset") (cifar10 true "train_transform");
   Assign (Name "trainloader") (dataloader "trainset" true);
   Assign (Name "testset") (cifar10 false "test_transform");
   Assign (Name "testloader") (dataloader "testset" false)].

(** Lines 249-252. *)
Definition cell_colout_run : list stmt := [new_model; run_train_and_eval].

(** Line 275. *)
Definition cell_squeeze_excite : list stmt :=
  [Expr (Call (path "cf" ["apply_squeeze_excite"]) [Name "model"]
           [("latent_channels", Int 64); ("min_channels", Int 16)])].

(** Line 291. *)
Definition cell_final : list stmt := [run_train_and_eval].

Definition code_cells : list (list stmt) :=
  [cell_install; cell_dataloader; cell_net; cell_loop; cell_baseline;
   cell_colout; cell_colout_run; cell_squeeze_excite; cell_final].

(** Every statement of a block, at any depth. *)
Fixpoint statements (s : stmt) : list stmt :=
  let block := fix block (l : list stmt) : list stmt :=
    match l with
    | [] => []
    | s' :: rest => statements s' ++ block rest
    end in
  s :: match s with
       | FunctionDef _ _ body | ClassDef _ _ body | For _ _ body
       | While _ body | ExceptHandler _ body => block body
       | If _ body orelse => block body ++ block orelse
       | Try body handlers finalbody =>
           block body ++ block handlers ++ block finalbody
       | _ => []
       end.

Definition all_statements (cells : list (list stmt)) : list stmt :=
  flat_map statements (concat cells).

(** Statements that handle, raise or test for an error, or repeat until
    something holds. *)
Definition error_handling (s : stmt) : bool :=
  match s with
  | Try _ _ _ | ExceptHandler _ _ | Raise _ | Assert _ | If _ _ _ | While _ _ => true
  | _ => false
  end.

Definition class_defs (cells : list (list stmt)) : list (string * list expr) :=
  flat_map (fun s => match s with ClassDef name bases _ => [(name, bases)] | _ => [] end)
    (all_statements cells).

Definition function_defs (cells : list (list stmt)) : list string :=
  flat_map (fun s => match s with FunctionDef name _ _ => [name] | _ => [] end)
    (all_statements cells).

(** ** The objects the cells create *)

Import Training.

(** The entries of the lists given to [transforms.Compose]. *)
Inductive transform :=
| ToTensor
| Normalize (mean std : list Q)
| colout_batch.

(** The layers of [Net] (lines 108-114). *)
Inductive layer :=
| Conv2d (in_channels out_channels : Z) (kernel_size : Z * Z) (stride : Z)
| BatchNorm2d (num_features : Z)
| AdaptiveAvgPool2d (output_size : Z)
| Linear (in_features out_features : Z).

(** A child module: a layer as constructed, and the squeeze-and-excitation
    blocks that follow it (their latent widths), none at construction. *)
Record module := {
  base : layer;
  blocks : list Z
}.

Definition Plain (l : layer) : module := {| base := l; blocks := [] |}.

Inductive obj :=
| OList (items : list transform)
| OCompose (transforms : positive)
| ODataset (train : bool) (transform : positive)
| OLoader (dataset : positive) (batch_size : Z) (shuffle : bool) (num_workers : Z)
| OModule (children : list (string * module)).

(** The calls of the notebook's last cells, with the objects they are
    given. *)
Inductive event :=
| CallTrainAndEval (model train_loader test_loader : positive)
| CallApplySqueezeExcite (model : positive) (latent_channels min_channels : Z).

(** The module namespace, the objects, and the calls made. *)
Record nb := {
  globals : gmap string pyval;
  heap : gmap positive obj;
  next : positive;
  calls : list event
}.

Definition empty_nb : nb :=
  {| globals := ∅; heap := ∅; next := 1%positive; calls := [] |}.

(** A cell runs to a new state, or raises ([None]). *)
Definition N (A : Type) : Type := nb -> option (A * nb).

#[export] Instance N_ret : MRet N := fun A a s => Some (a, s).
#[export] Instance N_bind : MBind N := fun A B k m s =>
  match m s with
  | Some (a, s') => k a s'
  | None => None
  end.

Definition exec (m : N unit) (s : nb) : option nb :=
  match m s with Some (_, s') => Some s' | None => None end.

(** [x = v] *)
Definition assign (x : string) (v : pyval) : N unit := fun s =>
  Some (tt, {| globals := <[x := v]> (globals s); heap := heap s;
               next := next s; calls := calls s |}).

(** Reading a name. *)
Definition name (x : string) : N pyval := fun s =>
  match globals s !! x with Some v => Some (v, s) | None => None end.

Definition name_obj (x : string) : N positive := fun s =>
  match globals s !! x with Some (PyObj l) => Some (l, s) | _ => None end.

Definition name_int (x : string) : N Z := fun s =>
  match globals s !! x with Some (PyInt n) => Some (n, s) | _ => None end.

(** A constructor call: a new object. *)
Definition new (o : obj) : N positive := fun s =>
  Some (next s, {| globals := globals s; heap := <[next s := o]> (heap s);
                   next := Pos.succ (next s); calls := calls s |}).

Definition deref (l : positive) : N obj := fun s =>
  match heap s !! l with Some o => Some (o, s) | None => None end.

Definition record (e : event) : N unit := fun s =>
  Some (tt, {| globals := globals s; heap := heap s; next := next s;
               calls := calls s ++ [e] |}).

Definition half : list Q := [1 # 2; 1 # 2; 1 # 2]%Q.

(** [torchvision.datasets.CIFAR10(root=datadir, train=.., download=True,
    transform=<name>)] *)
Definition CIFAR10 (train : bool) (transform : string) : N positive :=
  _ ← name "datadir";
  t ← name_obj transform;
  new (ODataset train t).

(** [torch.utils.data.DataLoader(<name>, batch_size=batch_size,
    shuffle=.., num_workers=2)]; of the values a name is bound to here,
    the library takes a positive integer for the batch size and raises
    for the others. *)
Definition DataLoader (dataset : string) (shuffle : bool) : N positive :=
  d ← name_obj dataset;
  b ← name_int "batch_size";
  if Z.leb 1 b then new (OLoader d b shuffle 2) else fun _ => None.

(** Lines 69-87. *)
Definition exec_dataloader : N unit :=
  assign "datadir" (PyStr "./data");;
  assign "batch_size" (PyInt 1024);;
  l ← new (OList [ToTensor; Normalize half half]);
  c ← new (OCompose l);
  assign "transform" (PyObj c);;
  d ← CIFAR10 true "transform"; assign "trainset" (PyObj d);;
  d ← DataLoader "trainset" true; assign "trainloader" (PyObj d);;
  d ← CIFAR10 false "transform"; assign "testset" (PyObj d);;
  d ← DataLoader "testset" false; assign "testloader" (PyObj d).

(** [Net()] (lines 106-114): the children in the order [__init__] assigns
    them; [conv2] has the default stride. *)
Definition Net_children : list (string * module) :=
  [("conv1", Plain (Conv2d 3 16 (3, 3) 2));
   ("conv2", Plain (Conv2d 16 32 (3, 3) 1));
   ("norm", Plain (BatchNorm2d 32));
   ("pool", Plain (AdaptiveAvgPool2d 1));
   ("fc1", Plain (Linear 32 128));
   ("fc2", Plain (Linear 128 64));
   ("fc3", Plain (Linear 64 10))].

Definition Net : N positive := new (OModule Net_children).

(** Line 142. *)
Definition exec_loop : N unit := assign "num_epochs" (PyInt 5).

(** [train_and_eval(model, trainloader, testloader)]: the three names are
    read and the function is entered with the objects they are bound to. *)
Definition call_train_and_eval : N unit :=
  m ← name_obj "model";
  tr ← name_obj "trainloader";
  te ← name_obj "testloader";
  _ ← name "num_epochs";
  record (CallTrainAndEval m tr te).

(** Lines 192-193 and 249-252. *)
Definition exec_new_model_run : N unit :=
  m ← Net; assign "model" (PyObj m);;
  call_train_and_eval.

(** Lines 214-233.  [shared_transforms[:] + [cf.colout_batch]] is a new
    list; each [Compose] keeps the list it is given. *)
Definition exec_colout : N unit :=
  l ← new (OList [ToTensor; Normalize half half]);
  assign "shared_transforms" (PyObj l);;
  shared ← name_obj "shared_transforms";
  o ← deref shared;
  l' ← match o with
       | OList items => new (OList (items ++ [colout_batch]))
       | _ => fun _ => None
       end;
  assign "train_transforms" (PyObj l');;
  shared ← name_obj "shared_transforms";
  c ← new (OCompose shared); assign "test_transform" (PyObj c);;
  tt' ← name_obj "train_transforms";
  c ← new (OCompose tt'); assign "train_transform" (PyObj c);;
  d ← CIFAR10 true "train_transform"; assign "trainset" (PyObj d);;
  d ← DataLoader "trainset" true; assign "trainloader" (PyObj d);;
  d ← CIFAR10 false "test_transform"; assign "testset" (PyObj d);;
  d ← DataLoader "testset" false; assign "testloader" (PyObj d).

(** ** The library [composer.functional] *)

Section Composer.

(** What flows through a transform: an image as the dataset stores it,
    the tensor of one image, or the tensors of a batch. *)
Context {Image Tensor : Type}.

Inductive data :=
| PIL (img : Image)
| Single (t : Tensor)
| Batch (ts : list Tensor).

(** Modelled from the spec: [composer.functional] is not under src/.  The
    spec gives its two functions as external collaborators whose
    algorithms are opaque: the augmentation function maps input tensors
    to transformed tensors ([colout]); the model-mutation function
    inserts additional computation after qualifying layers, given a
    latent-channel width and a minimum-channel threshold (which layers
    qualify under a threshold is [qualifies]). *)
Record Composer := {
  colout : data -> data;
  qualifies : Z -> layer -> bool
}.

Context (C : Composer).

Definition excite (latent_channels min_channels : Z) (m : module) : module :=
  if qualifies C min_channels (base m)
  then {| base := base m; blocks := blocks m ++ [latent_channels] |}
  else m.

(** Modelled from the spec: [cf.apply_squeeze_excite(model,
    latent_channels, min_channels)] "mutates the model in place by
    inserting additional computation after qualifying layers": the object
    [model] refers to keeps its place in the heap and its children, and
    each qualifying child is followed by a squeeze-and-excitation block. *)
Definition apply_squeeze_excite (model : positive)
    (latent_channels min_channels : Z) : N unit := fun s =>
  match heap s !! model with
  | Some (OModule children) =>
      let children' :=
        map (fun c => (fst c, excite latent_channels min_channels (snd c))) children in
      Some (tt, {| globals := globals s;
                   heap := <[model := OModule children']> (heap s);
                   next := next s; calls := calls s |})
  | _ => None
  end.

(** Line 275. *)
Definition exec_squeeze_excite : N unit :=
  m ← name_obj "model";
  record (CallApplySqueezeExcite m 64 16);;
  apply_squeeze_excite m 64 16.

(** The code cells in order (the first one installs the package). *)
Definition exec_notebook : N unit :=
  exec_dataloader;;
  exec_loop;;
  exec_new_model_run;;
  exec_colout;;
  exec_new_model_run;;
  exec_squeeze_excite;;
  call_train_and_eval.

(** The notebook up to the cell that patches the model. *)
Definition exec_until_patch : N unit :=
  exec_dataloader;;
  exec_loop;;
  exec_new_model_run;;
  exec_colout;;
  exec_new_model_run.

(** *** What a module computes *)

(** [Net.forward] (lines 116-124). *)
Inductive op := Child (attr : string) | Relu | Flatten (start_dim : Z).

Definition Net_forward : list op :=
  [Child "conv1"; Relu; Child "conv2"; Child "norm"; Relu; Child "pool";
   Flatten 1; Child "fc1"; Relu; Child "fc2"; Relu; Child "fc3"].

Inductive step :=
| Run (l : layer)
| SqueezeExcite (latent_channels : Z)
| ReluStep
| FlattenStep (start_dim : Z).

Definition module_steps (m : module) : list step :=
  Run (base m) :: map SqueezeExcite (blocks m).

Fixpoint child (attr : string) (children : list (string * module)) : option module :=
  match children with
  | [] => None
  | (a, m) :: rest => if String.eqb attr a then Some m else child attr rest
  end.

Definition op_steps (children : list (string * module)) (o : op) : list step :=
  match o with
  | Child attr => match child attr children with Some m => module_steps m | None => [] end
  | Relu => [ReluStep]
  | Flatten d => [FlattenStep d]
  end.

Definition computation (children : list (string * module)) : list step :=
  flat_map (op_steps children) Net_forward.

Definition is_squeeze_excite (x : step) : bool :=
  match x with SqueezeExcite _ => true | _ => false end.

(** The computation without the inserted blocks. *)
Definition original_steps (l : list step) : list step :=
  filter (fun x => is_squeeze_excite x = false) l.

(** The children after the call of line 275. *)
Definition patched (children : list (string * module)) : list (string * module) :=
  map (fun c => (fst c, excite 64 16 (snd c))) children.

(** *** The data pipeline *)

(** What the notebook takes from torchvision: the conversion of an image
    to a tensor, the normalisation of a tensor, and the images and
    targets of the two splits of CIFAR-10. *)
Record Torchvision := {
  to_tensor : Image -> Tensor;
  normalize : list Q -> list Q -> Tensor -> Tensor;
  cifar10_split : bool -> list (Image * Z)
}.

Context (V : Torchvision).

(** One transform applied to one value; [None] is the [TypeError] of a
    transform given what it does not take: [ToTensor] takes an image,
    [Normalize] a tensor or a batch of tensors. *)
Definition apply_transform (t : transform) (x : data) : option data :=
  match t, x with
  | ToTensor, PIL img => Some (Single (to_tensor V img))
  | ToTensor, _ => None
  | Normalize m sd, Single t => Some (Single (normalize V m sd t))
  | Normalize m sd, Batch ts => Some (Batch (map (normalize V m sd) ts))
  | Normalize _ _, PIL _ => None
  | colout_batch, x => Some (colout C x)
  end.

(** [Compose(ts)(x)]: the transforms in order. *)
Fixpoint compose (ts : list transform) (x : data) : option data :=
  match ts with
  | [] => Some x
  | t :: rest =>
      match apply_transform t x with
      | Some x' => compose rest x'
      | None => None
      end
  end.

(** What [colout_batch] is given when [Compose(ts)] runs on [x]. *)
Fixpoint colout_inputs (ts : list transform) (x : data) : list data :=
  match ts with
  | [] => []
  | t :: rest =>
      (match t with colout_batch => [x] | _ => [] end) ++
      match apply_transform t x with
      | Some x' => colout_inputs rest x'
      | None => []
      end
  end.

(** The split and the transforms of a dataset object, through the
    [Compose] and the list it refers to. *)
Definition dataset_transforms (s : nb) (dataset : positive)
    : option (bool * list transform) :=
  match heap s !! dataset with
  | Some (ODataset train c) =>
      match heap s !! c with
      | Some (OCompose l) =>
          match heap s !! l with
          | Some (OList items) => Some (train, items)
          | _ => None
          end
      | _ => None
      end
  | _ => None
  end.

(** [dataset[i]]: the transform applied to the stored image, and the
    target. *)
Definition getitem (s : nb) (dataset : positive) (i : nat) : option (data * Z) :=
  match dataset_transforms s dataset with
  | Some (train, ts) =>
      match cifar10_split V train !! i with
      | Some (img, target) =>
          match compose ts (PIL img) with
          | Some x => Some (x, target)
          | None => None
          end
      | None => None
      end
  | None => None
  end.

Definition getitem_colout_inputs (s : nb) (dataset : positive) (i : nat) : list data :=
  match dataset_transforms s dataset with
  | Some (train, ts) =>
      match cifar10_split V train !! i with
      | Some (img, _) => colout_inputs ts (PIL img)
      | None => []
      end
  | None => []
  end.

(** Consecutive groups of [n] elements, the last one possibly shorter. *)
Fixpoint chunks {A} (n : nat) (l : list A) (current : list A) : list (list A) :=
  match l with
  | [] => match current with [] => [] | _ => [rev current] end
  | x :: rest =>
      if Nat.eqb (length (x :: current)) n
      then rev (x :: current) :: chunks n rest []
      else chunks n rest (x :: current)
  end.

(** The default collation: the tensors of the samples stacked into a
    batch, beside their targets. *)
Definition collate (samples : list (data * Z)) : option (data * list Z) :=
  match mapM (fun x => match fst x with Single t => Some t | _ => None end) samples with
  | Some ts => Some (Batch ts, map snd samples)
  | None => None
  end.

(** One pass over a loader, the sampler giving the indices [order]. *)
Definition loader_pass (s : nb) (loader : positive) (order : list nat)
    : option (list (data * list Z)) :=
  match heap s !! loader with
  | Some (OLoader d batch_size _ _) =>
      match mapM (getitem s d) order with
      | Some samples => mapM collate (chunks (Z.to_nat batch_size) samples [])
      | None => None
      end
  | _ => None
  end.

Definition pass_colout_inputs (s : nb) (loader : positive) (order : list nat)
    : list data :=
  match heap s !! loader with
  | Some (OLoader d _ _ _) => flat_map (getitem_colout_inputs s d) order
  | _ => []
  end.

Definition is_batch (x : data) : bool :=
  match x with Batch _ => true | _ => false end.

End Composer.

Arguments data : clear implicits.
Arguments Composer : clear implicits.
Arguments Torchvision : clear implicits.

(** The two lists of lines 214-220. *)
Definition train_transforms : list transform :=
  [ToTensor; Normalize half half; colout_batch].

Definition test_transforms : list transform :=
  [ToTensor; Normalize half half].

(** The state in which the cell of line 275 runs. *)
Definition before_patch : nb :=
  match exec exec_until_patch empty_nb with Some s => s | None => empty_nb end.

(** ** A small instance: integers for images and tensors *)

Definition threshold (min_channels : Z) (l : layer) : bool :=
  match l with
  | Conv2d i o _ _ => Z.leb min_channels (Z.min i o)
  | _ => false
  end.

Definition toy_composer : Composer Z Z :=
  {| colout := fun x => x; qualifies := threshold |}.

Definition toy_vision : Torchvision Z Z :=
  {| to_tensor := fun img => img;
     normalize := fun _ _ t => 2 * t - 1;
     cifar10_split := fun train => if train then [(10, 3); (20, 5); (30, 7)] else [(40, 1)] |}.

End Notebook.

(* ===================================================================== *)
(** * The shapes that flow through [Net] *)
(* ===================================================================== *)

(** ** The job of the workflow *)

Module Jobs.
Import Workflow.

(** The guard of a job (line 21): the job runs when its [if:] expression
    is truthy; a job without the key always runs. *)
Definition job_if (c : github_ctx) (job : yaml) : option bool :=
  match get "if" job with
  | Some (YTpl [Interp e]) => option_map truthy (eval c e)
  | Some _ => None
  | None => Some true
  end.

(** [matrix.f] for one entry of the matrix; a field the entry lacks reads
    as null. *)
Definition read_matrix (entry : yaml) (f : string) : option value :=
  match get f entry with
  | Some (YStr s) => Some (VStr s)
  | Some (YNum n) => Some (VNum n)
  | Some _ => None
  | None => Some VNull
  end.

(** The display name of the job for one entry (line 20). *)
Definition instance_name (job entry : yaml) : option value :=
  match get "name" job with
  | Some (YTpl [Interp (ECtx (matrix_field f))]) => read_matrix entry f
  | Some (YStr s) => Some (VStr s)
  | _ => None
  end.

(** The instances of a job that a run starts: one per matrix entry when
    the guard holds, none otherwise. *)
Definition started (c : github_ctx) (w : yaml) (j : string) : list (option value) :=
  match get_path ["jobs"; j] w with
  | Some job =>
      match job_if c job with
      | Some true => map (instance_name job) (matrix_entries job)
      | _ => []
      end
  | None => []
  end.

End Jobs.

(** ** Small sessions *)

Module Sessions.
Import Training Notebook.

(** The state before line 275 with a training loader of batch size 2. *)
Definition small_batches : nb :=
  {| globals := globals before_patch;
     heap := <[13%positive := OLoader 12 2 true 2]> (heap before_patch);
     next := next before_patch;
     calls := calls before_patch |}.

End Sessions.

Module Shapes.
Import Notebook.

(** The size of each dimension of a tensor. *)
Definition shape := list Z.

(** The layers of a module as its constructor made them. *)
Definition constructed (children : list (string * module)) : list (string * layer) :=
  map (fun c => (fst c, base (snd c))) children.

(** The attributes that [Net.__init__] assigns (lines 108-114). *)
Definition Net_layers : list (string * layer) := constructed Net_children.

(** A convolution without padding or dilation over a dimension of size
    [n]. *)
Definition conv_out (n kernel stride : Z) : Z := (n - kernel) / stride + 1.

(** The shape of a layer's output on a batch; [None] when the layer
    raises.  A convolution wants its number of input channels and a
    window that fits; [BatchNorm2d] wants its number of features and, in
    train mode, more than one value per channel; [Linear] wants its
    number of input features. *)
Definition layer_shape (training : bool) (l : layer) (sh : shape) : option shape :=
  match l, sh with
  | Conv2d cin cout (kh, kw) stride, [b; c; h; w] =>
      if ((c =? cin) && (kh <=? h) && (kw <=? w))%Z
      then Some [b; cout; conv_out h kh stride; conv_out w kw stride]
      else None
  | BatchNorm2d n, [b; c; h; w] =>
      if (Z.eqb c n && (negb training || negb (Z.eqb (b * h * w) 1)))
      then Some [b; c; h; w]
      else None
  | AdaptiveAvgPool2d o, [b; c; h; w] =>
      if ((1 <=? h) && (1 <=? w))%Z then Some [b; c; o; o] else None
  | Linear fin fout, [b; f] =>
      if Z.eqb f fin then Some [b; fout] else None
  | _, _ => None
  end.

(** [torch.flatten(x, 1)]: the dimensions after the first become one. *)
Definition flatten_shape (start_dim : Z) (sh : shape) : option shape :=
  match start_dim, sh with
  | 1, b :: d :: rest => Some [b; fold_left Z.mul rest d]
  | _, _ => None
  end.

Fixpoint layer_of (attr : string) (layers : list (string * layer)) : option layer :=
  match layers with
  | [] => None
  | (a, l) :: rest => if String.eqb attr a then Some l else layer_of attr rest
  end.

Definition op_shape (training : bool) (layers : list (string * layer)) (o : op)
    (sh : shape) : option shape :=
  match o with
  | Child attr =>
      match layer_of attr layers with
      | Some l => layer_shape training l sh
      | None => None
      end
  | Relu => Some sh
  | Flatten d => flatten_shape d sh
  end.

(** The shape of the output of a forward pass. *)
Fixpoint forward_shape (training : bool) (layers : list (string * layer))
    (ops : list op) (sh : shape) : option shape :=
  match ops with
  | [] => Some sh
  | o :: rest =>
      match op_shape training layers o sh with
      | Some sh' => forward_shape training layers rest sh'
      | None => None
      end
  end.

(** The height or width that reaches [norm] from an image side [n]. *)
Definition side_at_norm (n : Z) : Z := conv_out (conv_out n 3 2) 3 1.

End Shapes.

(* ===================================================================== *)
(** * Reading a run of the training loop *)
(* ===================================================================== *)

Module Phases.
Import Training.

(** The calls that set the module's mode or belong to a training or an
    evaluation step. *)
Inductive mark :=
| SetTrain
| SetEval
| ForwardTrain
| ForwardEval
| ComputeLoss
| Backprop
| OptimizerStep
| ZeroGrad
| Predict.

Definition mark_of {T} (c : call T) : option mark :=
  match c with
  | CModelTrain => Some SetTrain
  | CModelEval => Some SetEval
  | CForward true _ => Some ForwardTrain
  | CForward false _ => Some ForwardEval
  | CCrossEntropy _ _ => Some ComputeLoss
  | CBackward _ => Some Backprop
  | COptStep => Some OptimizerStep
  | COptZeroGrad => Some ZeroGrad
  | CArgmax _ => Some Predict
  | _ => None
  end.

Definition marks {T} (tr : list (call T)) : list mark := omap mark_of tr.

(** What the training pass and the evaluation pass of an epoch are
    expected to call, given the minibatches of their passes. *)
Definition train_marks {A} (bs : list A) : list mark :=
  SetTrain :: flat_map (fun _ => [ForwardTrain; ComputeLoss; Backprop; OptimizerStep; ZeroGrad]) bs.

Definition eval_marks {A} (bs : list A) : list mark :=
  SetEval :: flat_map (fun _ => [ForwardEval; Predict]) bs.

Definition epoch_marks {A} (passes : list A * list A) : list mark :=
  train_marks (fst passes) ++ eval_marks (snd passes).

Definition is_opt_step {T} (c : call T) : bool :=
  match c with COptStep => true | _ => false end.

(** [s'] is reached from [s] by library calls, and has the parameters of
    [s] unless one of the calls was [opt.step()]. *)
Definition only_step_writes {T} (s s' : state T) : Prop :=
  exists new, trace s' = trace s ++ new /\
    (Forall (fun c => is_opt_step c = false) new -> params s' = params s).

(** The device of line 147. *)
Definition device_of (T : Torch) : device :=
  if cuda_is_available T then cuda else cpu.

(** The calls of lines 146-149. *)
Definition setup_calls (T : Torch) : list (call T) :=
  [CManualSeed 42; CCudaIsAvailable; CModelTo (device_of T); CParameters; CAdam].

(** The state after lines 146-149, when the calls return. *)
Definition after_setup {T} (s : state T) : state T :=
  {| params := params s; training := training s;
     aux := manual_seed T 42 (aux s); out := out s;
     trace := trace s ++ setup_calls T |}.

(** *** The evaluation pass, as arithmetic *)

(** The number of examples of a minibatch whose predicted class, in eval
    mode, is their target. *)
Definition correct (T : Torch) (p : Params T) (a : Aux T)
    (b : list (Example T * Label)) : Z :=
  Z.of_nat (length (filter (fun m => m = true)
    (zip_with Z.eqb (argmax1 T (fst (forward T false p a (map fst b)))) (map snd b)))).

(** Correct predictions and examples over the minibatches of a pass, the
    framework's state going from one forward pass to the next. *)
Fixpoint tally (T : Torch) (p : Params T) (a : Aux T)
    (bs : list (list (Example T * Label))) : Z * Z :=
  match bs with
  | [] => (0, 0)
  | b :: rest =>
      let a' := snd (forward T false p a (map fst b)) in
      (correct T p a b + fst (tally T p a' rest), len b + snd (tally T p a' rest))
  end.

(** The lines that the epochs [es] print, given their accuracies. *)
Definition epoch_lines (es : list Z) (accs : list Q) : list line :=
  flat_map (fun x => [BeginningEpoch (fst x); ValidationAccuracy (fst x) (snd x)])
    (zip es accs).

Definition is_percentage (q : Q) : Prop := (0 <= q)%Q /\ (q <= 100)%Q.

End Phases.

(* ===================================================================== *)
(** * The training loop as Python runs it: names and tensors *)
(* ===================================================================== *)

(** [Training] embeds [train_and_eval] over a typed interface: the names
    of the libraries are resolved, and a minibatch is a list of
    (example, label) samples.  Python resolves the names when the
    function runs, and line 173 compares tensors with torch's broadcasting
    [==].  This module embeds lines 144-176 again with both: every
    module-level name and builtin that the function reads is looked up
    where the source reads it, and the targets of a test minibatch are a
    tensor of any shape.  The library calls are those of [Training], made
    through [lift]. *)
Module Dynamic.
Import Training.

(** ** Names *)

(** What a module-level name or a builtin is bound to when the function
    runs: the object that the notebook's imports (lines 62-67 and 140) or
    Python's builtins give this name, or another value: an integer, a
    string, or an object that cannot be called and has none of the
    attributes read here. *)
Inductive global :=
| Library
| Plain (v : pyval).

(** The builtins that [train_and_eval] calls. *)
Definition builtins : list string := ["print"; "range"; "len"].

(** A global name is looked up in the module's namespace, then among the
    builtins. *)
Definition resolve (ns : gmap string global) (x : string) : option global :=
  match ns !! x with
  | Some g => Some g
  | None => if existsb (String.eqb x) builtins then Some Library else None
  end.

(** The names that [train_and_eval] reads from outside its parameters and
    locals, in the order of their first use (lines 146, 151, 151, 152, 154,
    160, 174). *)
Definition names_read : list string :=
  ["torch"; "range"; "num_epochs"; "print"; "tqdm"; "F"; "len"].

(** The names among them that stand for a library or a builtin. *)
Definition libraries : list string :=
  ["torch"; "range"; "print"; "tqdm"; "F"; "len"].

(** Every library name is bound to its library. *)
Definition intact (ns : gmap string global) : Prop :=
  Forall (fun x => resolve ns x = Some Library) libraries.

(** ** Tensors of labels *)

(** The sizes of the dimensions, and the elements in row-major order. *)
Record tensor := {
  shape : list nat;
  data : list Label
}.

Definition numel (sh : list nat) : nat := foldr Nat.mul 1%nat sh.

(** A one-dimensional tensor. *)
Definition vector (ys : list Label) : tensor :=
  {| shape := [length ys]; data := ys |}.

(** The same labels as a tensor of shape [n, 1]. *)
Definition column (ys : list Label) : tensor :=
  {| shape := [length ys; 1%nat]; data := ys |}.

(** Two sizes broadcast together when they are equal or one of them
    is 1. *)
Definition compatible (a b : nat) : bool :=
  Nat.eqb a b || Nat.eqb a 1 || Nat.eqb b 1.

(** [p == row] on two one-dimensional tensors of compatible sizes. *)
Definition row_eq (p row : list Label) : list bool :=
  match row, p with
  | [r], _ => map (fun x => Z.eqb x r) p
  | _, [x] => map (fun r => Z.eqb x r) row
  | _, _ => zip_with Z.eqb p row
  end.

(** [p == y] for a one-dimensional [p]: the last dimension of [y] is
    broadcast against [p], for each row of [y]; the elements of the
    result, in row-major order.  A tensor without dimensions is broadcast
    as a row of one element.  [None] when the sizes do not broadcast
    (torch raises [RuntimeError]). *)
Definition eq_tensor (p : list Label) (y : tensor) : option (list bool) :=
  match reverse (shape y) with
  | [] => Some (row_eq p (data y))
  | d :: ds =>
      if compatible (length p) d
      then Some (concat (map (row_eq p) (reshape (replicate (numel ds) d) (data y))))
      else None
  end.

(** A tensor of shape [n] with [n] elements. *)
Definition one_per_example (y : tensor) (n : nat) : Prop :=
  shape y = [n] /\ length (data y) = n.

Section Run.

Context (T : Torch).
Context (faults : list (call T) -> call T -> option (LibError T)).

(** [operator.index] of the object with this identity, when the object
    has [__index__] (a tensor of one integer element has). *)
Context (index_of : positive -> option Z).

(** How [test_loader] lays out the labels of the samples of a minibatch
    in the tensor [y] that it yields; the default collation gives
    [vector]. *)
Context (targets : list Label -> tensor).

Context (ns : gmap string global).
Context (train_loader test_loader : Loader T).

(** ** Return or raise *)

Inductive error :=
| Inner (e : exn T)
| AttributeError (name : string)
| BroadcastError.

Inductive outcome (A : Type) :=
| Returned (a : A) (s : state T)
| Failed (e : error) (s : state T).
Arguments Returned {A} a s.
Arguments Failed {A} e s.

Definition D (A : Type) : Type := state T -> outcome A.

#[export] Instance D_ret : MRet D := fun A a s => Returned a s.
#[export] Instance D_bind : MBind D := fun A B k m s =>
  match m s with
  | Returned a s' => k a s'
  | Failed e s' => Failed e s'
  end.

Definition fail {A} (e : error) : D A := fun s => Failed e s.

(** A computation of [Training], here. *)
Definition lift {A} (m : M T A) : D A := fun s =>
  match m s with
  | Ok a s' => Returned a s'
  | Raised e s' => Failed (Inner e) s'
  end.

Fixpoint for_each {A B} (l : list A) (acc : B) (body : B -> A -> D B) : D B :=
  match l with
  | [] => mret acc
  | x :: rest => acc' ← body acc x; for_each rest acc' body
  end.

(** ** Reading names *)

Definition load (x : string) : D global := fun s =>
  match resolve ns x with
  | Some g => Returned g s
  | None => Failed (Inner (NameError x)) s
  end.

(** [x.attr] for a name that an import binds to a module. *)
Definition attribute (x : string) : D unit :=
  g ← load x;
  match g with
  | Library => mret tt
  | Plain _ => fail (AttributeError x)
  end.

(** Calling what a name was bound to. *)
Definition callable (g : global) : D unit :=
  match g with
  | Library => mret tt
  | Plain _ => fail (Inner TypeError)
  end.

(** What [range] makes of its argument: an integer, or an object with
    [__index__]. *)
Definition as_count (g : global) : option Z :=
  match g with
  | Plain (PyInt n) => Some n
  | Plain (PyObj id) => index_of id
  | Plain (PyStr _) => None
  | Library => None
  end.

(** ** The calls on tensors of any shape *)

(** [y.to(device)] *)
Definition target_to (y : tensor) (dev : device) : D tensor :=
  lift (pure_call T faults (CTargetTo (data y) dev) y).

(** [y_hat.argmax(dim=1) == y] *)
Definition tensor_eq (p : list Label) (y : tensor) : D (list bool) :=
  r ← lift (pure_call T faults (CTensorEq p (data y)) (eq_tensor p y));
  match r with
  | Some eqs => mret eqs
  | None => fail BroadcastError
  end.

(** ** Builtins *)

(** [print(...)] *)
Definition print (l : line) : D unit :=
  f ← load "print";
  callable f;;
  lift (Training.print T l).

(** [len(y)]: the size of the first dimension. *)
Definition len (y : tensor) : D Z :=
  f ← load "len";
  callable f;;
  match shape y with
  | [] => fail (Inner TypeError)
  | n :: _ => mret (Z.of_nat n)
  end.

(** [range(num_epochs)] *)
Definition range_num_epochs : D (list Z) :=
  f ← load "range";
  n ← load "num_epochs";
  callable f;;
  match as_count n with
  | Some k => mret (range k)
  | None => fail (Inner TypeError)
  end.

(** ** [train_and_eval] (lines 144-176) *)

(** Lines 156-164.  The targets of a training minibatch go to
    [F.cross_entropy] only, a call of the interface. *)
Definition train_batch (dev : device) (opt : OptState T)
    (b : list (Example T * Label)) : D (OptState T) :=
  X ← lift (input_to T faults (map fst b) dev);
  y ← lift (Training.target_to T faults (map snd b) dev);
  y_hat ← lift (model_call T faults X);
  attribute "F";;
  loss ← lift (F_cross_entropy T faults y_hat y);
  shown ← lift (loss_item T faults loss);
  lift (set_postfix_str T faults shown);;
  lift (loss_backward T faults loss);;
  opt ← lift (opt_step T faults opt);
  lift (opt_zero_grad T faults);;
  mret opt.

(** Lines 153-164. *)
Definition train_phase (dev : device) (opt : OptState T) : D (OptState T) :=
  lift (model_train T faults);;
  f ← load "tqdm";
  callable f;;
  progress_bar ← lift (tqdm T faults train_loader);
  bs ← lift (iterate T faults progress_bar);
  for_each bs opt (train_batch dev).

(** Lines 169-174; the locals are [(num_right, eval_size)]. *)
Definition eval_batch (dev : device) (acc : Z * Z)
    (b : list (Example T * Label)) : D (Z * Z) :=
  X ← lift (input_to T faults (map fst b) dev);
  y ← target_to (targets (map snd b)) dev;
  y_hat ← lift (model_call T faults X);
  preds ← lift (tensor_argmax T faults y_hat);
  eqs ← tensor_eq preds y;
  total ← lift (tensor_sum T faults eqs);
  n ← lift (tensor_item T faults total);
  k ← len y;
  mret (fst acc + n, snd acc + k).

(** Lines 166-176. *)
Definition eval_phase (dev : device) (epoch : Z) : D unit :=
  lift (model_eval T faults);;
  bs ← lift (iterate T faults test_loader);
  acc ← for_each bs (0, 0) (eval_batch dev);
  acc_percent ← lift (true_div T (100 * fst acc) (snd acc));
  print (ValidationAccuracy epoch acc_percent).

(** Lines 152-176. *)
Definition run_epoch (dev : device) (opt : OptState T) (epoch : Z) : D (OptState T) :=
  print (BeginningEpoch epoch);;
  opt ← train_phase dev opt;
  eval_phase dev epoch;;
  mret opt.

Definition train_and_eval : D unit :=
  attribute "torch";;
  lift (torch_manual_seed T faults 42);;
  attribute "torch";;
  available ← lift (torch_cuda_is_available T faults);
  let dev := if available : bool then cuda else cpu in
  lift (model_to T faults dev);;
  attribute "torch";;
  ps ← lift (model_parameters T faults);
  opt ← lift (optim_Adam T faults ps);
  epochs ← range_num_epochs;
  for_each epochs opt (run_epoch dev);;
  mret tt.

End Run.

Arguments Returned {T A} a s.
Arguments Failed {T A} e s.
Arguments Inner {T} e.
Arguments AttributeError {T} name.
Arguments BroadcastError {T}.

(** Every minibatch carries its targets as a one-dimensional tensor with
    one label per example. *)
Definition one_label_each {T : Torch} (targets : list Label -> tensor)
    (bs : list (list (Example T * Label))) : Prop :=
  Forall (fun b => one_per_example (targets (map snd b)) (length b)) bs.

(** ** A small instance *)

(** The module namespace after the notebook's cells up to line 176, with
    [num_epochs] bound to [n]. *)
Definition notebook_namespace (n : Z) : gmap string global :=
  <["num_epochs" := Plain (PyInt n)]>
    (<["tqdm" := Library]>
       (<["batch_size" := Plain (PyInt 1024)]>
          (<["F" := Library]> (<["torch" := Library]> ∅)))).

(** No object has [__index__]. *)
Definition no_index : positive -> option Z := fun _ => None.

(** Four examples of class 1, which the classifier of [Stump.model0]
    gets right. *)
Definition test_ones : Loader Stump.torch := [[(9, 1); (9, 1); (9, 1); (9, 1)]].

End Dynamic.

(* ===================================================================== *)
(** * Properties of the workflow file *)
(* ===================================================================== *)

Module WorkflowFacts.
Import Workflow.

Lemma str_eq_refl (s : string) : str_eq s s = true.
Proof. unfold str_eq. apply String.eqb_refl. Qed.

(** The key's expression is read from the tree and evaluates, for every
    run, to the conjunction of the two case-blind inequalities. *)
Lemma cancel_in_progress_value (c : github_ctx) :
  cancel_in_progress c =
  Some (negb (str_eq (ref c) main_ref) && negb (str_eq (ref c) dev_ref)).
Proof.
  unfold cancel_in_progress; simpl.
  fold main_ref dev_ref.
  destruct (str_eq (ref c) main_ref); simpl; [reflexivity|].
  destruct (str_eq (ref c) dev_ref); reflexivity.
Qed.

(** C3, as stated, fails: on the ref [refs/heads/MAIN], which is neither
    [refs/heads/main] nor [refs/heads/dev], the expression of
    [cancel-in-progress] is false, because the workflow expression
    language compares strings ignoring letter case. *)
Lemma cancel_in_progress_not_exact :
  ~ (forall c : github_ctx,
       cancel_in_progress c = Some true <->
       (ref c <> "refs/heads/main" /\ ref c <> "refs/heads/dev")).
Proof.
  intros H.
  destruct (H on_MAIN) as [_ Hback].
  assert (Hc : cancel_in_progress on_MAIN = Some true).
  { apply Hback. split; discriminate. }
  vm_compute in Hc. discriminate.
Qed.

(** C3, amended: for every run, [cancel-in-progress] evaluates to true
    exactly when [github.ref] equals neither [refs/heads/main] nor
    [refs/heads/dev] under the expression language's comparison of strings
    (which ignores letter case).  A newer run on main or dev therefore
    leaves the run in progress as it is, a newer run on any other ref
    cancels it, and [cancel-in-progress] is the only key of the file that
    bears on failures. *)
Theorem cancel_in_progress_spec (c : github_ctx) :
  (cancel_in_progress c = Some true <->
   (str_eq (ref c) main_ref = false /\ str_eq (ref c) dev_ref = false)) /\
  (cancel_in_progress c = Some false <->
   (str_eq (ref c) main_ref = true \/ str_eq (ref c) dev_ref = true)) /\
  ((ref c = main_ref \/ ref c = dev_ref) ->
   forall older, supersede c older = older) /\
  ((str_eq (ref c) main_ref = false /\ str_eq (ref c) dev_ref = false) ->
   forall older, supersede c older = Cancelled) /\
  failure_keys_used pr_gpu = ["cancel-in-progress"].
Proof.
  pose proof (cancel_in_progress_value c) as Hv.
  split; [|split; [|split; [|split]]].
  - rewrite Hv. split.
    + intros [= H]. apply andb_true_iff in H as [H1 H2].
      split; now apply negb_true_iff.
    + intros [H1 H2]. rewrite H1, H2. reflexivity.
  - rewrite Hv. split.
    + intros [= H]. apply andb_false_iff in H as [H|H];
        apply negb_false_iff in H; auto.
    + intros [H|H]; rewrite H; simpl; [reflexivity|].
      now destruct (str_eq (ref c) main_ref).
  - intros Href older. unfold supersede. rewrite Hv.
    destruct Href as [-> | ->]; rewrite str_eq_refl; simpl; [reflexivity|].
    now destruct (str_eq dev_ref main_ref).
  - intros [H1 H2] older. unfold supersede. rewrite Hv, H1, H2. reflexivity.
  - reflexivity.
Qed.

(** The concurrency group of a run is keyed by the workflow and by the
    pull request number when the event has one, by the ref otherwise. *)
Lemma group_key_value (c : github_ctx) :
  group_key c =
  Some (VStr (workflow c),
        match pull_request_number c with
        | Some n => if Z.eqb n 0 then VStr (ref c) else VNum n
        | None => VStr (ref c)
        end).
Proof.
  unfold group_key; simpl.
  destruct (pull_request_number c) as [n|]; simpl; [|reflexivity].
  destruct (Z.eqb n 0); reflexivity.
Qed.

(** ** The declarative surface *)

(** C4, as stated, fails: the file also has the manual trigger
    [workflow_dispatch], and its matrix entry and job carry more keys. *)
Lemma surface_has_more :
  In "workflow_dispatch" (triggers pr_gpu) /\
  In "pytest_command" (keys matrix_entry) /\
  ~ surface_as_described pr_gpu.
Proof.
  split; [simpl; auto|]. split; [simpl; auto|].
  intros [Htrig _].
  specialize (Htrig "workflow_dispatch").
  simpl in Htrig.
  destruct Htrig as [H|[H|[]]]; [auto | discriminate | discriminate].
Qed.

(** C4, amended: the declarative surface of the workflow is: a name; two
    triggers, on pull requests ([pull_request_target]) and manual
    ([workflow_dispatch]); a concurrency group with its conditional
    [cancel-in-progress]; and the single job [pytest-gpu], which calls a
    reusable workflow under a guard on the repository owner, with a matrix
    of one entry (name, container image, test markers, pytest command and
    package name), seven inputs and the passthrough of the secret
    [MCLOUD_API_KEY]. *)
Theorem pr_gpu_surface :
  keys pr_gpu = ["name"; "on"; "concurrency"; "jobs"] /\
  triggers pr_gpu = ["pull_request_target"; "workflow_dispatch"] /\
  keys_at ["concurrency"] pr_gpu = ["group"; "cancel-in-progress"] /\
  keys_at ["jobs"] pr_gpu = ["pytest-gpu"] /\
  get_path ["jobs"; "pytest-gpu"] pr_gpu = Some pytest_gpu /\
  keys pytest_gpu = ["uses"; "strategy"; "name"; "if"; "with"; "secrets"] /\
  matrix_entries pytest_gpu = [matrix_entry] /\
  keys matrix_entry =
    ["name"; "container"; "markers"; "pytest_command"; "composer_package_name"] /\
  keys_at ["with"] pytest_gpu =
    ["composer_package_name"; "container"; "mcloud-timeout"; "name";
     "pytest-command"; "pytest-markers"; "python-version"] /\
  keys_at ["secrets"] pytest_gpu = ["mcloud-api-key"] /\
  secret_refs pytest_gpu = ["MCLOUD_API_KEY"].
Proof. repeat split. Qed.

End WorkflowFacts.

(* ===================================================================== *)
(** * Properties of the training loop *)
(* ===================================================================== *)

Module TrainingFacts.
Import Training.

Section Monad.

Context {T : Torch}.

Lemma bind_run {A B} (m : M T A) (k : A -> M T B) (s : state T) :
  (m ≫= k) s = match m s with Ok a s' => k a s' | Raised e s' => Raised e s' end.
Proof. reflexivity. Qed.

Lemma ret_run {A} (a : A) (s : state T) : (mret a : M T A) s = Ok a s.
Proof. reflexivity. Qed.

(** *** Relations that every outcome of a computation maintains *)

Section Preserves.

Context (R : state T -> state T -> Prop).
Hypothesis R_refl : forall s, R s s.
Hypothesis R_trans : forall s1 s2 s3, R s1 s2 -> R s2 s3 -> R s1 s3.

Lemma preserves_ret {A} (a : A) : preserves R (mret a : M T A).
Proof. intros s. apply R_refl. Qed.

Lemma preserves_raise {A} (e : exn T) : preserves R (raise T e : M T A).
Proof. intros s. apply R_refl. Qed.

Lemma preserves_bind {A B} (m : M T A) (k : A -> M T B) :
  preserves R m -> (forall a, preserves R (k a)) -> preserves R (m ≫= k).
Proof.
  intros Hm Hk s. rewrite bind_run.
  specialize (Hm s). destruct (m s) as [a s'|e s']; simpl in *.
  - eapply R_trans; [exact Hm | apply Hk].
  - exact Hm.
Qed.

Lemma preserves_for_each {A B} (body : B -> A -> M T B) (l : list A) :
  (forall acc x, preserves R (body acc x)) ->
  forall acc, preserves R (for_each T l acc body).
Proof.
  intros Hbody. induction l as [|x l IH]; intros acc; simpl.
  - apply preserves_ret.
  - apply preserves_bind; [apply Hbody | intros acc'; apply IH].
Qed.

End Preserves.

(** *** Returning under a library whose calls return *)

Lemma returns_ret {A} (a : A) s (Q : A -> state T -> Prop) :
  Q a s -> returns (mret a) s Q.
Proof. intros H. exists a, s. split; [reflexivity | exact H]. Qed.

Lemma returns_bind {A B} (m : M T A) (k : A -> M T B) s
    (Q : B -> state T -> Prop) :
  returns m s (fun a s' => returns (k a) s' Q) -> returns (m ≫= k) s Q.
Proof.
  intros (a & s' & Hm & b & s'' & Hk & HQ).
  exists b, s''. rewrite bind_run, Hm. split; assumption.
Qed.

Lemma returns_weaken {A} (m : M T A) s (Q Q' : A -> state T -> Prop) :
  returns m s Q -> (forall a s', Q a s' -> Q' a s') -> returns m s Q'.
Proof. intros (a & s' & Hm & HQ) H. exists a, s'. auto. Qed.

Lemma returns_lib {A} (c : call T) (run : state T -> A * state T) s
    (Q : A -> state T -> Prop) :
  Q (fst (run (log T c s))) (snd (run (log T c s))) ->
  returns (lib T reliable c run) s Q.
Proof.
  intros H. unfold returns, lib, reliable.
  destruct (run (log T c s)) as [a s'] eqn:E. exists a, s'. split; [reflexivity | exact H].
Qed.

(** A loop returns when its body does; [I] is the loop invariant, over
    the locals and the elements still to come. *)
Lemma returns_for_each {A B} (body : B -> A -> M T B)
    (Inv : list A -> B -> state T -> Prop) (l : list A) :
  (forall x rest acc s, Inv (x :: rest) acc s ->
     returns (body acc x) s (fun acc' s' => Inv rest acc' s')) ->
  forall acc s, Inv l acc s ->
  returns (for_each T l acc body) s (fun acc' s' => Inv [] acc' s').
Proof.
  intros Hbody. induction l as [|x l IH]; intros acc s HI; simpl.
  - apply returns_ret. exact HI.
  - apply returns_bind. eapply returns_weaken; [apply Hbody, HI|].
    intros acc' s' HI'. apply IH, HI'.
Qed.

End Monad.

(** ** The evaluation pass writes no parameter *)

Section Evaluation.

Context {T : Torch}.
Context (faults : list (call T) -> call T -> option (LibError T)).

Lemma quiet_refl (s : state T) : quiet s s.
Proof. split; [reflexivity|]. exists []. now rewrite app_nil_r. Qed.

Lemma quiet_trans (s1 s2 s3 : state T) : quiet s1 s2 -> quiet s2 s3 -> quiet s1 s3.
Proof.
  intros [Hp (n1 & Ht & Hn)] [Hp' (n2 & Ht' & Hn')]. split; [congruence|].
  exists (n1 ++ n2). split.
  - rewrite Ht', Ht. now rewrite app_assoc.
  - apply Forall_app; auto.
Qed.

Lemma lib_quiet {A} (c : call T) (run : state T -> A * state T) :
  updates c = false ->
  (forall s, params (snd (run s)) = params s /\ trace (snd (run s)) = trace s) ->
  preserves quiet (lib T faults c run).
Proof.
  intros Hc Hrun s. unfold lib.
  destruct (faults (trace s) c) as [e|]; simpl.
  - split; [reflexivity|]. exists [c]. split; [reflexivity | now constructor].
  - destruct (Hrun (log T c s)) as [Hp Ht].
    destruct (run (log T c s)) as [a s'] eqn:E; simpl in *.
    split; [exact Hp|]. exists [c]. split; [exact Ht | now constructor].
Qed.

Lemma print_quiet (l : line) : preserves quiet (print T l).
Proof. intros s. simpl. split; [reflexivity|]. exists []. now rewrite app_nil_r. Qed.

Lemma true_div_quiet (a b : Z) : preserves quiet (true_div T a b).
Proof. unfold true_div. destruct (Z.eqb b 0); intros s; apply quiet_refl. Qed.

Ltac quiet_lib :=
  apply lib_quiet; [reflexivity | intros ?; simpl;
    repeat match goal with |- context [let (_, _) := ?p in _] => destruct p end;
    split; reflexivity].

Ltac quiet_step :=
  first [ apply preserves_ret; apply quiet_refl
        | apply (preserves_bind quiet quiet_trans); [|intros ?]
        | apply print_quiet
        | apply true_div_quiet
        | quiet_lib ].

Lemma model_call_quiet (X : list (Example T)) : preserves quiet (model_call T faults X).
Proof.
  intros s. unfold model_call.
  refine (lib_quiet (CForward (training s) X) _ _ _ s); [reflexivity|].
  intros s0; simpl. destruct (forward T _ _ _ X). split; reflexivity.
Qed.

Lemma eval_batch_quiet (dev : device) (acc : Z * Z) (b : list (Example T * Label)) :
  preserves quiet (eval_batch T faults dev acc b).
Proof.
  unfold eval_batch, input_to, target_to, tensor_argmax, tensor_eq,
    tensor_sum, tensor_item, pure_call.
  quiet_step; [quiet_lib|].
  quiet_step; [quiet_lib|].
  quiet_step; [apply model_call_quiet|].
  repeat quiet_step.
Qed.

Lemma eval_phase_quiet (test_loader : Loader T) (dev : device) (epoch : Z) :
  preserves quiet (eval_phase T faults test_loader dev epoch).
Proof.
  unfold eval_phase, model_eval, iterate.
  quiet_step; [quiet_lib|].
  quiet_step; [quiet_lib|].
  quiet_step.
  - apply (preserves_for_each quiet quiet_refl quiet_trans).
    intros; apply eval_batch_quiet.
  - repeat quiet_step.
Qed.

Lemma run_epoch_unfold (train_loader test_loader : Loader T) (dev : device)
    (opt : OptState T) (epoch : Z) (s : state T) :
  run_epoch T faults train_loader test_loader dev opt epoch s =
  match train_phase T faults train_loader dev opt (emit T (BeginningEpoch epoch) s) with
  | Ok opt1 s1 =>
      match eval_phase T faults test_loader dev epoch s1 with
      | Ok _ s2 => Ok opt1 s2
      | Raised e s2 => Raised e s2
      end
  | Raised e s1 => Raised e s1
  end.
Proof.
  unfold run_epoch. rewrite bind_run. simpl. rewrite bind_run.
  destruct (train_phase _ _ _ _ _ _) as [opt1 s1|e s1]; [|reflexivity].
  rewrite bind_run. destruct (eval_phase _ _ _ _ _ _); reflexivity.
Qed.

(** C10: whatever the library does, the evaluation pass of an epoch
    (lines 166-176) ends with the parameters it started with and calls
    neither [backward] nor the optimizer's [step]; an epoch therefore ends
    with the parameters and the optimizer that its training pass produced,
    and these are what the next epoch's training pass starts from. *)
Theorem evaluation_writes_no_parameter
    (train_loader test_loader : Loader T) (dev : device)
    (opt : OptState T) (epoch : Z) (s : state T) :
  (forall s0, quiet s0 (final (eval_phase T faults test_loader dev epoch s0))) /\
  match train_phase T faults train_loader dev opt (emit T (BeginningEpoch epoch) s) with
  | Ok opt1 s1 =>
      match run_epoch T faults train_loader test_loader dev opt epoch s with
      | Ok opt2 s2 => opt2 = opt1 /\ params s2 = params s1
      | Raised _ s2 => params s2 = params s1
      end
  | Raised e s1 =>
      run_epoch T faults train_loader test_loader dev opt epoch s = Raised e s1
  end.
Proof.
  split; [intros s0; apply eval_phase_quiet|].
  rewrite run_epoch_unfold.
  destruct (train_phase _ _ _ _ _ _) as [opt1 s1|e s1]; [|reflexivity].
  pose proof (eval_phase_quiet test_loader dev epoch s1) as [Hp _].
  destruct (eval_phase _ _ _ _ _ _); simpl in Hp; auto.
Qed.

End Evaluation.

(** ** Failures of the library reach the caller as they are *)

Section Failures.

Context {T : Torch}.
Context (faults : list (call T) -> call T -> option (LibError T)).

Lemma attempts_app (h l1 l2 : list (call T)) (f : option (LibError T)) :
  attempts faults h l1 None -> attempts faults (h ++ l1) l2 f ->
  attempts faults h (l1 ++ l2) f.
Proof.
  intros H1. remember None as none eqn:En. revert En l2 f.
  induction H1 as [h | h c l f0 Hc Hl IH | h c x Hc]; intros En l2 f H2.
  - simpl. now rewrite app_nil_r in H2.
  - simpl. apply attempts_ok; [exact Hc|].
    apply IH; [exact En|]. now rewrite <- app_assoc.
  - discriminate.
Qed.

Lemma faithful_ret {A} (a : A) : faithful faults (mret a : M T A).
Proof. intros s. exists []. simpl. rewrite app_nil_r. split; [reflexivity | constructor]. Qed.

Lemma faithful_raise_own {A} (e : exn T) :
  (forall x, e <> LibraryError x) -> faithful faults (raise T e : M T A).
Proof.
  intros He s. exists []. simpl. rewrite app_nil_r. split; [reflexivity|].
  destruct e; try constructor. now destruct (He e).
Qed.

Lemma faithful_bind {A B} (m : M T A) (k : A -> M T B) :
  faithful faults m -> (forall a, faithful faults (k a)) -> faithful faults (m ≫= k).
Proof.
  intros Hm Hk s. rewrite bind_run.
  destruct (Hm s) as (l1 & Ht1 & Ha1).
  destruct (m s) as [a s1|e s1]; simpl in *.
  - destruct (Hk a s1) as (l2 & Ht2 & Ha2).
    exists (l1 ++ l2). split.
    + rewrite Ht2, Ht1. now rewrite app_assoc.
    + apply attempts_app; [exact Ha1|]. now rewrite <- Ht1.
  - exists l1. split; assumption.
Qed.

Lemma faithful_for_each {A B} (body : B -> A -> M T B) (l : list A) :
  (forall acc x, faithful faults (body acc x)) ->
  forall acc, faithful faults (for_each T l acc body).
Proof.
  intros Hbody. induction l as [|x l IH]; intros acc; simpl.
  - apply faithful_ret.
  - apply faithful_bind; [apply Hbody | intros acc'; apply IH].
Qed.

Lemma faithful_lib {A} (c : call T) (run : state T -> A * state T) :
  (forall s, trace (snd (run s)) = trace s) -> faithful faults (lib T faults c run).
Proof.
  intros Hrun s. exists [c]. unfold lib.
  destruct (faults (trace s) c) as [x|] eqn:Hf; simpl.
  - split; [reflexivity | now apply attempts_fail].
  - specialize (Hrun (log T c s)).
    destruct (run (log T c s)) as [a s'] eqn:E; simpl in *.
    split; [exact Hrun|]. apply attempts_ok; [exact Hf | constructor].
Qed.

Lemma faithful_print (l : line) : faithful faults (print T l).
Proof. intros s. exists []. simpl. rewrite app_nil_r. split; [reflexivity | constructor]. Qed.

Lemma faithful_true_div (a b : Z) : faithful faults (true_div T a b).
Proof.
  unfold true_div. destruct (Z.eqb b 0).
  - apply faithful_raise_own. discriminate.
  - apply faithful_ret.
Qed.

Lemma faithful_range_num_epochs (globals : gmap string pyval) :
  faithful faults (range_num_epochs T globals).
Proof.
  unfold range_num_epochs.
  destruct (globals !! "num_epochs") as [[n|?|?]|];
    first [apply faithful_ret | apply faithful_raise_own; discriminate].
Qed.

Lemma faithful_model_call (X : list (Example T)) : faithful faults (model_call T faults X).
Proof.
  intros s. unfold model_call.
  refine (faithful_lib (CForward (training s) X) _ _ s).
  intros s0; simpl. now destruct (forward T _ _ _ X).
Qed.

Ltac faithful_lib_tac :=
  apply faithful_lib; intros ?; simpl;
  repeat match goal with |- context [let (_, _) := ?p in _] => destruct p end;
  reflexivity.

Ltac faithful_step :=
  first [ apply faithful_ret
        | apply faithful_print
        | apply faithful_true_div
        | apply faithful_range_num_epochs
        | apply faithful_model_call
        | apply faithful_bind; [|intros ?]
        | faithful_lib_tac ].

Lemma faithful_train_batch (dev : device) (opt : OptState T)
    (b : list (Example T * Label)) :
  faithful faults (train_batch T faults dev opt b).
Proof.
  unfold train_batch, input_to, target_to, F_cross_entropy, loss_item,
    set_postfix_str, loss_backward, opt_step, opt_zero_grad, pure_call.
  repeat faithful_step.
Qed.

Lemma faithful_eval_batch (dev : device) (acc : Z * Z)
    (b : list (Example T * Label)) :
  faithful faults (eval_batch T faults dev acc b).
Proof.
  unfold eval_batch, input_to, target_to, tensor_argmax, tensor_eq,
    tensor_sum, tensor_item, pure_call.
  repeat faithful_step.
Qed.

Lemma faithful_run_epoch (train_loader test_loader : Loader T) (dev : device)
    (opt : OptState T) (epoch : Z) :
  faithful faults (run_epoch T faults train_loader test_loader dev opt epoch).
Proof.
  unfold run_epoch, train_phase, eval_phase, model_train, model_eval, tqdm,
    iterate, pure_call.
  repeat first [ apply faithful_for_each; intros
               | apply faithful_train_batch
               | apply faithful_eval_batch
               | faithful_step ].
Qed.

Lemma faithful_train_and_eval (globals : gmap string pyval)
    (train_loader test_loader : Loader T) :
  faithful faults (train_and_eval T faults globals train_loader test_loader).
Proof.
  unfold train_and_eval, torch_manual_seed, torch_cuda_is_available, model_to,
    model_parameters, optim_Adam, pure_call.
  repeat first [ apply faithful_for_each; intros
               | apply faithful_run_epoch
               | faithful_step ].
Qed.

(** *** What is raised *)

Section RaisesIn.

Context (P : exn T -> Prop).

Lemma raises_in_ret {A} (a : A) : raises_in P (mret a : M T A).
Proof. intros s e s' H. discriminate. Qed.

Lemma raises_in_raise {A} (e : exn T) : P e -> raises_in P (raise T e : M T A).
Proof. intros He s e' s' [= <- _]. exact He. Qed.

Lemma raises_in_bind {A B} (m : M T A) (k : A -> M T B) :
  raises_in P m -> (forall a, raises_in P (k a)) -> raises_in P (m ≫= k).
Proof.
  intros Hm Hk s e s' H. rewrite bind_run in H.
  destruct (m s) as [a s1|e1 s1] eqn:E.
  - eapply Hk, H.
  - injection H as <- _. eapply Hm, E.
Qed.

Lemma raises_in_for_each {A B} (body : B -> A -> M T B) (l : list A) :
  (forall acc x, raises_in P (body acc x)) ->
  forall acc, raises_in P (for_each T l acc body).
Proof.
  intros Hbody. induction l as [|x l IH]; intros acc; simpl.
  - apply raises_in_ret.
  - apply raises_in_bind; [apply Hbody | intros acc'; apply IH].
Qed.

Lemma raises_in_lib {A} (c : call T) (run : state T -> A * state T) :
  (forall x, P (LibraryError x)) -> raises_in P (lib T faults c run).
Proof.
  intros HP s e s' H. unfold lib in H.
  destruct (faults (trace s) c).
  - injection H as <- _. apply HP.
  - destruct (run (log T c s)). discriminate.
Qed.

End RaisesIn.

Lemma train_and_eval_raises (globals : gmap string pyval)
    (train_loader test_loader : Loader T) :
  raises_in library_or_builtin
    (train_and_eval T faults globals train_loader test_loader).
Proof.
  unfold train_and_eval, run_epoch, train_phase, eval_phase, train_batch,
    eval_batch, torch_manual_seed, torch_cuda_is_available, model_to,
    model_parameters, optim_Adam, model_train, model_eval, tqdm, iterate,
    input_to, target_to, model_call, F_cross_entropy, loss_item,
    set_postfix_str, loss_backward, opt_step, opt_zero_grad, tensor_argmax,
    tensor_eq, tensor_sum, tensor_item, pure_call, true_div, range_num_epochs,
    print.
  repeat first
    [ apply raises_in_ret
    | apply raises_in_bind; [|intros ?]
    | apply raises_in_for_each; intros ? ?
    | apply raises_in_lib; intros ?; exact I
    | apply raises_in_raise; simpl; auto; fail
    | match goal with
      | |- raises_in _ (fun s => lib _ _ _ _ s) =>
          intros ? ? ? ?; eapply raises_in_lib; [intros ?; exact I | eassumption]
      | |- raises_in _ (if ?b then _ else _) => destruct b
      | |- raises_in _ (match ?o with _ => _ end) => destruct o
      | |- raises_in _ (fun s => Ok _ _) => intros ? ? ? ?; discriminate
      end ].
Qed.

End Failures.

(** ** Runs in which the library's calls return *)

Section Reliable.

Context {T : Torch}.

Lemma steps_app (l l' : list (call T)) : steps (l ++ l') = steps l ++ steps l'.
Proof. apply omap_app. Qed.

Lemma returns_model_call (X : list (Example T)) (s : state T)
    (Q : Logits T -> state T -> Prop) :
  (let s1 := log T (CForward (training s) X) s in
   let r := forward T (training s) (params s) (aux s) X in
   Q (fst r) (set_aux T (snd r) s1)) ->
  returns (model_call T reliable X) s Q.
Proof.
  intros H. unfold model_call. apply returns_lib. simpl.
  destruct (forward T _ _ _ X); exact H.
Qed.

Lemma count_true_le (eqs : list bool) :
  (length (filter (fun b => b = true) eqs) <= length eqs)%nat.
Proof. apply length_filter. Qed.

(** One minibatch of the evaluation loop adds its matches to [num_right]
    and its size to [eval_size]. *)
Lemma eval_batch_returns (dev : device) (acc : Z * Z)
    (b : list (Example T * Label)) (s : state T) :
  training s = false ->
  returns (eval_batch T reliable dev acc b) s (fun acc' s' =>
    training s' = false /\ out s' = out s /\ params s' = params s /\
    steps (trace s') = steps (trace s) /\
    exists n, 0 <= n <= len b /\ acc' = (fst acc + n, snd acc + len b)).
Proof.
  intros Htr. unfold eval_batch, input_to, target_to, tensor_argmax,
    tensor_eq, tensor_sum, tensor_item, pure_call.
  apply returns_bind, returns_lib; simpl.
  apply returns_bind, returns_lib; simpl.
  apply returns_bind, returns_model_call; simpl.
  apply returns_bind, returns_lib; simpl.
  apply returns_bind, returns_lib; simpl.
  apply returns_bind, returns_lib; simpl.
  apply returns_bind, returns_lib; simpl.
  apply returns_ret; simpl.
  rewrite Htr. repeat split; try reflexivity.
  - rewrite !steps_app; simpl. now rewrite !app_nil_r.
  - eexists. split; [|unfold len; rewrite length_map; reflexivity].
    split; [lia|]. unfold len.
    pose proof (count_true_le (zip_with Z.eqb
      (argmax1 T (fst (forward T false (params s) (aux s) (map fst b))))
      (map snd b))) as Hle.
    rewrite length_zip_with in Hle.
    rewrite (forward_rows T), !length_map in Hle. lia.
Qed.

Lemma len_concat_cons {A} (b : list A) (rest : list (list A)) :
  len (concat (b :: rest)) = len b + len (concat rest).
Proof. unfold len; simpl. rewrite length_app. lia. Qed.

Lemma len_nonneg {A} (l : list A) : 0 <= len l.
Proof. unfold len. lia. Qed.

(** The evaluation loop ends with [eval_size] the number of examples of
    the pass and [num_right] between [0] and [eval_size]. *)
Lemma eval_loop_returns (dev : device) (bs : list (list (Example T * Label)))
    (s : state T) :
  training s = false ->
  returns (for_each T bs (0, 0) (eval_batch T reliable dev)) s (fun acc s' =>
    training s' = false /\ out s' = out s /\ params s' = params s /\
    steps (trace s') = steps (trace s) /\
    0 <= fst acc <= snd acc /\ snd acc = len (concat bs)).
Proof.
  intros Htr.
  pose (Inv := fun (rest : list (list (Example T * Label))) (acc : Z * Z) (s' : state T) =>
    training s' = false /\ out s' = out s /\ params s' = params s /\
    steps (trace s') = steps (trace s) /\
    0 <= fst acc <= snd acc /\ snd acc + len (concat rest) = len (concat bs)).
  eapply returns_weaken.
  - apply (returns_for_each (eval_batch T reliable dev) Inv bs).
    + intros b rest acc s1 (Ht & Ho & Hp & Hs & Hacc & Hsz).
      eapply returns_weaken; [apply eval_batch_returns, Ht|].
      intros acc' s2 (Ht' & Ho' & Hp' & Hs' & n & Hn & ->).
      rewrite len_concat_cons in Hsz. unfold Inv; cbn [fst snd].
      repeat split; try congruence; lia.
    + unfold Inv. cbn [fst snd]. repeat split; try reflexivity; try assumption; lia.
  - intros acc s' (Ht & Ho & Hp & Hs & Hacc & Hsz).
    change (len (concat (@nil (list (Example T * Label))))) with 0 in Hsz.
    repeat split; try assumption; lia.
Qed.

Lemma len_concat_pos {A} (bs : list (list A)) :
  Exists (fun b => b <> []) bs -> 0 < len (concat bs).
Proof.
  induction 1 as [b rest Hb | b rest _ IH]; rewrite len_concat_cons.
  - pose proof (len_nonneg (concat rest)).
    destruct b; [congruence|]. unfold len at 1; simpl. lia.
  - pose proof (len_nonneg b). lia.
Qed.

Lemma len_concat_zero {A} (bs : list (list A)) :
  Forall (fun b => b = []) bs -> len (concat bs) = 0.
Proof.
  induction 1 as [|b rest -> _ IH]; [reflexivity|].
  rewrite len_concat_cons, IH. reflexivity.
Qed.

(** [a / b] for [0 <= a <= b], [0 < b], as a percentage. *)
Lemma percentage (num_right eval_size : Z) :
  0 < eval_size -> 0 <= num_right <= eval_size ->
  let q := Qmake (100 * num_right * Z.sgn eval_size) (Z.to_pos (Z.abs eval_size)) in
  (q == inject_Z (100 * num_right) / inject_Z eval_size)%Q /\
  (0 <= q)%Q /\ (q <= 100)%Q.
Proof.
  intros Hpos Hr. simpl.
  destruct eval_size as [|p|p]; try lia.
  simpl. rewrite Z.mul_1_r. repeat split.
  - unfold Qeq, Qdiv, Qmult, Qinv, inject_Z; simpl. lia.
  - unfold Qle; simpl. lia.
  - unfold Qle; simpl. lia.
Qed.

Lemma eval_phase_run (test_loader : Loader T) (dev : device) (epoch : Z)
    (s : state T) :
  exists num_right eval_size s1,
    for_each T (fst (batches T test_loader (aux s))) (0, 0)
      (eval_batch T reliable dev) (eval_start test_loader s)
    = Ok (num_right, eval_size) s1 /\
    out s1 = out s /\ params s1 = params s /\
    steps (trace s1) = steps (trace s) /\
    0 <= num_right <= eval_size /\
    eval_size = len (concat (fst (batches T test_loader (aux s)))) /\
    eval_phase T reliable test_loader dev epoch s =
      (acc_percent ← true_div T (100 * num_right) eval_size;
       print T (ValidationAccuracy epoch acc_percent)) s1.
Proof.
  destruct (eval_loop_returns dev (fst (batches T test_loader (aux s)))
              (eval_start test_loader s) eq_refl)
    as ([num_right eval_size] & s1 & Hrun & _ & Ho & Hp & Hs & Hacc & Hsz).
  exists num_right, eval_size, s1. simpl in *.
  repeat split; try assumption; try lia.
  - rewrite Hs. rewrite !steps_app. simpl. now rewrite !app_nil_r.
  - unfold eval_phase, model_eval, iterate, lib.
    rewrite bind_run; simpl. rewrite bind_run; simpl.
    unfold eval_start in Hrun.
    destruct (batches T test_loader (aux s)) as [bs a]; simpl in *.
    rewrite bind_run, Hrun. reflexivity.
Qed.

(** A training step makes its four calls in order. *)
Lemma train_batch_returns (dev : device) (opt : OptState T)
    (b : list (Example T * Label)) (s : state T) :
  training s = true ->
  returns (train_batch T reliable dev opt b) s (fun _ s' =>
    training s' = true /\ out s' = out s /\
    steps (trace s') = steps (trace s) ++ [Forward; LossOf; Backward; Step]).
Proof.
  intros Htr. unfold train_batch, input_to, target_to, F_cross_entropy,
    loss_item, set_postfix_str, loss_backward, opt_step, opt_zero_grad, pure_call.
  apply returns_bind, returns_lib; simpl.
  apply returns_bind, returns_lib; simpl.
  apply returns_bind, returns_model_call; simpl.
  apply returns_bind, returns_lib; simpl.
  apply returns_bind, returns_lib; simpl.
  apply returns_bind, returns_lib; simpl.
  apply returns_bind, returns_lib; simpl.
  apply returns_bind, returns_lib; simpl.
  destruct (step T opt _ _) as [opt' p']; simpl.
  apply returns_bind, returns_lib; simpl.
  apply returns_ret; simpl.
  rewrite Htr. repeat split.
  rewrite !steps_app; simpl. rewrite !app_nil_r, <- !app_assoc. reflexivity.
Qed.

Lemma train_phase_returns (train_loader : Loader T) (dev : device)
    (opt : OptState T) (s : state T) :
  returns (train_phase T reliable train_loader dev opt) s (fun _ s' =>
    training s' = true /\ out s' = out s /\
    exists a, steps (trace s') =
              steps (trace s) ++ epoch_steps (fst (batches T train_loader a))).
Proof.
  unfold train_phase, model_train, tqdm, iterate, pure_call.
  apply returns_bind, returns_lib; simpl.
  apply returns_bind, returns_lib; simpl.
  apply returns_bind, returns_lib; simpl.
  destruct (batches T train_loader (aux s)) as [bs a] eqn:Eb; simpl.
  set (s0 := set_aux T a _).
  pose (Inv := fun (rest : list (list (Example T * Label))) (_ : OptState T) (s' : state T) =>
    training s' = true /\ out s' = out s /\
    steps (trace s') ++ epoch_steps rest = steps (trace s) ++ epoch_steps bs).
  eapply returns_weaken.
  - apply (returns_for_each (train_batch T reliable dev) Inv bs).
    + intros b rest o s1 (Ht & Ho & Hs).
      eapply returns_weaken; [apply train_batch_returns, Ht|].
      intros o' s2 (Ht' & Ho' & Hs'). unfold Inv.
      repeat split; try congruence.
      rewrite Hs', <- Hs. unfold epoch_steps; simpl.
      rewrite <- !app_assoc. reflexivity.
    + unfold Inv, s0; simpl. repeat split.
      rewrite !steps_app; simpl. now rewrite !app_nil_r.
  - intros o s' (Ht & Ho & Hs). repeat split; try assumption.
    exists (aux s). rewrite Eb; simpl.
    unfold epoch_steps in Hs at 1; simpl in Hs. now rewrite app_nil_r in Hs.
Qed.

Lemma run_epoch_returns (train_loader test_loader : Loader T) (dev : device)
    (opt : OptState T) (epoch : Z) (s : state T) :
  (forall a, Exists (fun b => b <> []) (fst (batches T test_loader a))) ->
  returns (run_epoch T reliable train_loader test_loader dev opt epoch) s (fun _ s' =>
    exists a, steps (trace s') =
              steps (trace s) ++ epoch_steps (fst (batches T train_loader a))).
Proof.
  intros Htest. unfold run_epoch.
  apply returns_bind. unfold print at 1. eexists tt, _. split; [reflexivity|].
  apply returns_bind.
  eapply returns_weaken; [apply train_phase_returns|].
  intros opt1 s1 (_ & _ & a & Hs). simpl in Hs.
  apply returns_bind.
  destruct (eval_phase_run test_loader dev epoch s1)
    as (nr & sz & s1' & _ & _ & _ & Hs1' & _ & Hsz & Hrun).
  pose proof (len_concat_pos _ (Htest (aux s1))) as Hpos. rewrite <- Hsz in Hpos.
  unfold returns. rewrite Hrun. unfold true_div.
  destruct (Z.eqb_spec sz 0) as [->|_]; [lia|].
  rewrite bind_run, ret_run. simpl. eexists tt, _. split; [reflexivity|].
  apply returns_ret. exists a. simpl. now rewrite Hs1', Hs.
Qed.

Lemma length_range (n : Z) : length (range n) = Z.to_nat n.
Proof. unfold range. now rewrite length_map, length_seq. Qed.

(** C2, amended: when the library's calls return, [num_epochs] is bound to
    an integer and every pass over [test_loader] yields an example,
    [train_and_eval] returns, and the training steps it made are, for each
    of the [num_epochs] epochs in turn, for each minibatch of that epoch's
    pass over [train_loader]: forward pass, cross-entropy loss, backward
    pass, optimizer step, in that order. *)
Theorem train_and_eval_steps (globals : gmap string pyval) (n : Z)
    (train_loader test_loader : Loader T) (s : state T) :
  globals !! "num_epochs" = Some (PyInt n) ->
  (forall a, Exists (fun b => b <> []) (fst (batches T test_loader a))) ->
  exists s' bss,
    train_and_eval T reliable globals train_loader test_loader s = Ok tt s' /\
    length bss = Z.to_nat n /\
    Forall (fun bs => exists a, bs = fst (batches T train_loader a)) bss /\
    steps (trace s') = steps (trace s) ++ flat_map epoch_steps bss.
Proof.
  intros Hn Htest.
  pose (P := fun bs : list (list (Example T * Label)) =>
               exists a, bs = fst (batches T train_loader a)).
  cut (returns (train_and_eval T reliable globals train_loader test_loader) s
         (fun _ s' => exists bss, length bss = Z.to_nat n /\ Forall P bss /\
            steps (trace s') = steps (trace s) ++ flat_map epoch_steps bss)).
  { intros ([] & s' & Hrun & bss & H). exists s', bss. split; assumption. }
  unfold train_and_eval, torch_manual_seed, torch_cuda_is_available, model_to,
    model_parameters, optim_Adam, pure_call, range_num_epochs.
  apply returns_bind, returns_lib; simpl.
  apply returns_bind, returns_lib; simpl.
  apply returns_bind, returns_lib; simpl.
  apply returns_bind, returns_lib; simpl.
  apply returns_bind, returns_lib; simpl.
  rewrite Hn. apply returns_bind, returns_ret.
  set (s0 := log T CAdam _).
  set (dev := if cuda_is_available T then cuda else cpu).
  assert (Hs0 : steps (trace s0) = steps (trace s)).
  { unfold s0; simpl. rewrite !steps_app; simpl. now rewrite !app_nil_r. }
  pose (Inv := fun (rest : list Z) (_ : OptState T) (s' : state T) =>
    exists bss, (length bss + length rest = Z.to_nat n)%nat /\ Forall P bss /\
      steps (trace s') = steps (trace s) ++ flat_map epoch_steps bss).
  apply returns_bind. eapply returns_weaken.
  - apply (returns_for_each
             (run_epoch T reliable train_loader test_loader dev) Inv (range n)).
    + intros epoch rest opt s1 (bss & Hlen & HP & Hs).
      eapply returns_weaken; [apply run_epoch_returns, Htest|].
      intros opt' s2 (a & Hs2). exists (bss ++ [fst (batches T train_loader a)]).
      split; [|split].
      * rewrite length_app; simpl in *. lia.
      * apply Forall_app; split; [exact HP|]. constructor; [now exists a | constructor].
      * rewrite Hs2, Hs, flat_map_app; simpl.
        now rewrite app_nil_r, app_assoc.
    + exists []. simpl. rewrite length_range, app_nil_r. auto.
  - intros opt s' (bss & Hlen & HP & Hs). apply returns_ret.
    exists bss. simpl in Hlen. rewrite Nat.add_0_r in Hlen. auto.
Qed.

End Reliable.

(** ** Runs on the small framework *)

Section Runs.

Import Stump.

(** C2, as stated, fails: with a [test_loader] that yields nothing, the
    first epoch's evaluation raises [ZeroDivisionError] and the second
    epoch never trains, although [num_epochs] is 2. *)
Lemma training_stops_at_an_empty_test_loader :
  ~ (forall (T : Torch) (globals : gmap string pyval) (n : Z)
       (train_loader test_loader : Loader T) (s : state T),
       globals !! "num_epochs" = Some (PyInt n) ->
       exists bss,
         length bss = Z.to_nat n /\
         Forall (fun bs => exists a, bs = fst (batches T train_loader a)) bss /\
         steps (trace (final
           (train_and_eval T reliable globals train_loader test_loader s))) =
         steps (trace s) ++ flat_map epoch_steps bss).
Proof.
  intros H.
  destruct (H torch (globals_with 2) 2 train1 [] model0 eq_refl)
    as (bss & Hlen & Hall & Hsteps).
  destruct bss as [|b1 [|b2 [|b3 bss]]]; try discriminate.
  apply Forall_cons in Hall as [[a1 ->] Hall].
  apply Forall_cons in Hall as [[a2 ->] _].
  vm_compute in Hsteps. discriminate.
Qed.

Lemma train_and_eval_steps_witness :
  exists s' bss,
    train_and_eval torch reliable (globals_with 2) train1 test1 model0 = Ok tt s' /\
    length bss = Z.to_nat 2 /\
    Forall (fun bs => exists a, bs = fst (batches torch train1 a)) bss /\
    steps (trace s') = steps (trace model0) ++ flat_map epoch_steps bss.
Proof.
  apply (train_and_eval_steps (globals_with 2) 2 train1 test1 model0).
  - reflexivity.
  - intros a. simpl. left. discriminate.
Defined.

End Runs.

End TrainingFacts.



(* ===================================================================== *)
(** * Properties of the notebook's cells *)
(* ===================================================================== *)

Module NotebookFacts.
Import Training Notebook TrainingFacts.

Section Surgery.

Context {Image Tensor : Type}.
Context (C : Composer Image Tensor).

Lemma child_patched (attr : string) (children : list (string * module)) :
  child attr (patched C children) = option_map (excite C 64 16) (child attr children).
Proof.
  induction children as [|[a m] rest IH]; simpl; [reflexivity|].
  destruct (String.eqb attr a); [reflexivity | exact IH].
Qed.

Lemma original_steps_app (l l' : list step) :
  original_steps (l ++ l') = original_steps l ++ original_steps l'.
Proof. unfold original_steps. apply filter_app. Qed.

Lemma module_steps_excite (m : module) :
  module_steps (excite C 64 16 m) =
  module_steps m ++ (if qualifies C 16 (base m) then [SqueezeExcite 64] else []).
Proof.
  unfold excite, module_steps.
  destruct (qualifies C 16 (base m)); simpl.
  - now rewrite map_app.
  - now rewrite app_nil_r.
Qed.

Lemma original_module_steps (m : module) :
  original_steps (module_steps (excite C 64 16 m)) = original_steps (module_steps m).
Proof.
  rewrite module_steps_excite, original_steps_app.
  destruct (qualifies C 16 (base m)); simpl; now rewrite app_nil_r.
Qed.

Lemma original_op_steps (children : list (string * module)) (o : op) :
  original_steps (op_steps (patched C children) o) =
  original_steps (op_steps children o).
Proof.
  destruct o as [attr| |d]; simpl; try reflexivity.
  rewrite child_patched. destruct (child attr children) as [m|]; simpl; [|reflexivity].
  apply original_module_steps.
Qed.

Lemma original_flat_map (children : list (string * module)) (ops : list op) :
  original_steps (flat_map (op_steps (patched C children)) ops) =
  original_steps (flat_map (op_steps children) ops).
Proof.
  induction ops as [|o ops IH]; simpl; [reflexivity|].
  rewrite !original_steps_app, IH, original_op_steps. reflexivity.
Qed.

Lemma patched_names (children : list (string * module)) :
  map fst (patched C children) = map fst children.
Proof. unfold patched. rewrite map_map. reflexivity. Qed.

Lemma base_excite (m : module) : base (excite C 64 16 m) = base m.
Proof. unfold excite. now destruct (qualifies C 16 (base m)). Qed.

Lemma patched_layers (children : list (string * module)) :
  map (fun c => base (snd c)) (patched C children) = map (fun c => base (snd c)) children.
Proof.
  unfold patched. rewrite map_map. apply map_ext. intros [a m]; simpl. apply base_excite.
Qed.

(** C1: the cell of line 275 followed by the cell of line 291.  The call
    [cf.apply_squeeze_excite(model, latent_channels=64, min_channels=16)]
    is given the object that [model] names and the two numbers; it leaves
    the namespace and every other object as they are, and the object
    itself in place with the same children, each qualifying one now
    followed by one more squeeze-and-excitation block, so that the model computes
    what it computed with the blocks inserted; [train_and_eval] is then
    called on that very object. *)
Theorem squeeze_excite_patches_in_place (s : nb) (m tr te : positive)
    (children : list (string * module)) (n : pyval) :
  globals s !! "model" = Some (PyObj m) ->
  heap s !! m = Some (OModule children) ->
  globals s !! "trainloader" = Some (PyObj tr) ->
  globals s !! "testloader" = Some (PyObj te) ->
  globals s !! "num_epochs" = Some n ->
  exists s',
    exec (exec_squeeze_excite C;; call_train_and_eval) s = Some s' /\
    calls s' = calls s ++ [CallApplySqueezeExcite m 64 16; CallTrainAndEval m tr te] /\
    globals s' = globals s /\
    heap s' !! m = Some (OModule (patched C children)) /\
    (forall l, l <> m -> heap s' !! l = heap s !! l) /\
    map fst (patched C children) = map fst children /\
    map (fun c => base (snd c)) (patched C children) = map (fun c => base (snd c)) children /\
    (forall attr m', child attr children = Some m' ->
       op_steps (patched C children) (Child attr) =
       module_steps m' ++
       (if qualifies C 16 (base m') then [SqueezeExcite 64] else [])) /\
    original_steps (computation (patched C children)) =
    original_steps (computation children).
Proof.
  intros Hm Hh Htr Hte Hn.
  eexists. split.
  - unfold exec, exec_squeeze_excite, call_train_and_eval, name_obj, name,
      record, apply_squeeze_excite, mbind, N_bind; simpl.
    rewrite Hm; simpl. rewrite Hh; simpl. rewrite Hm; simpl.
    rewrite Htr; simpl. rewrite Hte; simpl. rewrite Hn; simpl. reflexivity.
  - simpl. repeat split.
    + now rewrite <- app_assoc.
    + apply lookup_insert_eq.
    + intros l Hl. now apply lookup_insert_ne.
    + apply patched_names.
    + apply patched_layers.
    + intros attr m' Hc. simpl. rewrite child_patched, Hc. simpl.
      apply module_steps_excite.
    + apply original_flat_map.
Qed.

End Surgery.

(** The notebook itself: the object made by the second [Net()] is the one
    patched and the one trained last. *)
Lemma squeeze_excite_patches_in_place_witness :
  exists s',
    exec (exec_squeeze_excite toy_composer;; call_train_and_eval) before_patch = Some s' /\
    calls s' = calls before_patch ++
               [CallApplySqueezeExcite 16 64 16; CallTrainAndEval 16 13 15] /\
    globals s' = globals before_patch /\
    heap s' !! 16%positive = Some (OModule (patched toy_composer Net_children)) /\
    (forall l, l <> 16%positive -> heap s' !! l = heap before_patch !! l) /\
    map fst (patched toy_composer Net_children) = map fst Net_children /\
    map (fun c => base (snd c)) (patched toy_composer Net_children) =
      map (fun c => base (snd c)) Net_children /\
    (forall attr m', child attr Net_children = Some m' ->
       op_steps (patched toy_composer Net_children) (Child attr) =
       module_steps m' ++
       (if qualifies toy_composer 16 (base m') then [SqueezeExcite 64] else [])) /\
    original_steps (computation (patched toy_composer Net_children)) =
    original_steps (computation Net_children).
Proof.
  apply (squeeze_excite_patches_in_place toy_composer before_patch
           16 13 15 Net_children (PyInt 5)); reflexivity.
Defined.

(** The whole notebook: four calls, the last two on the object that the
    second [Net()] made. *)
Lemma notebook_calls {Image Tensor : Type} (C : Composer Image Tensor) :
  exists s,
    exec (exec_notebook C) empty_nb = Some s /\
    calls s = [CallTrainAndEval 7 4 6; CallTrainAndEval 16 13 15;
               CallApplySqueezeExcite 16 64 16; CallTrainAndEval 16 13 15] /\
    globals s !! "model" = Some (PyObj 16) /\
    heap s !! 16%positive = Some (OModule (patched C Net_children)).
Proof.
  eexists. split; [vm_compute; reflexivity|].
  split; [reflexivity|]. split; [reflexivity|].
  vm_compute. reflexivity.
Qed.

(** With the rule of [toy_composer] and the notebook's threshold, the
    block goes after [conv2], the larger of the two convolutions. *)
Example patched_Net :
  computation (patched toy_composer Net_children) =
  [Run (Conv2d 3 16 (3, 3) 2); ReluStep;
   Run (Conv2d 16 32 (3, 3) 1); SqueezeExcite 64;
   Run (BatchNorm2d 32); ReluStep; Run (AdaptiveAvgPool2d 1); FlattenStep 1;
   Run (Linear 32 128); ReluStep; Run (Linear 128 64); ReluStep;
   Run (Linear 64 10)].
Proof. reflexivity. Qed.

(** ** The data pipeline *)

(** A pass over [trainloader] on the small instance: three samples, each
    transformed on its own, then collated into one batch. *)
Example toy_pass :
  pass_colout_inputs toy_composer toy_vision before_patch 13 [2; 0; 1]%nat =
    [Single 59; Single 19; Single 39] /\
  loader_pass toy_composer toy_vision before_patch 13 [2; 0; 1]%nat =
    Some [(Batch [59; 19; 39], [7; 3; 5])].
Proof. split; reflexivity. Qed.

Section Pipeline.

Context {Image Tensor : Type}.
Context (C : Composer Image Tensor) (V : Torchvision Image Tensor).

Lemma compose_train (img : Image) :
  compose C V train_transforms (PIL img) =
    Some (colout C (Single (normalize V half half (to_tensor V img)))) /\
  colout_inputs C V train_transforms (PIL img) =
    [Single (normalize V half half (to_tensor V img))].
Proof. split; reflexivity. Qed.

Lemma compose_test (img : Image) :
  compose C V test_transforms (PIL img) =
    Some (Single (normalize V half half (to_tensor V img))) /\
  colout_inputs C V test_transforms (PIL img) = [].
Proof. split; reflexivity. Qed.

Lemma getitem_inputs_single (s : nb) (d : positive) (i : nat) :
  dataset_transforms s d = Some (true, train_transforms) ->
  Forall (fun x => is_batch x = false) (getitem_colout_inputs C V s d i).
Proof.
  intros Hd. unfold getitem_colout_inputs. rewrite Hd.
  destruct (cifar10_split V true !! i) as [[img target]|]; [|constructor].
  rewrite (proj2 (compose_train img)). repeat constructor.
Qed.

(** C5, amended: in the notebook's training pipeline [colout_batch] is
    the last entry of the transform of the training dataset, after
    [ToTensor] and [Normalize]: it is applied to one sample at a time, is
    given the normalised tensor of that one image, and what it returns is
    the sample; batches are collated by the loader afterwards, so in a
    pass over [trainloader] it is never given a batch.  The test dataset's
    transform does not contain it. *)
Theorem colout_runs_on_each_sample :
  exists train_loader train_set test_loader test_set,
    globals before_patch !! "trainloader" = Some (PyObj train_loader) /\
    heap before_patch !! train_loader = Some (OLoader train_set 1024 true 2) /\
    globals before_patch !! "testloader" = Some (PyObj test_loader) /\
    heap before_patch !! test_loader = Some (OLoader test_set 1024 false 2) /\
    dataset_transforms before_patch train_set = Some (true, train_transforms) /\
    dataset_transforms before_patch test_set = Some (false, test_transforms) /\
    (forall i img target, cifar10_split V true !! i = Some (img, target) ->
       getitem C V before_patch train_set i =
         Some (colout C (Single (normalize V half half (to_tensor V img))), target) /\
       getitem_colout_inputs C V before_patch train_set i =
         [Single (normalize V half half (to_tensor V img))]) /\
    (forall i img target, cifar10_split V false !! i = Some (img, target) ->
       getitem C V before_patch test_set i =
         Some (Single (normalize V half half (to_tensor V img)), target) /\
       getitem_colout_inputs C V before_patch test_set i = []) /\
    (forall order,
       Forall (fun x => is_batch x = false)
         (pass_colout_inputs C V before_patch train_loader order)).
Proof.
  exists 13%positive, 12%positive, 15%positive, 14%positive.
  assert (Htrain : dataset_transforms before_patch 12 = Some (true, train_transforms))
    by reflexivity.
  assert (Htest : dataset_transforms before_patch 14 = Some (false, test_transforms))
    by reflexivity.
  split; [reflexivity|]. split; [reflexivity|].
  split; [reflexivity|]. split; [reflexivity|].
  split; [exact Htrain|]. split; [exact Htest|].
  split; [|split].
  - intros i img target Hi. unfold getitem, getitem_colout_inputs.
    rewrite Htrain, Hi. destruct (compose_train img) as [-> ->]. split; reflexivity.
  - intros i img target Hi. unfold getitem, getitem_colout_inputs.
    rewrite Htest, Hi. destruct (compose_test img) as [-> ->]. split; reflexivity.
  - intros order. unfold pass_colout_inputs.
    change (heap before_patch !! 13%positive) with (Some (OLoader 12 1024 true 2)).
    induction order as [|i order IH]; simpl; [constructor|].
    apply Forall_app. split; [|exact IH].
    apply getitem_inputs_single, Htrain.
Qed.

End Pipeline.

(** C5, as stated, fails: in a pass over [trainloader], [colout_batch] is
    given the tensor of a single image, not a batch. *)
Lemma colout_is_given_single_images :
  ~ (forall (Image Tensor : Type) (C : Composer Image Tensor)
       (V : Torchvision Image Tensor) (loader : positive) (order : list nat),
       globals before_patch !! "trainloader" = Some (PyObj loader) ->
       Forall (fun x => is_batch x = true)
         (pass_colout_inputs C V before_patch loader order)).
Proof.
  intros H.
  specialize (H Z Z toy_composer toy_vision 13%positive [0%nat] eq_refl).
  vm_compute in H. inversion H as [|x l Hx _]. discriminate.
Qed.

(** ** Error handling *)

(** C7: no statement of the notebook's code cells handles, raises or
    tests for an error, or loops until a condition holds; the only class
    it defines is [Net], a module; the only functions are [Net]'s two
    methods and [train_and_eval].  In [train_and_eval] the library's calls
    are made one after the other until one fails, the failure is the
    result of the call, unchanged, no call follows it, and what else the
    function can raise are the interpreter's own errors for the name
    [num_epochs] and for the division of line 175. *)
Theorem notebook_adds_no_error_handling :
  filter (fun s => error_handling s = true) (all_statements code_cells) = [] /\
  class_defs code_cells = [("Net", [path "nn" ["Module"]])] /\
  function_defs code_cells = ["__init__"; "forward"; "train_and_eval"] /\
  (forall (T : Torch) (faults : list (Training.call T) -> Training.call T -> option (LibError T))
     (globals : gmap string pyval) (train_loader test_loader : Loader T),
     faithful faults (train_and_eval T faults globals train_loader test_loader) /\
     raises_in library_or_builtin
       (train_and_eval T faults globals train_loader test_loader)).
Proof.
  split; [reflexivity|]. split; [reflexivity|]. split; [reflexivity|].
  intros T faults globals train_loader test_loader. split.
  - apply faithful_train_and_eval.
  - apply train_and_eval_raises.
Qed.

End NotebookFacts.

(* ===================================================================== *)
(** * More on the training loop: phases, output, edge cases *)
(* ===================================================================== *)

Module PhaseFacts.
Import Training TrainingFacts Phases.

Section Writes.

Context {T : Torch}.
Context (faults : list (call T) -> call T -> option (LibError T)).

Lemma only_step_writes_refl (s : state T) : only_step_writes s s.
Proof. exists []. rewrite app_nil_r. auto. Qed.

Lemma only_step_writes_trans (s1 s2 s3 : state T) :
  only_step_writes s1 s2 -> only_step_writes s2 s3 -> only_step_writes s1 s3.
Proof.
  intros (n1 & Ht1 & Hp1) (n2 & Ht2 & Hp2). exists (n1 ++ n2). split.
  - rewrite Ht2, Ht1. now rewrite app_assoc.
  - intros Hall. apply Forall_app in Hall as [H1 H2].
    rewrite Hp2, Hp1; auto.
Qed.

Lemma lib_only_step_writes {A} (c : call T) (run : state T -> A * state T) :
  (forall s, trace (snd (run s)) = trace s) ->
  (is_opt_step c = false -> forall s, params (snd (run s)) = params s) ->
  preserves only_step_writes (lib T faults c run).
Proof.
  intros Htrace Hparams s. unfold lib.
  destruct (faults (trace s) c) as [e|]; simpl.
  - exists [c]. split; [reflexivity | auto].
  - specialize (Htrace (log T c s)).
    destruct (run (log T c s)) as [a s'] eqn:E; simpl in *.
    exists [c]. split; [exact Htrace|].
    intros Hall. apply Forall_cons in Hall as [Hc _].
    specialize (Hparams Hc (log T c s)). now rewrite E in Hparams.
Qed.

Ltac writes_lib :=
  apply lib_only_step_writes;
  [ intros ?; simpl;
    repeat match goal with |- context [let (_, _) := ?p in _] => destruct p end;
    reflexivity
  | intros Hstep; try discriminate Hstep; intros ?; simpl;
    repeat match goal with |- context [let (_, _) := ?p in _] => destruct p end;
    reflexivity ].

Ltac writes_step :=
  first [ apply preserves_ret; apply only_step_writes_refl
        | apply (preserves_bind only_step_writes only_step_writes_trans); [|intros ?]
        | apply (preserves_for_each only_step_writes
                   only_step_writes_refl only_step_writes_trans); intros ? ?
        | writes_lib
        | match goal with
          | |- preserves _ (fun s => lib _ _ _ _ s) =>
              intros ?; refine (lib_only_step_writes _ _ _ _ _);
              [ intros ?; simpl;
                repeat match goal with
                       | |- context [let (_, _) := ?p in _] => destruct p end;
                reflexivity
              | intros _ ?; simpl;
                repeat match goal with
                       | |- context [let (_, _) := ?p in _] => destruct p end;
                reflexivity ]
          | |- preserves _ (if ?b then _ else _) => destruct b
          | |- preserves _ (match ?o with _ => _ end) => destruct o
          | |- preserves _ (raise _ _) =>
              apply preserves_raise; apply only_step_writes_refl
          | |- preserves _ (print _ _) =>
              intros ?; simpl; exists []; rewrite app_nil_r; auto
          end ].

Lemma train_and_eval_only_step_writes (globals : gmap string pyval)
    (train_loader test_loader : Loader T) :
  preserves only_step_writes
    (train_and_eval T faults globals train_loader test_loader).
Proof.
  unfold train_and_eval, run_epoch, train_phase, eval_phase, train_batch,
    eval_batch, torch_manual_seed, torch_cuda_is_available, model_to,
    model_parameters, optim_Adam, model_train, model_eval, tqdm, iterate,
    input_to, target_to, model_call, F_cross_entropy, loss_item,
    set_postfix_str, loss_backward, opt_step, opt_zero_grad, tensor_argmax,
    tensor_eq, tensor_sum, tensor_item, pure_call, true_div, range_num_epochs.
  repeat writes_step.
Qed.

(** X1: whatever the library does and however the call ends, the model's
    parameters at the end of [train_and_eval] are those at the start
    unless [opt.step()] was called. *)
Theorem parameters_change_only_by_steps (globals : gmap string pyval)
    (train_loader test_loader : Loader T) (s : state T) :
  exists new,
    trace (final (train_and_eval T faults globals train_loader test_loader s)) =
      trace s ++ new /\
    (Forall (fun c => is_opt_step c = false) new ->
     params (final (train_and_eval T faults globals train_loader test_loader s)) =
       params s).
Proof. apply (train_and_eval_only_step_writes globals train_loader test_loader s). Qed.

End Writes.

(** ** Runs in which the library's calls return *)

Section Summary.

Context {T : Torch}.

Lemma marks_app (l l' : list (call T)) : marks (l ++ l') = marks l ++ marks l'.
Proof. apply omap_app. Qed.

Lemma train_batch_marks (dev : device) (opt : OptState T)
    (b : list (Example T * Label)) (s : state T) :
  training s = true ->
  returns (train_batch T reliable dev opt b) s (fun _ s' =>
    training s' = true /\ out s' = out s /\
    marks (trace s') = marks (trace s) ++
      [ForwardTrain; ComputeLoss; Backprop; OptimizerStep; ZeroGrad]).
Proof.
  intros Htr. unfold train_batch, input_to, target_to, F_cross_entropy,
    loss_item, set_postfix_str, loss_backward, opt_step, opt_zero_grad, pure_call.
  apply returns_bind, returns_lib; simpl.
  apply returns_bind, returns_lib; simpl.
  apply returns_bind, returns_model_call; simpl.
  apply returns_bind, returns_lib; simpl.
  apply returns_bind, returns_lib; simpl.
  apply returns_bind, returns_lib; simpl.
  apply returns_bind, returns_lib; simpl.
  apply returns_bind, returns_lib; simpl.
  destruct (step T opt _ _) as [opt' p']; simpl.
  apply returns_bind, returns_lib; simpl.
  apply returns_ret; simpl.
  rewrite Htr. repeat split.
  rewrite !marks_app; simpl. rewrite !app_nil_r, <- !app_assoc. reflexivity.
Qed.

Lemma train_phase_marks (train_loader : Loader T) (dev : device)
    (opt : OptState T) (s : state T) :
  returns (train_phase T reliable train_loader dev opt) s (fun _ s' =>
    training s' = true /\ out s' = out s /\
    marks (trace s') =
      marks (trace s) ++ train_marks (fst (batches T train_loader (aux s)))).
Proof.
  unfold train_phase, model_train, tqdm, iterate, pure_call.
  apply returns_bind, returns_lib; simpl.
  apply returns_bind, returns_lib; simpl.
  apply returns_bind, returns_lib; simpl.
  destruct (batches T train_loader (aux s)) as [bs a] eqn:Eb; simpl.
  set (s0 := set_aux T a _).
  set (five := [ForwardTrain; ComputeLoss; Backprop; OptimizerStep; ZeroGrad]).
  pose (Inv := fun (rest : list (list (Example T * Label))) (_ : OptState T)
                   (s' : state T) =>
    training s' = true /\ out s' = out s /\
    marks (trace s') ++ flat_map (fun _ => five) rest =
      marks (trace s) ++ train_marks bs).
  eapply returns_weaken.
  - apply (returns_for_each (train_batch T reliable dev) Inv bs).
    + intros b rest o s1 (Ht & Ho & Hs).
      eapply returns_weaken; [apply train_batch_marks, Ht|].
      intros o' s2 (Ht' & Ho' & Hs'). unfold Inv.
      repeat split; try congruence.
      rewrite Hs', <- Hs. simpl. rewrite <- !app_assoc. reflexivity.
    + unfold Inv, s0, train_marks; simpl. repeat split.
      rewrite !marks_app; simpl. rewrite !app_nil_r, <- !app_assoc. reflexivity.
  - intros o s' (Ht & Ho & Hs). repeat split; try assumption.
    simpl in Hs. now rewrite app_nil_r in Hs.
Qed.

Lemma correct_bounds (p : Params T) (a : Aux T) (b : list (Example T * Label)) :
  0 <= correct T p a b <= len b.
Proof.
  unfold correct, len. split; [lia|].
  pose proof (count_true_le (zip_with Z.eqb
    (argmax1 T (fst (forward T false p a (map fst b)))) (map snd b))) as Hle.
  rewrite length_zip_with in Hle.
  rewrite (forward_rows T), !length_map in Hle. lia.
Qed.

Lemma tally_bounds (p : Params T) (bs : list (list (Example T * Label))) (a : Aux T) :
  0 <= fst (tally T p a bs) <= snd (tally T p a bs) /\
  snd (tally T p a bs) = len (concat bs).
Proof.
  revert a. induction bs as [|b rest IH]; intros a.
  - unfold len; simpl. lia.
  - cbn [tally fst snd].
    destruct (IH (snd (forward T false p a (map fst b)))) as [Hr Hz].
    pose proof (correct_bounds p a b). rewrite len_concat_cons. lia.
Qed.

Lemma eval_batch_tally (dev : device) (acc : Z * Z)
    (b : list (Example T * Label)) (s : state T) :
  training s = false ->
  returns (eval_batch T reliable dev acc b) s (fun acc' s' =>
    training s' = false /\ out s' = out s /\ params s' = params s /\
    aux s' = snd (forward T false (params s) (aux s) (map fst b)) /\
    marks (trace s') = marks (trace s) ++ [ForwardEval; Predict] /\
    acc' = (fst acc + correct T (params s) (aux s) b, snd acc + len b)).
Proof.
  intros Htr. unfold eval_batch, input_to, target_to, tensor_argmax,
    tensor_eq, tensor_sum, tensor_item, pure_call.
  apply returns_bind, returns_lib; simpl.
  apply returns_bind, returns_lib; simpl.
  apply returns_bind, returns_model_call; simpl.
  apply returns_bind, returns_lib; simpl.
  apply returns_bind, returns_lib; simpl.
  apply returns_bind, returns_lib; simpl.
  apply returns_bind, returns_lib; simpl.
  apply returns_ret; simpl.
  rewrite Htr. repeat split; try reflexivity.
  - rewrite !marks_app; simpl. rewrite !app_nil_r, <- !app_assoc. reflexivity.
  - unfold correct, len. now rewrite length_map.
Qed.

Lemma eval_loop_tally (dev : device) (bs : list (list (Example T * Label)))
    (s : state T) :
  training s = false ->
  returns (for_each T bs (0, 0) (eval_batch T reliable dev)) s (fun acc s' =>
    training s' = false /\ out s' = out s /\ params s' = params s /\
    marks (trace s') =
      marks (trace s) ++ flat_map (fun _ => [ForwardEval; Predict]) bs /\
    acc = tally T (params s) (aux s) bs).
Proof.
  intros Htr.
  pose (Inv := fun (rest : list (list (Example T * Label))) (acc : Z * Z)
                   (s' : state T) =>
    training s' = false /\ out s' = out s /\ params s' = params s /\
    marks (trace s') ++ flat_map (fun _ => [ForwardEval; Predict]) rest =
      marks (trace s) ++ flat_map (fun _ => [ForwardEval; Predict]) bs /\
    (fst acc + fst (tally T (params s) (aux s') rest),
     snd acc + snd (tally T (params s) (aux s') rest)) =
      tally T (params s) (aux s) bs).
  eapply returns_weaken.
  - apply (returns_for_each (eval_batch T reliable dev) Inv bs).
    + intros b rest acc s1 (Ht & Ho & Hp & Hm & Hacc).
      eapply returns_weaken; [apply eval_batch_tally, Ht|].
      intros acc' s2 (Ht' & Ho' & Hp' & Ha' & Hm' & ->). unfold Inv.
      repeat split; try congruence.
      * rewrite Hm', <- Hm. simpl. rewrite <- !app_assoc. reflexivity.
      * rewrite <- Hacc. simpl. rewrite Ha', Hp. cbn [fst snd].
        f_equal; lia.
    + unfold Inv. repeat split; try assumption.
      simpl. now destruct (tally T (params s) (aux s) bs).
  - intros acc s' (Ht & Ho & Hp & Hm & Hacc). simpl in Hacc, Hm.
    rewrite app_nil_r in Hm. repeat split; try assumption.
    rewrite <- Hacc. destruct acc; simpl. f_equal; lia.
Qed.

(** The evaluation pass of an epoch, both ways it can end. *)
Lemma eval_phase_outcome (test_loader : Loader T) (dev : device) (epoch : Z)
    (s : state T) :
  let bs := fst (batches T test_loader (aux s)) in
  let rz := tally T (params s) (snd (batches T test_loader (aux s))) bs in
  match eval_phase T reliable test_loader dev epoch s with
  | Ok _ s' =>
      snd rz <> 0 /\ training s' = false /\ params s' = params s /\
      marks (trace s') = marks (trace s) ++ eval_marks bs /\
      exists q, out s' = out s ++ [ValidationAccuracy epoch q] /\
        (q == inject_Z (100 * fst rz) / inject_Z (snd rz))%Q /\ is_percentage q
  | Raised e s' =>
      e = ZeroDivisionError /\ snd rz = 0 /\ training s' = false /\
      params s' = params s /\
      marks (trace s') = marks (trace s) ++ eval_marks bs /\ out s' = out s
  end.
Proof.
  unfold eval_phase, model_eval, iterate, lib.
  rewrite bind_run; simpl. rewrite bind_run; simpl.
  destruct (batches T test_loader (aux s)) as [bs a]; simpl.
  set (s0 := set_aux T a _).
  destruct (eval_loop_tally dev bs s0 eq_refl)
    as (acc & s1 & Hrun & Ht & Ho & Hp & Hm & Hacc).
  simpl in Ho, Hp, Hm, Hacc.
  rewrite !marks_app in Hm; simpl in Hm. rewrite !app_nil_r, <- !app_assoc in Hm.
  simpl in Hm.
  rewrite bind_run, Hrun. unfold true_div.
  destruct (tally_bounds (params s) bs a) as [Hr Hz].
  fold (eval_marks bs) in Hm.
  destruct (Z.eqb_spec (snd acc) 0) as [Hzero|Hne].
  - simpl. rewrite <- Hacc. repeat split; assumption.
  - rewrite bind_run, ret_run. simpl. rewrite <- Hacc.
    pose proof (len_nonneg (concat bs)) as Hlen.
    assert (Hpos : 0 < snd acc) by (rewrite Hacc in *; lia).
    rewrite <- Hacc in Hr.
    destruct (percentage (fst acc) (snd acc) Hpos Hr) as (Hq & Hq0 & Hq100).
    repeat split; try assumption.
    eexists. split; [now rewrite Ho|]. split; [exact Hq|]. split; assumption.
Qed.

(** One epoch, both ways it can end. *)
Lemma run_epoch_outcome (train_loader test_loader : Loader T) (dev : device)
    (opt : OptState T) (epoch : Z) (s : state T) :
  exists bs',
    (exists a, bs' = fst (batches T test_loader a)) /\
    let bs := fst (batches T train_loader (aux s)) in
    match run_epoch T reliable train_loader test_loader dev opt epoch s with
    | Ok _ s' =>
        0 < len (concat bs') /\ training s' = false /\
        marks (trace s') = marks (trace s) ++ epoch_marks (bs, bs') /\
        exists q, out s' = out s ++ [BeginningEpoch epoch; ValidationAccuracy epoch q] /\
          is_percentage q
    | Raised e s' =>
        e = ZeroDivisionError /\ len (concat bs') = 0 /\ training s' = false /\
        marks (trace s') = marks (trace s) ++ epoch_marks (bs, bs') /\
        out s' = out s ++ [BeginningEpoch epoch]
    end.
Proof.
  rewrite run_epoch_unfold.
  destruct (train_phase_marks train_loader dev opt (emit T (BeginningEpoch epoch) s))
    as (opt1 & s1 & Hrun & Ht & Ho & Hm).
  simpl in Ho, Hm. rewrite Hrun.
  exists (fst (batches T test_loader (aux s1))). split; [now exists (aux s1)|].
  pose proof (eval_phase_outcome test_loader dev epoch s1) as Hev. simpl in Hev.
  destruct (tally_bounds (params s1) (fst (batches T test_loader (aux s1)))
              (snd (batches T test_loader (aux s1)))) as [Hr Hz].
  pose proof (len_nonneg (concat (fst (batches T test_loader (aux s1))))) as Hlen.
  unfold epoch_marks; simpl.
  destruct (eval_phase T reliable test_loader dev epoch s1) as [[] s2|e s2].
  - destruct Hev as (Hne & Ht2 & _ & Hm2 & q & Hout & _ & Hq).
    repeat split; try assumption; try lia.
    + rewrite Hm2, Hm. now rewrite <- app_assoc.
    + exists q. split; [|exact Hq]. rewrite Hout, Ho. now rewrite <- app_assoc.
  - destruct Hev as (-> & Hzero & Ht2 & _ & Hm2 & Hout).
    repeat split; try assumption; try lia.
    + rewrite Hm2, Hm. now rewrite <- app_assoc.
    + now rewrite Hout, Ho.
Qed.

(** What lines 146-149 leave, and the loop that follows. *)
Lemma train_and_eval_after_setup (globals : gmap string pyval) (n : Z)
    (train_loader test_loader : Loader T) (s : state T) :
  globals !! "num_epochs" = Some (PyInt n) ->
  train_and_eval T reliable globals train_loader test_loader s =
  match for_each T (range n) (adam T (params s))
          (run_epoch T reliable train_loader test_loader (device_of T))
          (after_setup s) with
  | Ok _ s' => Ok tt s'
  | Raised e s' => Raised e s'
  end.
Proof.
  intros Hn.
  unfold train_and_eval, torch_manual_seed, torch_cuda_is_available, model_to,
    model_parameters, optim_Adam, pure_call, range_num_epochs, lib.
  rewrite Hn. repeat (rewrite bind_run; simpl).
  replace (log T CAdam _) with (after_setup s).
  - fold (device_of T).
    destruct (for_each T (range n) _ _ _); reflexivity.
  - unfold after_setup, log, set_aux, setup_calls; simpl.
    f_equal. fold (device_of T). now rewrite <- !app_assoc.
Qed.

Lemma marks_after_setup (s : state T) : marks (trace (after_setup s)) = marks (trace s).
Proof. unfold after_setup; simpl. rewrite marks_app; simpl. now rewrite app_nil_r. Qed.

Definition is_pass (train_loader test_loader : Loader T)
    (ps : list (list (Example T * Label)) * list (list (Example T * Label))) : Prop :=
  (exists a, fst ps = fst (batches T train_loader a)) /\
  (exists a, snd ps = fst (batches T test_loader a)).

(** The loop over the epochs, when every pass over the test loader has an
    example. *)
Lemma epochs_summary (train_loader test_loader : Loader T) (dev : device) :
  (forall a, Exists (fun b => b <> []) (fst (batches T test_loader a))) ->
  forall (es : list Z) (opt : OptState T) (s : state T),
  returns (for_each T es opt (run_epoch T reliable train_loader test_loader dev)) s
    (fun _ s' => exists passes accs,
       length passes = length es /\ length accs = length es /\
       Forall (is_pass train_loader test_loader) passes /\
       Forall is_percentage accs /\
       marks (trace s') = marks (trace s) ++ flat_map epoch_marks passes /\
       out s' = out s ++ epoch_lines es accs /\
       (es <> [] -> training s' = false) /\
       (es = [] -> s' = s)).
Proof.
  intros Htest es. induction es as [|e es IH]; intros opt s.
  - apply returns_ret. exists [], []. simpl. rewrite !app_nil_r.
    repeat split; auto; try constructor. congruence.
  - simpl. apply returns_bind.
    destruct (run_epoch_outcome train_loader test_loader dev opt e s)
      as (bs' & [a' Ha'] & Hout).
    simpl in Hout.
    destruct (run_epoch T reliable train_loader test_loader dev opt e s)
      as [opt1 s1|x s1] eqn:Erun.
    + destruct Hout as (_ & Ht1 & Hm1 & q & Ho1 & Hq).
      exists opt1, s1. split; [exact Erun|].
      eapply returns_weaken; [apply IH|].
      intros opt2 s2 (passes & accs & Hlp & Hla & HP & HQ & Hm2 & Ho2 & Htr2 & Hnil).
      exists ((fst (batches T train_loader (aux s)), bs') :: passes), (q :: accs).
      split; [simpl; congruence|]. split; [simpl; congruence|].
      split; [constructor; [split; [now exists (aux s) | now exists a'] | exact HP]|].
      split; [constructor; assumption|].
      split; [|split; [|split]].
      * rewrite Hm2, Hm1. cbn [flat_map]. now rewrite <- !app_assoc.
      * rewrite Ho2, Ho1. unfold epoch_lines. rewrite <- app_assoc. reflexivity.
      * intros _. destruct es as [|e' es']; [now rewrite (Hnil eq_refl)|].
        apply Htr2. discriminate.
      * discriminate.
    + destruct Hout as (_ & Hzero & _).
      pose proof (len_concat_pos _ (Htest a')) as Hpos. rewrite <- Ha' in Hpos. lia.
Qed.

(** X3: under the same conditions, whatever mode the model comes in,
    each epoch puts it in train mode, makes for each training minibatch a
    forward pass in train mode, the loss, the backward pass, the
    optimizer step and the zeroing of gradients, then puts the model in
    eval mode and makes for each test minibatch a forward pass in eval
    mode and the arg-max; the model is left in eval mode when at least one
    epoch ran. *)
Theorem phases_of_a_run (globals : gmap string pyval) (n : Z)
    (train_loader test_loader : Loader T) (s : state T) :
  globals !! "num_epochs" = Some (PyInt n) ->
  (forall a, Exists (fun b => b <> []) (fst (batches T test_loader a))) ->
  exists s' passes,
    train_and_eval T reliable globals train_loader test_loader s = Ok tt s' /\
    length passes = Z.to_nat n /\
    Forall (is_pass train_loader test_loader) passes /\
    marks (trace s') = marks (trace s) ++ flat_map epoch_marks passes /\
    (0 < n -> training s' = false).
Proof.
  intros Hn Htest. rewrite (train_and_eval_after_setup globals n _ _ s Hn).
  destruct (epochs_summary train_loader test_loader (device_of T) Htest
              (range n) (adam T (params s)) (after_setup s))
    as (opt & s' & -> & passes & accs & Hlp & _ & HP & _ & Hm & _ & Htr & _).
  exists s', passes. rewrite length_range in Hlp. rewrite marks_after_setup in Hm.
  repeat split; try assumption.
  intros Hpos. apply Htr. intros Hnil.
  apply (f_equal (@length Z)) in Hnil. rewrite length_range in Hnil. simpl in Hnil. lia.
Qed.

(** X4: with [num_epochs] zero or negative, [train_and_eval] returns
    after lines 146-149: the generator is seeded, nothing is printed,
    no loader is iterated, the model keeps its parameters and its mode,
    whatever the loaders are. *)
Theorem no_epochs (globals : gmap string pyval) (n : Z)
    (train_loader test_loader : Loader T) (s : state T) :
  globals !! "num_epochs" = Some (PyInt n) -> n <= 0 ->
  train_and_eval T reliable globals train_loader test_loader s =
    Ok tt (after_setup s).
Proof.
  intros Hn Hle. rewrite (train_and_eval_after_setup globals n _ _ s Hn).
  unfold range. replace (Z.to_nat n) with O by lia. reflexivity.
Qed.

(** X6: with at least one epoch to run and a [test_loader] whose passes
    have no example, [train_and_eval] raises [ZeroDivisionError] at the
    end of epoch 0: it has printed the line that begins epoch 0 and no
    accuracy, and has made one whole training pass (with its optimizer
    steps) over the minibatches drawn after seeding. *)
Theorem empty_test_loader_raises (globals : gmap string pyval) (n : Z)
    (train_loader test_loader : Loader T) (s : state T) :
  globals !! "num_epochs" = Some (PyInt n) -> 0 < n ->
  (forall a, Forall (fun b => b = []) (fst (batches T test_loader a))) ->
  exists s' bs',
    train_and_eval T reliable globals train_loader test_loader s =
      Raised ZeroDivisionError s' /\
    out s' = out s ++ [BeginningEpoch 0] /\
    marks (trace s') = marks (trace s) ++
      epoch_marks (fst (batches T train_loader (manual_seed T 42 (aux s))), bs').
Proof.
  intros Hn Hpos Hempty. rewrite (train_and_eval_after_setup globals n _ _ s Hn).
  unfold range. destruct (Z.to_nat n) as [|k] eqn:Ek; [lia|]. simpl.
  rewrite bind_run. change (Z.of_nat 0) with 0.
  destruct (run_epoch_outcome train_loader test_loader (device_of T)
              (adam T (params s)) 0 (after_setup s)) as (bs' & [a' Ha'] & Hout).
  cbv zeta in Hout.
  destruct (run_epoch T reliable train_loader test_loader (device_of T)
              (adam T (params s)) 0 (after_setup s)) as [opt1 s1|e s1].
  - destruct Hout as (Hlen & _).
    pose proof (len_concat_zero _ (Hempty a')) as Hz. rewrite <- Ha' in Hz. lia.
  - destruct Hout as (-> & _ & _ & Hm & Ho).
    exists s1, bs'. rewrite marks_after_setup in Hm.
    split; [reflexivity|]. split; [exact Ho | exact Hm].
Qed.

Lemma no_step_marks (new : list (call T)) :
  Forall (fun m => m <> OptimizerStep) (marks new) ->
  Forall (fun c => is_opt_step c = false) new.
Proof.
  induction new as [|c new IH]; intros H; [constructor|].
  change (c :: new) with ([c] ++ new) in H. rewrite marks_app in H.
  apply Forall_app in H as [Hc Hnew]. constructor; [|now apply IH].
  destruct c; try reflexivity. simpl in Hc.
  apply Forall_cons in Hc as [Hc _]. congruence.
Qed.

Lemma eval_marks_no_step {A} (bs : list A) :
  Forall (fun m => m <> OptimizerStep) (eval_marks bs).
Proof.
  unfold eval_marks. constructor; [discriminate|].
  induction bs as [|b bs IH]; simpl; [constructor|].
  repeat (constructor; [discriminate|]). exact IH.
Qed.

(** X8: with a [train_loader] whose passes yield no minibatch (and a
    [test_loader] whose passes have an example), [train_and_eval] still
    runs all its epochs and prints their lines, and returns the model
    with the parameters it was given. *)
Theorem empty_train_loader (globals : gmap string pyval) (n : Z)
    (train_loader test_loader : Loader T) (s : state T) :
  globals !! "num_epochs" = Some (PyInt n) ->
  (forall a, Exists (fun b => b <> []) (fst (batches T test_loader a))) ->
  (forall a, fst (batches T train_loader a) = []) ->
  exists s' accs,
    train_and_eval T reliable globals train_loader test_loader s = Ok tt s' /\
    params s' = params s /\
    length accs = Z.to_nat n /\
    out s' = out s ++ epoch_lines (range n) accs.
Proof.
  intros Hn Htest Htrain.
  pose proof (train_and_eval_only_step_writes reliable globals
                train_loader test_loader s) as (new & Htrace & Hparams).
  rewrite (train_and_eval_after_setup globals n _ _ s Hn) in *.
  destruct (epochs_summary train_loader test_loader (device_of T) Htest
              (range n) (adam T (params s)) (after_setup s))
    as (opt & s' & Hrun & passes & accs & _ & Hla & HP & _ & Hm & Ho & _).
  rewrite Hrun in *. simpl in Htrace, Hparams.
  exists s', accs. rewrite length_range in Hla.
  split; [reflexivity|]. split; [|split; assumption].
  apply Hparams, no_step_marks.
  rewrite marks_after_setup, Htrace, marks_app in Hm.
  apply app_inv_head in Hm. rewrite Hm.
  clear -HP Htrain. induction HP as [|ps passes [[a Ha] _] _ IH]; [constructor|].
  cbn [flat_map]. apply Forall_app. split; [|exact IH].
  unfold epoch_marks, train_marks. rewrite Ha, Htrain. simpl.
  constructor; [discriminate|]. apply eval_marks_no_step.
Qed.

End Summary.

(** ** Runs on the small framework *)

Section SmallRuns.

Import Stump.

Lemma phases_of_a_run_witness :
  exists s' passes,
    train_and_eval torch reliable (globals_with 2) train1 test1 model0 = Ok tt s' /\
    length passes = Z.to_nat 2 /\
    Forall (is_pass train1 test1) passes /\
    marks (trace s') = marks (trace model0) ++ flat_map epoch_marks passes /\
    (0 < 2 -> training s' = false).
Proof.
  apply (phases_of_a_run (T:=torch) (globals_with 2) 2 train1 test1 model0).
  - reflexivity.
  - intros a. simpl. left. discriminate.
Defined.

Lemma no_epochs_witness :
  train_and_eval torch reliable (globals_with 0) train1 [] model0 =
    Ok tt (after_setup model0).
Proof.
  apply (no_epochs (T:=torch) (globals_with 0) 0 train1 [] model0).
  - reflexivity.
  - lia.
Defined.

Lemma empty_test_loader_raises_witness :
  exists s' bs',
    train_and_eval torch reliable (globals_with 2) train1 [] model0 =
      Raised ZeroDivisionError s' /\
    out s' = out model0 ++ [BeginningEpoch 0] /\
    marks (trace s') = marks (trace model0) ++
      epoch_marks (fst (batches torch train1 (manual_seed torch 42 (aux model0))), bs').
Proof.
  apply (empty_test_loader_raises (T:=torch) (globals_with 2) 2 train1 [] model0).
  - reflexivity.
  - lia.
  - intros a. constructor.
Defined.

Lemma empty_train_loader_witness :
  exists s' accs,
    train_and_eval torch reliable (globals_with 2) [] test1 model0 = Ok tt s' /\
    params s' = params model0 /\
    length accs = Z.to_nat 2 /\
    out s' = out model0 ++ epoch_lines (range 2) accs.
Proof.
  apply (empty_train_loader (T:=torch) (globals_with 2) 2 [] test1 model0).
  - reflexivity.
  - intros a. simpl. left. discriminate.
  - intros a. reflexivity.
Defined.

End SmallRuns.

End PhaseFacts.

(* ===================================================================== *)
(** * Properties of [Net] *)
(* ===================================================================== *)

Module ShapeFacts.
Import Notebook Shapes.

Lemma conv_out_stride2 (n : Z) : 3 <= n -> (3 <= conv_out n 3 2 <-> 7 <= n).
Proof. unfold conv_out. intros H. Z.div_mod_to_equations. lia. Qed.

Lemma side_at_norm_pos (n : Z) : 7 <= n -> 1 <= side_at_norm n.
Proof.
  unfold side_at_norm, conv_out. intros H.
  rewrite Z.div_1_r. Z.div_mod_to_equations. lia.
Qed.

(** X9: [Net.forward] on a batch of shape [b, c, h, w] returns [b] rows of
    10 logits exactly when [c] is 3 and the images are at least 7 by 7
    (and, in train mode, [norm] gets more than one value per channel);
    otherwise a layer raises.  In particular every batch of CIFAR-10
    images (3 by 32 by 32) gives [b] rows of 10 logits, in both modes. *)
Theorem Net_output_shape (training : bool) (b c h w : Z) :
  forward_shape training Net_layers Net_forward [b; c; h; w] =
    (if Z.eqb c 3 && Z.leb 7 h && Z.leb 7 w &&
        (negb training || negb (Z.eqb (b * side_at_norm h * side_at_norm w) 1))
     then Some [b; 10] else None) /\
  (1 <= b -> forward_shape training Net_layers Net_forward [b; 3; 32; 32] = Some [b; 10]).
Proof.
  assert (Hall : forall c h w,
    forward_shape training Net_layers Net_forward [b; c; h; w] =
    (if Z.eqb c 3 && Z.leb 7 h && Z.leb 7 w &&
        (negb training || negb (Z.eqb (b * side_at_norm h * side_at_norm w) 1))
     then Some [b; 10] else None)).
  { clear c h w. intros c h w.
    unfold Net_layers, constructed, Net_children, Net_forward. simpl.
    destruct (Z.eqb_spec c 3) as [->|Hc]; simpl; [|reflexivity].
    destruct (Z.leb_spec 3 h) as [Hh3|Hh3]; simpl;
      [|destruct (Z.leb_spec 7 h); [lia | reflexivity]].
    destruct (Z.leb_spec 3 w) as [Hw3|Hw3]; simpl;
      [|destruct (Z.leb_spec 7 h), (Z.leb_spec 7 w); try lia; reflexivity].
    pose proof (conv_out_stride2 h Hh3) as Hh.
    pose proof (conv_out_stride2 w Hw3) as Hw.
    destruct (Z.leb_spec 3 (conv_out h 3 2)) as [Hh'|Hh']; simpl;
      [|destruct (Z.leb_spec 7 h); [lia | reflexivity]].
    destruct (Z.leb_spec 3 (conv_out w 3 2)) as [Hw'|Hw']; simpl;
      [|destruct (Z.leb_spec 7 h), (Z.leb_spec 7 w); try lia; reflexivity].
    destruct (Z.leb_spec 7 h) as [Hh7|?]; [|lia].
    destruct (Z.leb_spec 7 w) as [Hw7|?]; [|lia]. simpl.
    fold (side_at_norm h) (side_at_norm w).
    pose proof (side_at_norm_pos h Hh7). pose proof (side_at_norm_pos w Hw7).
    destruct (negb training || negb (Z.eqb (b * side_at_norm h * side_at_norm w) 1));
      simpl; [|reflexivity].
    destruct (Z.leb_spec 1 (side_at_norm h)); [|lia].
    destruct (Z.leb_spec 1 (side_at_norm w)); [|lia]. reflexivity. }
  split; [apply Hall|].
  intros Hb. rewrite Hall.
  replace (side_at_norm 32) with 13 by reflexivity. simpl.
  destruct (Z.eqb_spec (b * 13 * 13) 1) as [H|H]; [lia|].
  destruct training; reflexivity.
Qed.

End ShapeFacts.

(* ===================================================================== *)
(** * More on the notebook: the pipeline, the loaders, the cells *)
(* ===================================================================== *)

Module PipelineFacts.
Import Training Notebook Sessions.

Section Transforms.

Context {Image Tensor : Type}.
Context (C : Composer Image Tensor) (V : Torchvision Image Tensor).

(** X10: appending [cf.colout_batch] to a list of transforms (line 220)
    gives a pipeline that fails exactly where the shorter pipeline fails
    and otherwise applies the augmentation to its result, which is all
    the augmentation is ever given beyond what the shorter list already
    gave it. *)
Theorem colout_appended (ts : list transform) (x : data Image Tensor) :
  compose C V (ts ++ [colout_batch]) x = option_map (colout C) (compose C V ts x) /\
  colout_inputs C V (ts ++ [colout_batch]) x =
    colout_inputs C V ts x ++
    match compose C V ts x with Some y => [y] | None => [] end.
Proof.
  revert x. induction ts as [|t ts IH]; intros x.
  - split; reflexivity.
  - cbn [app compose colout_inputs].
    destruct (apply_transform C V t x) as [x'|].
    + destruct (IH x') as [-> ->]. split; [reflexivity|]. now rewrite app_assoc.
    + split; [reflexivity|]. now rewrite !app_nil_r.
Qed.

(** *** Batches *)

Lemma chunks_concat {A} (n : nat) (l current : list A) :
  concat (chunks n l current) = rev current ++ l.
Proof.
  revert current. induction l as [|x l IH]; intros current; cbn [chunks].
  - destruct current; cbn [concat]; now rewrite ?app_nil_r.
  - destruct (Nat.eqb (length (x :: current)) n).
    + cbn [concat]. rewrite IH. cbn [rev app]. now rewrite <- app_assoc.
    + rewrite IH. cbn [rev]. now rewrite <- app_assoc.
Qed.

Lemma chunks_sizes {A} (n : nat) (l current : list A) :
  (length current < n)%nat ->
  Forall (fun c => c <> [] /\ (length c <= n)%nat) (chunks n l current).
Proof.
  revert current. induction l as [|x l IH]; intros current Hlen; cbn [chunks].
  - destruct current as [|y current]; [constructor|].
    constructor; [|constructor]. split.
    + intros H. apply (f_equal (@length A)) in H.
      rewrite length_rev in H. discriminate.
    + rewrite length_rev. lia.
  - destruct (Nat.eqb_spec (length (x :: current)) n) as [Heq|Hne];
      cbn [length] in *.
    + constructor.
      * split.
        -- intros H. apply (f_equal (@length A)) in H.
           rewrite length_rev in H. discriminate.
        -- rewrite length_rev. simpl. lia.
      * apply IH. simpl. lia.
    + apply IH. simpl. lia.
Qed.

Lemma collate_batch (samples : list (data Image Tensor * Z))
    (b : data Image Tensor * list Z) :
  collate samples = Some b ->
  snd b = map snd samples /\
  exists ts, fst b = Batch ts /\ length ts = length samples.
Proof.
  unfold collate. destruct (mapM _ samples) as [ts|] eqn:E; [|discriminate].
  intros [= <-]. split; [reflexivity|]. exists ts. split; [reflexivity|].
  apply mapM_Some in E. apply Forall2_length in E. congruence.
Qed.

(** X11: a pass over a loader with a positive batch size, when it
    succeeds, collates the samples of the sampler's indices in their
    order: the targets of the batches, one after the other, are the
    targets of the samples; no batch is empty, none has more than
    [batch_size] samples, and each has one tensor per target. *)
Theorem loader_pass_batches (s : nb) (loader dataset : positive)
    (batch_size : Z) (shuffle : bool) (num_workers : Z) (order : list nat)
    (batches : list (data Image Tensor * list Z)) :
  heap s !! loader = Some (OLoader dataset batch_size shuffle num_workers) ->
  1 <= batch_size ->
  loader_pass C V s loader order = Some batches ->
  exists samples,
    mapM (getitem C V s dataset) order = Some samples /\
    concat (map snd batches) = map snd samples /\
    Forall (fun b => snd b <> [] /\ len (snd b) <= batch_size /\
                     exists ts, fst b = Batch ts /\ length ts = length (snd b))
      batches.
Proof.
  intros Hl Hpos Hpass. unfold loader_pass in Hpass. rewrite Hl in Hpass.
  destruct (mapM (getitem C V s dataset) order) as [samples|] eqn:Es; [|discriminate].
  exists samples. split; [reflexivity|].
  apply mapM_Some in Hpass.
  pose proof (chunks_concat (Z.to_nat batch_size) samples []) as Hcat.
  pose proof (chunks_sizes (Z.to_nat batch_size) samples []) as Hsz.
  simpl in Hcat. specialize (Hsz ltac:(simpl; lia)).
  rewrite <- Hcat. clear Hcat Es.
  induction Hpass as [|c b cs bs Hc _ IH]; [split; constructor|].
  apply Forall_cons in Hsz as [[Hne Hle] Hsz].
  destruct (IH Hsz) as [IH1 IH2].
  destruct (collate_batch c b Hc) as [Hsnd (ts & Hts & Hlen)].
  split.
  - simpl. rewrite IH1, map_app, Hsnd. reflexivity.
  - constructor; [|exact IH2]. rewrite Hsnd. split; [|split].
    + intros H. apply Hne. now apply map_eq_nil in H.
    + unfold len. rewrite length_map. lia.
    + exists ts. rewrite length_map. auto.
Qed.

End Transforms.

Lemma loader_pass_batches_witness :
  exists samples,
    mapM (getitem toy_composer toy_vision small_batches 12) [2; 0; 1]%nat =
      Some samples /\
    concat (map snd [(Batch (Image:=Z) [59; 19], [7; 3]); (Batch [39], [5])]) =
      map snd samples /\
    Forall (fun b => snd b <> [] /\ len (snd b) <= 2 /\
                     exists ts, fst b = Batch ts /\ length ts = length (snd b))
      [(Batch (Image:=Z) [59; 19], [7; 3]); (Batch [39], [5])].
Proof.
  apply (loader_pass_batches toy_composer toy_vision small_batches 13 12 2 true 2
           [2; 0; 1]%nat);
    [vm_compute; reflexivity | lia | vm_compute; reflexivity].
Defined.

(** ** The cells *)

Section Cells.

Context {Image Tensor : Type}.
Context (C : Composer Image Tensor).

(** X12: the whole notebook, whatever the library's functions compute:
    [train_and_eval] is called three times; the first time on a new model
    with loaders whose training transform has no augmentation; the second
    time on a second new model with the loaders whose training transform
    ends with [colout_batch]; the third time on that same second model,
    patched in between, with the same loaders.  The first model is never
    patched. *)
Theorem notebook_runs :
  exists s m1 tr1 te1 d1 m2 tr2 te2 d2,
    exec (exec_notebook C) empty_nb = Some s /\
    calls s = [CallTrainAndEval m1 tr1 te1; CallTrainAndEval m2 tr2 te2;
               CallApplySqueezeExcite m2 64 16; CallTrainAndEval m2 tr2 te2] /\
    m1 <> m2 /\
    heap s !! m1 = Some (OModule Net_children) /\
    heap s !! m2 = Some (OModule (patched C Net_children)) /\
    heap s !! tr1 = Some (OLoader d1 1024 true 2) /\
    dataset_transforms s d1 = Some (true, test_transforms) /\
    heap s !! tr2 = Some (OLoader d2 1024 true 2) /\
    dataset_transforms s d2 = Some (true, train_transforms).
Proof.
  destruct (exec (exec_notebook C) empty_nb) as [s|] eqn:E;
    [|vm_compute in E; discriminate].
  assert (H : option_map (fun s =>
                (calls s, heap s !! 7%positive, heap s !! 16%positive,
                 heap s !! 4%positive, dataset_transforms s 3,
                 heap s !! 13%positive, dataset_transforms s 12))
              (exec (exec_notebook C) empty_nb) =
            Some ([CallTrainAndEval 7 4 6; CallTrainAndEval 16 13 15;
                   CallApplySqueezeExcite 16 64 16; CallTrainAndEval 16 13 15],
                  Some (OModule Net_children),
                  Some (OModule (patched C Net_children)),
                  Some (OLoader 3 1024 true 2), Some (true, test_transforms),
                  Some (OLoader 12 1024 true 2), Some (true, train_transforms)))
    by (vm_compute; reflexivity).
  rewrite E in H. cbn [option_map] in H.
  injection H as Hcalls H7 H16 H4 H3 H13 H12.
  exists s, 7%positive, 4%positive, 6%positive, 3%positive,
         16%positive, 13%positive, 15%positive, 12%positive.
  split; [reflexivity|]. split; [exact Hcalls|]. split; [discriminate|].
  split; [exact H7|]. split; [exact H16|]. split; [exact H4|].
  split; [exact H3|]. split; [exact H13|exact H12].
Qed.

End Cells.

Ltac lookups Hd Hb :=
  repeat first
    [ rewrite lookup_insert_eq
    | rewrite lookup_insert_ne by (discriminate || lia)
    | rewrite Hd | rewrite Hb
    | progress cbn [globals heap next calls] ].

Ltac run_cell :=
  unfold exec, exec_colout, CIFAR10, DataLoader, new, assign, name, name_obj,
    name_int, deref, mbind, N_bind, mret, N_ret; cbn [globals heap next calls].

(** X14: the cell of lines 214-233 reads [datadir] and [batch_size], which
    the cell of lines 62-87 binds: in a session in which one of the two
    names is unbound, it raises. *)
Theorem colout_cell_needs_first_cell (s : nb) :
  globals s !! "datadir" = None \/ globals s !! "batch_size" = None ->
  exec exec_colout s = None.
Proof.
  intros H. run_cell.
  destruct (globals s !! "datadir") as [v|] eqn:Hd.
  - destruct H as [H|Hb]; [discriminate|].
    lookups Hd Hb. reflexivity.
  - lookups Hd Hd. reflexivity.
Qed.

Lemma colout_cell_needs_first_cell_witness : exec exec_colout empty_nb = None.
Proof.
  apply (colout_cell_needs_first_cell empty_nb). left. reflexivity.
Defined.

End PipelineFacts.

(* ===================================================================== *)
(** * More on the workflow file: the job and the group *)
(* ===================================================================== *)

Module JobFacts.
Import Workflow Jobs.

Lemma group_of_pull_request (c : github_ctx) (n : Z) :
  pull_request_number c = Some n -> n <> 0 ->
  group_key c = Some (VStr (workflow c), VNum n).
Proof.
  intros Hn Hz. unfold group_key; simpl. rewrite Hn. simpl.
  destruct (Z.eqb_spec n 0); [contradiction|reflexivity].
Qed.

(** X15: two runs of the workflow for pull requests (line 7) are in the
    same concurrency group exactly when they are for the same pull
    request, whatever their refs and repository owners: the group's key is
    the number, and the ref is not read. *)
Theorem pull_request_runs_share_a_group (c1 c2 : github_ctx) (n m : Z) :
  workflow c1 = workflow c2 ->
  pull_request_number c1 = Some n -> n <> 0 ->
  pull_request_number c2 = Some m -> m <> 0 ->
  (group_key c1 = group_key c2 <-> n = m).
Proof.
  intros Hw Hn Hn0 Hm Hm0.
  rewrite (group_of_pull_request c1 n Hn Hn0), (group_of_pull_request c2 m Hm Hm0), Hw.
  split; [intros [= ->]; reflexivity | intros ->; reflexivity].
Qed.

Lemma pull_request_runs_share_a_group_witness :
  group_key {| workflow := "PR GPU tests"; ref := "refs/heads/dev";
               pull_request_number := Some 7; repository_owner := "mosaicml" |} =
  group_key {| workflow := "PR GPU tests"; ref := "refs/heads/main";
               pull_request_number := Some 7; repository_owner := "someone" |}
  <-> 7 = 7.
Proof.
  apply pull_request_runs_share_a_group; [reflexivity | reflexivity | lia | reflexivity | lia].
Defined.

(** X16: the guard of the job (line 21) never fails to evaluate and holds
    exactly when the repository's owner is [mosaicml] up to letter case,
    whatever the ref and the event; a run then starts the one instance of
    the matrix, named [gpu-3.10-2.1], and starts nothing in any other
    owner's repository. *)
Theorem job_runs_for_mosaicml_only (c : github_ctx) :
  (job_if c pytest_gpu = Some true <-> lower (repository_owner c) = "mosaicml") /\
  (job_if c pytest_gpu = Some false <-> lower (repository_owner c) <> "mosaicml") /\
  started c pr_gpu "pytest-gpu" =
    (if String.eqb (lower (repository_owner c)) "mosaicml"
     then [Some (VStr "gpu-3.10-2.1")] else []).
Proof.
  assert (Hif : job_if c pytest_gpu =
                Some (String.eqb (lower (repository_owner c)) "mosaicml"))
    by reflexivity.
  assert (Hst : started c pr_gpu "pytest-gpu" =
                match job_if c pytest_gpu with
                | Some true => [Some (VStr "gpu-3.10-2.1")]
                | _ => []
                end) by reflexivity.
  rewrite Hst, Hif. clear Hst Hif.
  destruct (String.eqb_spec (lower (repository_owner c)) "mosaicml") as [He|Hne].
  - split; [tauto|]. split; [|reflexivity].
    split; [discriminate|contradiction].
  - split; [|split; [tauto|reflexivity]].
    split; [discriminate|contradiction].
Qed.

End JobFacts.

(* ===================================================================== *)
(** * Properties of the training loop as Python runs it *)
(* ===================================================================== *)

Module DynamicFacts.
Import Dynamic Training Phases.

(** The minibatch that the typed embedding sees when the targets are the
    elements of the tensor that the loader yields. *)
Definition relabel {T : Torch} (targets : list Label -> Dynamic.tensor)
    (b : list (Example T * Label)) : list (Example T * Label) :=
  zip (map fst b) (Dynamic.data (targets (map snd b))).

Section Refinement.

Context {T : Torch}.
Context (faults : list (call T) -> call T -> option (LibError T)).

(** [d] does what the computation [m] of the typed embedding does. *)
Definition refines {A} (d : Dynamic.D T A) (m : M T A) : Prop :=
  forall s, d s = Dynamic.lift T m s.

Lemma dbind_run {A B} (m : Dynamic.D T A) (k : A -> Dynamic.D T B) (s : state T) :
  (m ≫= k) s =
  match m s with
  | Dynamic.Returned a s' => k a s'
  | Dynamic.Failed e s' => Dynamic.Failed e s'
  end.
Proof. reflexivity. Qed.

Lemma refines_lift {A} (m : M T A) : refines (Dynamic.lift T m) m.
Proof. intros s. reflexivity. Qed.

Lemma refines_ret {A} (a : A) : refines (mret a) (mret a).
Proof. intros s. reflexivity. Qed.

Lemma refines_bind {A B} (d : Dynamic.D T A) (m : M T A)
    (kd : A -> Dynamic.D T B) (km : A -> M T B) :
  refines d m -> (forall a, refines (kd a) (km a)) -> refines (d ≫= kd) (m ≫= km).
Proof.
  intros Hd Hk s. rewrite dbind_run, Hd. unfold Dynamic.lift.
  rewrite TrainingFacts.bind_run.
  destruct (m s) as [a s'|e s']; [apply Hk | reflexivity].
Qed.

(** A step that the typed embedding does not have, and that returns. *)
Lemma refines_step {A B} (d0 : Dynamic.D T A) (a : A)
    (kd : A -> Dynamic.D T B) (m : M T B) :
  (forall s, d0 s = Dynamic.Returned a s) -> refines (kd a) m -> refines (d0 ≫= kd) m.
Proof. intros H0 Hk s. rewrite dbind_run, H0. apply Hk. Qed.

(** A library call of which the two embeddings keep different views of
    the result. *)
Lemma refines_pure_call {A A' B} (c : call T) (a : A) (a' : A')
    (kd : A -> Dynamic.D T B) (km : A' -> M T B) :
  refines (kd a) (km a') ->
  refines (Dynamic.lift T (pure_call T faults c a) ≫= kd) (pure_call T faults c a' ≫= km).
Proof.
  intros Hk s. rewrite dbind_run. unfold Dynamic.lift.
  rewrite TrainingFacts.bind_run. unfold pure_call, lib.
  destruct (faults (trace s) c); [reflexivity | apply Hk].
Qed.

(** A call whose result is known to satisfy [P]. *)
Lemma refines_bind_post {A B} (m : M T A) (P : A -> Prop)
    (kd : A -> Dynamic.D T B) (km : A -> M T B) :
  (forall s a s', m s = Ok a s' -> P a) ->
  (forall a, P a -> refines (kd a) (km a)) ->
  refines (Dynamic.lift T m ≫= kd) (m ≫= km).
Proof.
  intros HP Hk s. rewrite dbind_run. unfold Dynamic.lift.
  rewrite TrainingFacts.bind_run.
  destruct (m s) as [a s'|e s'] eqn:E; [|reflexivity].
  apply Hk. eapply HP, E.
Qed.

Lemma refines_for_each {A B} (l : list A)
    (bd : B -> A -> Dynamic.D T B) (bm : B -> A -> M T B) :
  (forall acc x, refines (bd acc x) (bm acc x)) ->
  forall acc, refines (Dynamic.for_each T l acc bd) (Training.for_each T l acc bm).
Proof.
  intros Hb. induction l as [|x l IH]; intros acc; simpl.
  - apply refines_ret.
  - apply refines_bind; [apply Hb | apply IH].
Qed.

(** *** Names that resolve *)

Context (ns : gmap string Dynamic.global).

Lemma load_resolved (x : string) (g : Dynamic.global) (s : state T) :
  Dynamic.resolve ns x = Some g -> Dynamic.load T ns x s = Dynamic.Returned g s.
Proof. intros H. unfold Dynamic.load. now rewrite H. Qed.

Lemma attribute_ok (x : string) (s : state T) :
  Dynamic.resolve ns x = Some Dynamic.Library ->
  Dynamic.attribute T ns x s = Dynamic.Returned tt s.
Proof.
  intros H. unfold Dynamic.attribute. rewrite dbind_run, (load_resolved x _ s H).
  reflexivity.
Qed.

Lemma callee_ok (x : string) (s : state T) :
  Dynamic.resolve ns x = Some Dynamic.Library ->
  (f ← Dynamic.load T ns x; Dynamic.callable T f) s = Dynamic.Returned tt s.
Proof.
  intros H. rewrite dbind_run, (load_resolved x _ s H). reflexivity.
Qed.

Lemma intact_resolves (x : string) :
  Dynamic.intact ns -> x ∈ Dynamic.libraries ->
  Dynamic.resolve ns x = Some Dynamic.Library.
Proof. intros H Hx. exact (proj1 (Forall_forall _ _) H x Hx). Qed.

(** *** Tensors *)

Lemma row_eq_same_length (p row : list Label) :
  length p = length row -> Dynamic.row_eq p row = zip_with Z.eqb p row.
Proof.
  destruct row as [|r [|r' row]], p as [|x [|x' p]]; simpl; intros H;
    try discriminate; reflexivity.
Qed.

Lemma eq_tensor_one_per_example (p : list Label) (y : Dynamic.tensor) :
  Dynamic.one_per_example y (length p) ->
  Dynamic.eq_tensor p y = Some (zip_with Z.eqb p (Dynamic.data y)).
Proof.
  intros [Hsh Hlen]. unfold Dynamic.eq_tensor. rewrite Hsh. simpl.
  unfold Dynamic.compatible. rewrite Nat.eqb_refl. simpl.
  rewrite take_ge by lia. rewrite app_nil_r.
  now rewrite row_eq_same_length.
Qed.

Lemma len_ok (y : Dynamic.tensor) (n : nat) (sh : list nat) (s : state T) :
  Dynamic.resolve ns "len" = Some Dynamic.Library ->
  Dynamic.shape y = n :: sh ->
  Dynamic.len T ns y s = Dynamic.Returned (Z.of_nat n) s.
Proof.
  intros Hlen Hsh. unfold Dynamic.len.
  rewrite dbind_run, (load_resolved "len" _ s Hlen). simpl.
  rewrite Hsh. reflexivity.
Qed.

Lemma tensor_eq_some {B} (p : list Label) (y : Dynamic.tensor) (eqs : list bool)
    (kd : list bool -> Dynamic.D T B) (km : list bool -> M T B) :
  Dynamic.eq_tensor p y = Some eqs ->
  refines (kd eqs) (km eqs) ->
  refines (Dynamic.tensor_eq T faults p y ≫= kd)
          (pure_call T faults (CTensorEq p (Dynamic.data y)) eqs ≫= km).
Proof.
  intros He Hk s. rewrite dbind_run. unfold Dynamic.tensor_eq.
  rewrite dbind_run, He. unfold Dynamic.lift.
  rewrite TrainingFacts.bind_run. unfold pure_call, lib.
  destruct (faults (trace s) _); [reflexivity | apply Hk].
Qed.

Lemma model_call_rows (X : list (Example T)) (s : state T) (y_hat : Logits T)
    (s' : state T) :
  model_call T faults X s = Ok y_hat s' -> length (argmax1 T y_hat) = length X.
Proof.
  unfold model_call, lib.
  destruct (faults (trace s) _); [discriminate|].
  pose proof (forward_rows T (training (log T (CForward (training s) X) s))
                (params (log T (CForward (training s) X) s))
                (aux (log T (CForward (training s) X) s)) X) as Hrows.
  destruct (forward T _ _ _ X) as [y a]. simpl in Hrows.
  intros [= <- _]. exact Hrows.
Qed.

(** *** The evaluation loop *)

Context (targets : list Label -> Dynamic.tensor).

Lemma relabel_fst (b : list (Example T * Label)) :
  Dynamic.one_per_example (targets (map snd b)) (length b) ->
  map fst (relabel targets b) = map fst b.
Proof.
  intros [_ Hlen]. unfold relabel. apply fst_zip. rewrite length_map. lia.
Qed.

Lemma relabel_snd (b : list (Example T * Label)) :
  Dynamic.one_per_example (targets (map snd b)) (length b) ->
  map snd (relabel targets b) = Dynamic.data (targets (map snd b)).
Proof.
  intros [_ Hlen]. unfold relabel. apply snd_zip. rewrite length_map. lia.
Qed.

Lemma relabel_length (b : list (Example T * Label)) :
  Dynamic.one_per_example (targets (map snd b)) (length b) ->
  length (relabel targets b) = length b.
Proof.
  intros H. rewrite <- (length_map fst (relabel targets b)), (relabel_fst b H).
  apply length_map.
Qed.

Lemma relabel_default (b : list (Example T * Label)) :
  targets (map snd b) = Dynamic.vector (map snd b) -> relabel targets b = b.
Proof. intros H. unfold relabel. rewrite H. simpl. apply zip_fst_snd. Qed.

(** One minibatch whose targets are a one-dimensional tensor with one
    label per example: the typed embedding's minibatch with the elements
    of the tensor for labels. *)
Lemma eval_batch_refines (dev : device) (acc : Z * Z) (b : list (Example T * Label)) :
  Dynamic.resolve ns "len" = Some Dynamic.Library ->
  Dynamic.one_per_example (targets (map snd b)) (length b) ->
  refines (Dynamic.eval_batch T faults targets ns dev acc b)
          (Training.eval_batch T faults dev acc (relabel targets b)).
Proof.
  intros Hlen Hone.
  unfold Dynamic.eval_batch, Training.eval_batch.
  rewrite (relabel_fst b Hone), (relabel_snd b Hone).
  set (y := targets (map snd b)) in *.
  unfold input_to. apply refines_pure_call.
  unfold Dynamic.target_to, Training.target_to. apply refines_pure_call.
  apply (refines_bind_post _ (fun y_hat => length (argmax1 T y_hat) = length b)).
  { intros s y_hat s' H. apply model_call_rows in H. now rewrite length_map in H. }
  intros y_hat Hrows.
  unfold tensor_argmax. apply refines_pure_call.
  unfold tensor_eq. apply tensor_eq_some.
  { apply eq_tensor_one_per_example. now rewrite Hrows. }
  apply refines_bind; [apply refines_lift | intros total].
  apply refines_bind; [apply refines_lift | intros n].
  destruct Hone as [Hsh Hdata].
  eapply refines_step; [intros s; apply (len_ok y _ _ s Hlen Hsh)|].
  unfold len. rewrite Hdata. apply refines_ret.
Qed.

Lemma eval_loop_refines (dev : device) (bs : list (list (Example T * Label))) :
  Dynamic.resolve ns "len" = Some Dynamic.Library ->
  Forall (fun b => Dynamic.one_per_example (targets (map snd b)) (length b)) bs ->
  forall acc,
    refines (Dynamic.for_each T bs acc (Dynamic.eval_batch T faults targets ns dev))
            (Training.for_each T (map (relabel targets) bs) acc
               (Training.eval_batch T faults dev)).
Proof.
  intros Hlen Hall. induction Hall as [|b bs Hb _ IH]; intros acc; simpl.
  - apply refines_ret.
  - apply refines_bind; [now apply eval_batch_refines | apply IH].
Qed.

Lemma relabel_concat (bs : list (list (Example T * Label))) :
  Forall (fun b => Dynamic.one_per_example (targets (map snd b)) (length b)) bs ->
  len (concat (map (relabel targets) bs)) = len (concat bs) /\
  (Exists (fun b => b <> []) bs -> Exists (fun b => b <> []) (map (relabel targets) bs)) /\
  (Forall (fun b => b = []) bs -> Forall (fun b => b = []) (map (relabel targets) bs)).
Proof.
  induction 1 as [|b bs Hb _ (IH1 & IH2 & IH3)]; cbn [map].
  - repeat split; auto; intros H; inversion H.
  - pose proof (relabel_length b Hb) as Hl. split; [|split].
    + rewrite !TrainingFacts.len_concat_cons, IH1. unfold len. now rewrite Hl.
    + intros Hex. apply Exists_cons in Hex as [Hne|Hex].
      * left. intros E. apply Hne. rewrite E in Hl. simpl in Hl.
        destruct b; [reflexivity | discriminate].
      * right. now apply IH2.
    + intros Hall. apply Forall_cons in Hall as [-> Hall].
      constructor; [|now apply IH3].
      destruct (relabel targets []); [reflexivity | discriminate Hl].
Qed.

(** *** The training pass *)

Lemma train_batch_refines (dev : device) (opt : OptState T)
    (b : list (Example T * Label)) :
  Dynamic.resolve ns "F" = Some Dynamic.Library ->
  refines (Dynamic.train_batch T faults ns dev opt b)
          (Training.train_batch T faults dev opt b).
Proof.
  intros HF. unfold Dynamic.train_batch, Training.train_batch.
  apply refines_bind; [apply refines_lift | intros X].
  apply refines_bind; [apply refines_lift | intros y].
  apply refines_bind; [apply refines_lift | intros y_hat].
  eapply refines_step; [intros s; apply (attribute_ok "F" s HF)|].
  apply refines_bind; [apply refines_lift | intros loss].
  apply refines_bind; [apply refines_lift | intros shown].
  apply refines_bind; [apply refines_lift | intros []].
  apply refines_bind; [apply refines_lift | intros []].
  apply refines_bind; [apply refines_lift | intros opt'].
  apply refines_bind; [apply refines_lift | intros []].
  apply refines_ret.
Qed.

Lemma dbind_assoc {A B C} (m : Dynamic.D T A) (f : A -> Dynamic.D T B)
    (g : B -> Dynamic.D T C) (s : state T) :
  ((m ≫= f) ≫= g) s = (m ≫= (fun a => f a ≫= g)) s.
Proof. rewrite !dbind_run. destruct (m s); reflexivity. Qed.

Lemma train_phase_refines (train_loader : Loader T) (dev : device) (opt : OptState T) :
  Dynamic.resolve ns "tqdm" = Some Dynamic.Library ->
  Dynamic.resolve ns "F" = Some Dynamic.Library ->
  refines (Dynamic.train_phase T faults ns train_loader dev opt)
          (Training.train_phase T faults train_loader dev opt).
Proof.
  intros Htqdm HF. unfold Dynamic.train_phase, Training.train_phase.
  apply refines_bind; [apply refines_lift | intros []].
  eapply refines_step; [intros s; apply (load_resolved "tqdm" _ s Htqdm)|].
  eapply (refines_step (Dynamic.callable T Dynamic.Library) tt); [reflexivity|].
  apply refines_bind; [apply refines_lift | intros progress_bar].
  apply refines_bind; [apply refines_lift | intros bs].
  apply refines_for_each. intros acc b. now apply train_batch_refines.
Qed.

Lemma print_refines (l : line) :
  Dynamic.resolve ns "print" = Some Dynamic.Library ->
  refines (Dynamic.print T ns l) (Training.print T l).
Proof.
  intros Hp. unfold Dynamic.print.
  eapply refines_step; [intros s; apply (load_resolved "print" _ s Hp)|].
  eapply (refines_step (Dynamic.callable T Dynamic.Library) tt); [reflexivity|].
  apply refines_lift.
Qed.

End Refinement.

(** ** Runs in which the library's calls return *)

Section Reliable.

Context {T : Torch}.
Context (targets : list Label -> Dynamic.tensor).
Context (ns : gmap string Dynamic.global).

(** The evaluation pass up to the division of line 175. *)
Lemma dyn_eval_phase_run (test_loader : Loader T) (dev : device) (epoch : Z)
    (s : state T) :
  Dynamic.resolve ns "print" = Some Dynamic.Library ->
  Dynamic.resolve ns "len" = Some Dynamic.Library ->
  Dynamic.one_label_each targets (fst (batches T test_loader (aux s))) ->
  exists num_right eval_size s1,
    out s1 = out s /\ params s1 = params s /\
    0 <= num_right <= eval_size /\
    eval_size = len (concat (fst (batches T test_loader (aux s)))) /\
    Dynamic.eval_phase T reliable targets ns test_loader dev epoch s =
      Dynamic.lift T (acc_percent ← true_div T (100 * num_right) eval_size;
                      Training.print T (ValidationAccuracy epoch acc_percent)) s1.
Proof.
  intros Hprint Hlen Hone.
  unfold Dynamic.eval_phase.
  rewrite dbind_run. unfold Dynamic.lift at 1, model_eval, lib. simpl.
  rewrite dbind_run. unfold Dynamic.lift at 1, iterate, lib. simpl.
  destruct (batches T test_loader (aux s)) as [bs a] eqn:Eb. simpl in *.
  set (s0 := set_aux T a _).
  rewrite dbind_run, (eval_loop_refines reliable ns targets dev bs Hlen Hone (0, 0) s0).
  destruct (TrainingFacts.eval_loop_returns dev (map (relabel targets) bs) s0 eq_refl)
    as ([num_right eval_size] & s1 & Hrun & _ & Ho & Hp & _ & Hacc & Hsz).
  destruct (relabel_concat targets bs Hone) as (Hcat & _).
  unfold Dynamic.lift at 1. rewrite Hrun.
  exists num_right, eval_size, s1. simpl in *.
  split; [exact Ho|]. split; [exact Hp|]. split; [exact Hacc|].
  split; [now rewrite Hsz, Hcat|].
  apply (refines_bind _ _ _ _ (refines_lift _)).
  intros q. now apply print_refines.
Qed.

(** The evaluation pass, both ways it can end. *)
Lemma dyn_eval_phase_outcome (test_loader : Loader T) (dev : device) (epoch : Z)
    (s : state T) :
  Dynamic.resolve ns "print" = Some Dynamic.Library ->
  Dynamic.resolve ns "len" = Some Dynamic.Library ->
  Dynamic.one_label_each targets (fst (batches T test_loader (aux s))) ->
  let eval_size := len (concat (fst (batches T test_loader (aux s)))) in
  match Dynamic.eval_phase T reliable targets ns test_loader dev epoch s with
  | Dynamic.Returned _ s' =>
      0 < eval_size /\ params s' = params s /\
      exists num_right acc_percent,
        0 <= num_right <= eval_size /\
        (acc_percent == inject_Z (100 * num_right) / inject_Z eval_size)%Q /\
        is_percentage acc_percent /\
        out s' = out s ++ [ValidationAccuracy epoch acc_percent]
  | Dynamic.Failed e s' =>
      e = Dynamic.Inner ZeroDivisionError /\ eval_size = 0 /\
      params s' = params s /\ out s' = out s
  end.
Proof.
  intros Hprint Hlen Hone eval_size.
  destruct (dyn_eval_phase_run test_loader dev epoch s Hprint Hlen Hone)
    as (num_right & sz & s1 & Ho & Hp & Hacc & Hsz & ->).
  fold eval_size in Hsz. subst sz.
  unfold Dynamic.lift. rewrite TrainingFacts.bind_run. unfold true_div.
  destruct (Z.eqb_spec eval_size 0) as [Hz|Hnz]; simpl.
  - auto.
  - assert (Hpos : 0 < eval_size) by lia.
    destruct (TrainingFacts.percentage num_right eval_size Hpos Hacc) as (Hq & Hq0 & Hq100).
    split; [exact Hpos|]. split; [exact Hp|].
    eexists num_right, _. split; [exact Hacc|]. split; [exact Hq|].
    split; [split; assumption|]. now rewrite Ho.
Qed.

(** One epoch, when its pass over the test loader has an example. *)
Lemma dyn_run_epoch_returns (train_loader test_loader : Loader T) (dev : device)
    (opt : OptState T) (epoch : Z) (s : state T) :
  Dynamic.intact ns ->
  (forall a, Dynamic.one_label_each targets (fst (batches T test_loader a)) /\
             Exists (fun b => b <> []) (fst (batches T test_loader a))) ->
  exists opt' s' acc_percent,
    Dynamic.run_epoch T reliable targets ns train_loader test_loader dev opt epoch s =
      Dynamic.Returned opt' s' /\
    is_percentage acc_percent /\
    out s' = out s ++ [BeginningEpoch epoch; ValidationAccuracy epoch acc_percent].
Proof.
  intros Hns Htest.
  assert (Hprint := intact_resolves ns "print" Hns ltac:(repeat constructor)).
  assert (Hlen := intact_resolves ns "len" Hns ltac:(repeat constructor)).
  assert (Htqdm := intact_resolves ns "tqdm" Hns ltac:(repeat constructor)).
  assert (HF := intact_resolves ns "F" Hns ltac:(repeat constructor)).
  unfold Dynamic.run_epoch.
  rewrite dbind_run, (print_refines ns _ Hprint). unfold Dynamic.lift at 1. simpl.
  rewrite dbind_run, (train_phase_refines reliable ns train_loader dev opt Htqdm HF).
  destruct (TrainingFacts.train_phase_returns train_loader dev opt
              (emit T (BeginningEpoch epoch) s)) as (opt1 & s1 & Hrun & _ & Ho1 & _).
  unfold Dynamic.lift at 1. rewrite Hrun. simpl in Ho1.
  rewrite dbind_run.
  destruct (Htest (aux s1)) as [Hone Hex].
  pose proof (dyn_eval_phase_outcome test_loader dev epoch s1 Hprint Hlen Hone) as Hev.
  pose proof (TrainingFacts.len_concat_pos _ Hex) as Hpos.
  cbv zeta in Hev.
  destruct (Dynamic.eval_phase T reliable targets ns test_loader dev epoch s1)
    as [[] s2|e s2].
  - destruct Hev as (_ & _ & nr & q & _ & _ & Hq & Ho2).
    exists opt1, s2, q. split; [reflexivity|]. split; [exact Hq|].
    rewrite Ho2, Ho1. now rewrite <- app_assoc.
  - destruct Hev as (_ & Hz & _). lia.
Qed.

Lemma dyn_epochs_return (train_loader test_loader : Loader T) (dev : device) :
  Dynamic.intact ns ->
  (forall a, Dynamic.one_label_each targets (fst (batches T test_loader a)) /\
             Exists (fun b => b <> []) (fst (batches T test_loader a))) ->
  forall (es : list Z) (opt : OptState T) (s : state T),
  exists opt' s' accs,
    Dynamic.for_each T es opt
      (Dynamic.run_epoch T reliable targets ns train_loader test_loader dev) s =
      Dynamic.Returned opt' s' /\
    length accs = length es /\ Forall is_percentage accs /\
    out s' = out s ++ epoch_lines es accs.
Proof.
  intros Hns Htest es. induction es as [|e es IH]; intros opt s.
  - exists opt, s, []. simpl. rewrite app_nil_r. repeat split. constructor.
  - simpl. rewrite dbind_run.
    destruct (dyn_run_epoch_returns train_loader test_loader dev opt e s Hns Htest)
      as (opt1 & s1 & q & -> & Hq & Ho1).
    destruct (IH opt1 s1) as (opt2 & s2 & accs & -> & Hlen & Hall & Ho2).
    exists opt2, s2, (q :: accs). split; [reflexivity|].
    split; [simpl; congruence|]. split; [constructor; assumption|].
    rewrite Ho2, Ho1. unfold epoch_lines. simpl. now rewrite <- app_assoc.
Qed.

(** Lines 146-149, and the loop that follows. *)
Lemma dyn_after_setup (index_of : positive -> option Z)
    (train_loader test_loader : Loader T) (s : state T) :
  Dynamic.resolve ns "torch" = Some Dynamic.Library ->
  Dynamic.train_and_eval T reliable index_of targets ns train_loader test_loader s =
    (epochs ← Dynamic.range_num_epochs T index_of ns;
     Dynamic.for_each T epochs (adam T (params s))
       (Dynamic.run_epoch T reliable targets ns train_loader test_loader (device_of T));;
     mret tt) (after_setup s).
Proof.
  intros Htorch. unfold Dynamic.train_and_eval.
  rewrite dbind_run, (attribute_ok ns "torch" s Htorch).
  rewrite dbind_run. unfold Dynamic.lift at 1, torch_manual_seed, lib. simpl.
  rewrite dbind_run, (attribute_ok ns "torch" _ Htorch).
  rewrite dbind_run. unfold Dynamic.lift at 1, torch_cuda_is_available, pure_call, lib. simpl.
  rewrite dbind_run. unfold Dynamic.lift at 1, model_to, pure_call, lib. simpl.
  rewrite dbind_run, (attribute_ok ns "torch" _ Htorch).
  rewrite dbind_run. unfold Dynamic.lift at 1, model_parameters, lib. simpl.
  rewrite dbind_run. unfold Dynamic.lift at 1, optim_Adam, pure_call, lib. simpl.
  replace (log T CAdam _) with (after_setup s); [reflexivity|].
  unfold after_setup, log, set_aux, setup_calls; simpl.
  f_equal. fold (device_of T). now rewrite <- !app_assoc.
Qed.

(** C9, amended: in a namespace where [print] and [len] are the builtins,
    with the library's calls returning and a model that returns one row of
    logits per example, when the minibatches of the pass over
    [test_loader] carry their targets as a one-dimensional tensor with one
    label per example and the pass has at least one example, the
    evaluation at the end of an epoch divides by [eval_size > 0], the
    number of examples of the pass; [acc_percent] is
    [100 * num_right / eval_size] with [0 <= num_right <= eval_size], lies
    between 0 and 100 and is printed.  When the pass has no example,
    [eval_size] is [0] and line 175 raises [ZeroDivisionError] before
    anything is printed. *)
Theorem accuracy_is_a_percentage (test_loader : Loader T) (dev : device)
    (epoch : Z) (s : state T) :
  Dynamic.resolve ns "print" = Some Dynamic.Library ->
  Dynamic.resolve ns "len" = Some Dynamic.Library ->
  Dynamic.one_label_each targets (fst (batches T test_loader (aux s))) ->
  (Exists (fun b => b <> []) (fst (batches T test_loader (aux s))) ->
   exists num_right eval_size acc_percent s',
     Dynamic.eval_phase T reliable targets ns test_loader dev epoch s =
       Dynamic.Returned tt s' /\
     eval_size = len (concat (fst (batches T test_loader (aux s)))) /\
     0 < eval_size /\ 0 <= num_right <= eval_size /\
     (acc_percent == inject_Z (100 * num_right) / inject_Z eval_size)%Q /\
     (0 <= acc_percent)%Q /\ (acc_percent <= 100)%Q /\
     out s' = out s ++ [ValidationAccuracy epoch acc_percent]) /\
  (Forall (fun b => b = []) (fst (batches T test_loader (aux s))) ->
   exists s',
     Dynamic.eval_phase T reliable targets ns test_loader dev epoch s =
       Dynamic.Failed (Dynamic.Inner ZeroDivisionError) s' /\
     out s' = out s).
Proof.
  intros Hprint Hlen Hone.
  pose proof (dyn_eval_phase_outcome test_loader dev epoch s Hprint Hlen Hone) as Hev.
  cbv zeta in Hev. split.
  - intros Hex. pose proof (TrainingFacts.len_concat_pos _ Hex) as Hpos.
    destruct (Dynamic.eval_phase T reliable targets ns test_loader dev epoch s)
      as [[] s'|e s'].
    + destruct Hev as (_ & _ & num_right & q & Hacc & Hq & [Hq0 Hq100] & Ho).
      exists num_right, (len (concat (fst (batches T test_loader (aux s))))), q, s'.
      repeat split; try assumption; lia.
    + destruct Hev as (_ & Hz & _). lia.
  - intros Hall. pose proof (TrainingFacts.len_concat_zero _ Hall) as Hzero.
    destruct (Dynamic.eval_phase T reliable targets ns test_loader dev epoch s)
      as [[] s'|e s'].
    + destruct Hev as (Hpos & _). lia.
    + destruct Hev as (-> & _ & _ & Ho). exists s'. auto.
Qed.

(** X2: in a namespace where the names of the libraries and builtins are
    intact and [num_epochs] is an integer [n] (or an object whose
    [__index__] is [n]), with the library's calls returning, when every
    pass over [test_loader] has an example and carries its targets as
    one-dimensional tensors with one label per example, [train_and_eval]
    returns and has printed, for each epoch [0 .. n - 1] in turn, the line
    that begins the epoch and then the line of its validation accuracy, a
    number between 0 and 100, and nothing else. *)
Theorem printed_lines (index_of : positive -> option Z) (g : Dynamic.global) (n : Z)
    (train_loader test_loader : Loader T) (s : state T) :
  Dynamic.intact ns ->
  ns !! "num_epochs" = Some g ->
  Dynamic.as_count index_of g = Some n ->
  (forall a, Dynamic.one_label_each targets (fst (batches T test_loader a)) /\
             Exists (fun b => b <> []) (fst (batches T test_loader a))) ->
  exists s' accs,
    Dynamic.train_and_eval T reliable index_of targets ns train_loader test_loader s =
      Dynamic.Returned tt s' /\
    length accs = Z.to_nat n /\ Forall is_percentage accs /\
    out s' = out s ++ epoch_lines (range n) accs.
Proof.
  intros Hns Hg Hn Htest.
  assert (Htorch := intact_resolves ns "torch" Hns ltac:(repeat constructor)).
  assert (Hrange := intact_resolves ns "range" Hns ltac:(repeat constructor)).
  rewrite (dyn_after_setup index_of train_loader test_loader s Htorch).
  rewrite dbind_run. unfold Dynamic.range_num_epochs.
  rewrite dbind_run, (load_resolved ns "range" _ _ Hrange).
  rewrite dbind_run, (load_resolved ns "num_epochs" g).
  2:{ unfold Dynamic.resolve. now rewrite Hg. }
  rewrite dbind_run. simpl. rewrite Hn. simpl.
  destruct (dyn_epochs_return train_loader test_loader (device_of T) Hns Htest
              (range n) (adam T (params s)) (after_setup s))
    as (opt & s' & accs & Hrun & Hlen & Hall & Ho).
  rewrite dbind_run, Hrun. exists s', accs.
  rewrite TrainingFacts.length_range in Hlen. auto.
Qed.

(** X5: when [num_epochs] is not bound, line 151 raises [NameError]; when
    it is bound to a string, or to an object without [__index__],
    [TypeError]; by then lines 146-149 have run (the generator is seeded,
    the optimizer made), nothing is printed and the parameters are
    untouched. *)
Theorem num_epochs_missing (index_of : positive -> option Z)
    (train_loader test_loader : Loader T) (s : state T) :
  Dynamic.resolve ns "torch" = Some Dynamic.Library ->
  match ns !! "num_epochs" with
  | Some g => Dynamic.as_count index_of g = None
  | None => True
  end ->
  Dynamic.train_and_eval T reliable index_of targets ns train_loader test_loader s =
    Dynamic.Failed
      (Dynamic.Inner (match ns !! "num_epochs" with
                      | None => NameError "num_epochs"
                      | Some _ => TypeError
                      end)) (after_setup s).
Proof.
  intros Htorch Hn.
  rewrite (dyn_after_setup index_of train_loader test_loader s Htorch).
  rewrite dbind_run. unfold Dynamic.range_num_epochs.
  rewrite dbind_run. unfold Dynamic.load at 1, Dynamic.resolve at 1.
  assert (Hr : exists f, match ns !! "range" with
                         | Some g => Some g
                         | None => if existsb (String.eqb "range") Dynamic.builtins
                                   then Some Dynamic.Library else None
                         end = Some f).
  { destruct (ns !! "range") as [f|]; eauto. }
  destruct Hr as [f ->].
  rewrite dbind_run. unfold Dynamic.load, Dynamic.resolve.
  destruct (ns !! "num_epochs") as [g|]; simpl; [|reflexivity].
  rewrite dbind_run. destruct f; simpl; [|reflexivity].
  now rewrite Hn.
Qed.

End Reliable.

(** ** The typed embedding is the restriction to the notebook's names and
       to the default collation *)

Section Restriction.

Context {T : Torch}.
Context (faults : list (call T) -> call T -> option (LibError T)).
Context (index_of : positive -> option Z).
Context (targets : list Label -> Dynamic.tensor).
Context (ns : gmap string Dynamic.global).

Hypothesis default_collation : forall ys, targets ys = Dynamic.vector ys.

Lemma eval_batch_restricts (dev : device) (acc : Z * Z) (b : list (Example T * Label)) :
  Dynamic.resolve ns "len" = Some Dynamic.Library ->
  refines (Dynamic.eval_batch T faults targets ns dev acc b)
          (Training.eval_batch T faults dev acc b).
Proof.
  intros Hlen.
  rewrite <- (relabel_default targets b (default_collation _)) at 2.
  apply eval_batch_refines; [exact Hlen|].
  rewrite default_collation. split; simpl; now rewrite length_map.
Qed.

Lemma eval_phase_restricts (test_loader : Loader T) (dev : device) (epoch : Z) :
  Dynamic.resolve ns "print" = Some Dynamic.Library ->
  Dynamic.resolve ns "len" = Some Dynamic.Library ->
  refines (Dynamic.eval_phase T faults targets ns test_loader dev epoch)
          (Training.eval_phase T faults test_loader dev epoch).
Proof.
  intros Hprint Hlen. unfold Dynamic.eval_phase, Training.eval_phase.
  apply refines_bind; [apply refines_lift | intros []].
  apply refines_bind; [apply refines_lift | intros bs].
  apply refines_bind.
  { apply refines_for_each. intros acc b. now apply eval_batch_restricts. }
  intros acc.
  apply refines_bind; [apply refines_lift | intros q].
  now apply print_refines.
Qed.

Lemma run_epoch_restricts (train_loader test_loader : Loader T) (dev : device)
    (opt : OptState T) (epoch : Z) :
  Dynamic.intact ns ->
  refines (Dynamic.run_epoch T faults targets ns train_loader test_loader dev opt epoch)
          (Training.run_epoch T faults train_loader test_loader dev opt epoch).
Proof.
  intros Hns.
  assert (Hprint := intact_resolves ns "print" Hns ltac:(repeat constructor)).
  assert (Hlen := intact_resolves ns "len" Hns ltac:(repeat constructor)).
  assert (Htqdm := intact_resolves ns "tqdm" Hns ltac:(repeat constructor)).
  assert (HF := intact_resolves ns "F" Hns ltac:(repeat constructor)).
  unfold Dynamic.run_epoch, Training.run_epoch.
  apply refines_bind; [now apply print_refines | intros []].
  apply refines_bind; [now apply train_phase_refines | intros opt1].
  apply refines_bind; [now apply eval_phase_restricts | intros []].
  apply refines_ret.
Qed.

Lemma range_num_epochs_restricts (globals : gmap string pyval) :
  Dynamic.resolve ns "range" = Some Dynamic.Library ->
  ns !! "num_epochs" = Dynamic.Plain <$> globals !! "num_epochs" ->
  (forall id, globals !! "num_epochs" = Some (PyObj id) -> index_of id = None) ->
  refines (Dynamic.range_num_epochs T index_of ns) (Training.range_num_epochs T globals).
Proof.
  intros Hrange Hn Hid s.
  unfold Dynamic.range_num_epochs, Training.range_num_epochs.
  rewrite dbind_run, (load_resolved ns "range" _ _ Hrange).
  rewrite dbind_run. unfold Dynamic.load, Dynamic.resolve. rewrite Hn.
  destruct (globals !! "num_epochs") as [[n|str|id]|] eqn:E; simpl; try reflexivity.
  now rewrite (Hid id eq_refl).
Qed.

(** In a namespace where the names of the libraries and builtins are
    intact, with the default collation of the test targets, the function
    does what its typed embedding does. *)
Lemma train_and_eval_restricts (globals : gmap string pyval)
    (train_loader test_loader : Loader T) :
  Dynamic.intact ns ->
  ns !! "num_epochs" = Dynamic.Plain <$> globals !! "num_epochs" ->
  (forall id, globals !! "num_epochs" = Some (PyObj id) -> index_of id = None) ->
  refines (Dynamic.train_and_eval T faults index_of targets ns train_loader test_loader)
          (Training.train_and_eval T faults globals train_loader test_loader).
Proof.
  intros Hns Hn Hid.
  assert (Htorch := intact_resolves ns "torch" Hns ltac:(repeat constructor)).
  assert (Hrange := intact_resolves ns "range" Hns ltac:(repeat constructor)).
  unfold Dynamic.train_and_eval, Training.train_and_eval.
  eapply refines_step; [intros s; apply (attribute_ok ns "torch" s Htorch)|].
  apply refines_bind; [apply refines_lift | intros []].
  eapply refines_step; [intros s; apply (attribute_ok ns "torch" s Htorch)|].
  apply refines_bind; [apply refines_lift | intros available].
  apply refines_bind; [apply refines_lift | intros []].
  eapply refines_step; [intros s; apply (attribute_ok ns "torch" s Htorch)|].
  apply refines_bind; [apply refines_lift | intros ps].
  apply refines_bind; [apply refines_lift | intros opt].
  apply refines_bind; [now apply range_num_epochs_restricts | intros epochs].
  apply refines_bind; [|intros opt'; apply refines_ret].
  apply refines_for_each. intros acc epoch. now apply run_epoch_restricts.
Qed.

End Restriction.

Section Counting.

Context {T : Torch}.
Context (targets : list Label -> Dynamic.tensor).
Context (ns : gmap string Dynamic.global).

(** X7: with the default collation of the test targets and [print] and
    [len] the builtins, the accuracy that an epoch prints is one hundred
    times the number of test examples whose predicted class (the arg-max
    of the model's output in eval mode) equals their target, divided by
    the number of test examples of the pass. *)
Theorem accuracy_counts_correct_predictions (test_loader : Loader T)
    (dev : device) (epoch : Z) (s : state T) :
  (forall ys, targets ys = Dynamic.vector ys) ->
  Dynamic.resolve ns "print" = Some Dynamic.Library ->
  Dynamic.resolve ns "len" = Some Dynamic.Library ->
  let bs := fst (batches T test_loader (aux s)) in
  let rz := tally T (params s) (snd (batches T test_loader (aux s))) bs in
  snd rz <> 0 ->
  snd rz = len (concat bs) /\
  exists q s',
    Dynamic.eval_phase T reliable targets ns test_loader dev epoch s =
      Dynamic.Returned tt s' /\
    out s' = out s ++ [ValidationAccuracy epoch q] /\
    (q == inject_Z (100 * fst rz) / inject_Z (snd rz))%Q.
Proof.
  intros Hdefault Hprint Hlen bs rz Hne.
  split; [apply PhaseFacts.tally_bounds|].
  pose proof (PhaseFacts.eval_phase_outcome test_loader dev epoch s) as Hev.
  simpl in Hev. fold bs in Hev. fold rz in Hev.
  rewrite (eval_phase_restricts reliable targets ns Hdefault test_loader dev epoch
             Hprint Hlen s).
  unfold Dynamic.lift.
  destruct (Training.eval_phase T reliable test_loader dev epoch s) as [[] s'|e s'].
  - destruct Hev as (_ & _ & _ & _ & q & Ho & Hq & _). exists q, s'. auto.
  - destruct Hev as (_ & Hz & _). contradiction.
Qed.

End Counting.

(** ** The names that the function reads *)

Section Names.

Context {T : Torch}.
Context (faults : list (call T) -> call T -> option (LibError T)).
Context (index_of : positive -> option Z).
Context (targets : list Label -> Dynamic.tensor).

Lemma resolve_agree (ns1 ns2 : gmap string Dynamic.global) (x : string) :
  ns1 !! x = ns2 !! x -> Dynamic.resolve ns1 x = Dynamic.resolve ns2 x.
Proof. intros H. unfold Dynamic.resolve. now rewrite H. Qed.

(** C6, amended: [train_and_eval] reads seven names from outside its
    parameters and locals when it runs: [torch], [F] and [tqdm], which
    the notebook imports, [num_epochs], and [print], [range] and [len],
    which are the builtins unless the module binds them.  Two runs with
    equal arguments, from the same state of the framework, whose module
    namespaces bind these seven names alike behave identically, whatever
    else the namespaces bind. *)
Theorem train_and_eval_reads_seven_names (ns1 ns2 : gmap string Dynamic.global)
    (train_loader test_loader : Loader T) (s : state T) :
  Forall (fun x => ns1 !! x = ns2 !! x) Dynamic.names_read ->
  Dynamic.train_and_eval T faults index_of targets ns1 train_loader test_loader s =
  Dynamic.train_and_eval T faults index_of targets ns2 train_loader test_loader s.
Proof.
  intros H. unfold Dynamic.names_read in H.
  repeat (apply Forall_cons in H as [?%resolve_agree H]).
  unfold Dynamic.train_and_eval, Dynamic.run_epoch, Dynamic.train_phase,
    Dynamic.eval_phase, Dynamic.train_batch, Dynamic.eval_batch, Dynamic.print,
    Dynamic.len, Dynamic.range_num_epochs, Dynamic.attribute, Dynamic.load.
  repeat match goal with E : Dynamic.resolve ns1 _ = _ |- _ => rewrite E; clear E end.
  reflexivity.
Qed.

End Names.

(** ** Runs on the small framework *)

Section SmallRuns.

Import Stump.

(** C6, as stated, fails: the loop reads the module-level [num_epochs], so
    two runs with the same arguments print different things when the name
    is bound to 1 and to 2. *)
Lemma num_epochs_is_global_state :
  ~ (forall (T : Torch) (faults : list (call T) -> call T -> option (LibError T))
       (index_of : positive -> option Z) (targets : list Label -> Dynamic.tensor)
       (ns1 ns2 : gmap string Dynamic.global)
       (train_loader test_loader : Loader T) (s : state T),
       Dynamic.train_and_eval T faults index_of targets ns1 train_loader test_loader s =
       Dynamic.train_and_eval T faults index_of targets ns2 train_loader test_loader s).
Proof.
  intros H.
  specialize (H torch reliable Dynamic.no_index Dynamic.vector
                (Dynamic.notebook_namespace 1) (Dynamic.notebook_namespace 2)
                train1 test1 model0).
  apply (f_equal (fun r => match r with
                           | Dynamic.Returned _ s' | Dynamic.Failed _ s' => length (out s')
                           end)) in H.
  vm_compute in H. discriminate.
Qed.

Lemma train_and_eval_reads_seven_names_witness :
  Dynamic.train_and_eval torch reliable Dynamic.no_index Dynamic.vector
    (Dynamic.notebook_namespace 2) train1 test1 model0 =
  Dynamic.train_and_eval torch reliable Dynamic.no_index Dynamic.vector
    (<["datadir" := Dynamic.Plain (PyStr "./data")]> (Dynamic.notebook_namespace 2))
    train1 test1 model0.
Proof.
  apply (train_and_eval_reads_seven_names reliable).
  repeat constructor.
Defined.

(** C9, as stated, fails: with the same four labels in a tensor of shape
    [4, 1], line 173 counts the sixteen pairs of a prediction and a target
    that agree, line 174 adds four, and line 176 prints 400.00%. *)
Lemma accuracy_above_one_hundred :
  Exists (fun b => b <> []) (fst (batches torch Dynamic.test_ones (aux model0))) /\
  exists s',
    Dynamic.eval_phase torch reliable Dynamic.column (Dynamic.notebook_namespace 5)
      Dynamic.test_ones cpu 0 model0 = Dynamic.Returned tt s' /\
    out s' = [ValidationAccuracy 0 (1600 # 4)] /\ (1600 # 4 == 400)%Q.
Proof.
  split; [left; discriminate|].
  eexists. split; [vm_compute; reflexivity|]. split; reflexivity.
Qed.

Lemma accuracy_is_a_percentage_witness :
  exists num_right eval_size acc_percent s',
    Dynamic.eval_phase torch reliable Dynamic.vector (Dynamic.notebook_namespace 5)
      test1 cpu 0 model0 = Dynamic.Returned tt s' /\
    eval_size = len (concat (fst (batches torch test1 (aux model0)))) /\
    0 < eval_size /\ 0 <= num_right <= eval_size /\
    (acc_percent == inject_Z (100 * num_right) / inject_Z eval_size)%Q /\
    (0 <= acc_percent)%Q /\ (acc_percent <= 100)%Q /\
    out s' = out model0 ++ [ValidationAccuracy 0 acc_percent].
Proof.
  apply (proj1 (accuracy_is_a_percentage (T:=torch) Dynamic.vector
                  (Dynamic.notebook_namespace 5) test1 cpu 0 model0
                  eq_refl eq_refl ltac:(repeat constructor))).
  left. discriminate.
Defined.

Lemma printed_lines_witness :
  exists s' accs,
    Dynamic.train_and_eval torch reliable Dynamic.no_index Dynamic.vector
      (Dynamic.notebook_namespace 2) train1 test1 model0 = Dynamic.Returned tt s' /\
    length accs = Z.to_nat 2 /\ Forall is_percentage accs /\
    out s' = out model0 ++ epoch_lines (range 2) accs.
Proof.
  apply (printed_lines (T:=torch) Dynamic.vector (Dynamic.notebook_namespace 2)
           Dynamic.no_index (Dynamic.Plain (PyInt 2)) 2 train1 test1 model0).
  - repeat constructor.
  - reflexivity.
  - reflexivity.
  - intros a. split; [repeat constructor | left; discriminate].
Defined.

Lemma num_epochs_missing_witness :
  Dynamic.train_and_eval torch reliable Dynamic.no_index Dynamic.vector
    (<["num_epochs" := Dynamic.Plain (PyStr "5")]> (Dynamic.notebook_namespace 5))
    train1 test1 model0 =
  Dynamic.Failed
    (Dynamic.Inner
       (match (<["num_epochs" := Dynamic.Plain (PyStr "5")]>
                 (Dynamic.notebook_namespace 5)) !! "num_epochs" with
        | None => NameError "num_epochs"
        | Some _ => TypeError
        end)) (after_setup model0).
Proof.
  apply (num_epochs_missing (T:=torch) Dynamic.vector
           (<["num_epochs" := Dynamic.Plain (PyStr "5")]> (Dynamic.notebook_namespace 5))
           Dynamic.no_index train1 test1 model0); reflexivity.
Defined.

Lemma accuracy_counts_correct_predictions_witness :
  snd (tally torch (params model0) (snd (batches torch test1 (aux model0)))
         (fst (batches torch test1 (aux model0)))) =
    len (concat (fst (batches torch test1 (aux model0)))) /\
  exists q s',
    Dynamic.eval_phase torch reliable Dynamic.vector (Dynamic.notebook_namespace 5)
      test1 cpu 0 model0 = Dynamic.Returned tt s' /\
    out s' = out model0 ++ [ValidationAccuracy 0 q] /\
    (q == inject_Z (100 * fst (tally torch (params model0)
                                 (snd (batches torch test1 (aux model0)))
                                 (fst (batches torch test1 (aux model0)))))
          / inject_Z (snd (tally torch (params model0)
                             (snd (batches torch test1 (aux model0)))
                             (fst (batches torch test1 (aux model0))))))%Q.
Proof.
  apply (accuracy_counts_correct_predictions (T:=torch) Dynamic.vector
           (Dynamic.notebook_namespace 5) test1 cpu 0 model0).
  - reflexivity.
  - reflexivity.
  - reflexivity.
  - vm_compute. discriminate.
Defined.

End SmallRuns.

End DynamicFacts.
